(** * DebugAgent: the driver loop, the tool dispatcher and the tool handlers

    A shallow embedding of [agent/agent.py], [agent/tools/__init__.py],
    [agent/tools/github.py], [agent/tools/gcp_logging.py],
    [agent/config.py] and [get_user_prompt] of [agent/prompts.py], followed
    by the properties of the control-flow engine: termination of the driver
    loop, the shape of the transcript, and the failure policy of the
    dispatcher.

    Conventions.
    - A Python [str] is a [string]; a character stands for a code point
      below 256.
    - The values that travel through the tools are [None], [bool], [int],
      [str], [list] and [dict] with string keys (what [json.loads]
      produces, floats left out).  A [dict] keeps the order of its items.
    - A Python function that may raise returns an [outcome]; a function with
      effects is a state transformer on the [process].
    - [print] and [_log] only write to the terminal and are left out; the
      text [_log] is given is built before the call, verbose or not, and
      where building it may raise, that is kept. *)

From Stdlib Require Import Ascii String ZArith List Lia.
From stdpp Require Import base strings list gmap pretty.

#[local] Set Warnings "-register-all,-clear-no-such-hyp".
#[local] Open Scope Z_scope.

(** ** Python values *)

Inductive pyvalue : Type :=
| PNone
| PBool (b : bool)
| PInt (z : Z)
| PStr (s : string)
| PList (items : list pyvalue)
| PDict (items : list (string * pyvalue)).

(** [bool(v)] *)
Definition truthy (v : pyvalue) : bool :=
  match v with
  | PNone => false
  | PBool b => b
  | PInt z => negb (z =? 0)
  | PStr s => negb (String.eqb s "")
  | PList items => match items with [] => false | _ => true end
  | PDict items => match items with [] => false | _ => true end
  end.

(** [type(v).__name__] *)
Definition type_name (v : pyvalue) : string :=
  match v with
  | PNone => "NoneType"
  | PBool _ => "bool"
  | PInt _ => "int"
  | PStr _ => "str"
  | PList _ => "list"
  | PDict _ => "dict"
  end.

(** The first item stored under [key]. *)
Fixpoint dict_find (key : string) (items : list (string * pyvalue)) : option pyvalue :=
  match items with
  | [] => None
  | (k, v) :: rest => if String.eqb k key then Some v else dict_find key rest
  end.

(** ** Exceptions and outcomes *)

(** The exception classes the code distinguishes ([except GithubException],
    [except json.JSONDecodeError], [except Exception]) and the ones its own
    expressions raise.  [json.loads] raises [JSONDecodeError] on a text that
    is no JSON, and also [RecursionError] (a text nested deeper than the
    interpreter allows) and [ValueError] (an integer of more digits than
    the interpreter converts).  [OtherException] is any other subclass of
    [Exception] coming out of a library.  Interrupts ([KeyboardInterrupt],
    [SystemExit]) are no subclasses of [Exception] and stay outside. *)
Inductive exn : Type :=
| KeyError (key : string)
| TypeError (msg : string)
| AttributeError (msg : string)
| IndexError (msg : string)
| GithubException (msg : string)
| JSONDecodeError (msg : string)
| RecursionError (msg : string)
| ValueError (msg : string)
| OtherException (msg : string).

Definition apostrophe : string := "'".
Definition dquote : string := String "034"%char "".
Definition backslash : string := String "092"%char "".
Definition newline : string := String "010"%char "".

(** [str(e)].  A [KeyError] prints the [repr] of its key; every key the
    code subscripts with is an identifier. *)
Definition str_exn (e : exn) : string :=
  match e with
  | KeyError key => apostrophe +:+ key +:+ apostrophe
  | TypeError msg => msg
  | AttributeError msg => msg
  | IndexError msg => msg
  | GithubException msg => msg
  | JSONDecodeError msg => msg
  | RecursionError msg => msg
  | ValueError msg => msg
  | OtherException msg => msg
  end.

Definition is_GithubException (e : exn) : bool :=
  match e with GithubException _ => true | _ => false end.

(** [isinstance(e, json.JSONDecodeError)] *)
Definition is_JSONDecodeError (e : exn) : bool :=
  match e with JSONDecodeError _ => true | _ => false end.

Inductive outcome (A : Type) : Type :=
| Return (a : A)
| Raise (e : exn).
Arguments Return {A} a.
Arguments Raise {A} e.

Definition returns {A : Type} (o : outcome A) : Prop :=
  match o with Return _ => True | Raise _ => False end.

(** [args[key]] *)
Definition subscript (args : pyvalue) (key : string) : outcome pyvalue :=
  match args with
  | PDict items =>
      match dict_find key items with
      | Some v => Return v
      | None => Raise (KeyError key)
      end
  | PList _ => Raise (TypeError "list indices must be integers or slices, not str")
  | PStr _ => Raise (TypeError "string indices must be integers, not 'str'")
  | _ => Raise (TypeError (apostrophe +:+ type_name args +:+ "' object is not subscriptable"))
  end.

(** [args.get(key, default)] *)
Definition get (args : pyvalue) (key : string) (default : pyvalue) : outcome pyvalue :=
  match args with
  | PDict items =>
      match dict_find key items with
      | Some v => Return v
      | None => Return default
      end
  | _ => Raise (AttributeError
                  (apostrophe +:+ type_name args +:+ "' object has no attribute 'get'"))
  end.

(** ** Text *)

(** [needle in haystack] *)
Definition contains (needle haystack : string) : Prop :=
  ∃ before after, haystack = before +:+ needle +:+ after.

(** [sep.join(parts)] *)
Fixpoint join (sep : string) (parts : list string) : string :=
  match parts with
  | [] => ""
  | [p] => p
  | p :: rest => p +:+ sep +:+ join sep rest
  end.

(** ** [json.dumps] *)

Module json.

Definition hex_digit (n : N) : ascii :=
  match n with
  | 0 => "0" | 1 => "1" | 2 => "2" | 3 => "3" | 4 => "4" | 5 => "5"
  | 6 => "6" | 7 => "7" | 8 => "8" | 9 => "9" | 10 => "a" | 11 => "b"
  | 12 => "c" | 13 => "d" | 14 => "e" | _ => "f"
  end%N%char.

(** One character of [py_encode_basestring_ascii]: the backslash and the
    double quote are escaped, so are the characters outside [' '..'~'],
    the named ones by the short form, the rest as [\u00xx]. *)
Definition escape_char (c : ascii) : string :=
  let n := N_of_ascii c in
  if (n =? 92)%N then backslash +:+ backslash
  else if (n =? 34)%N then backslash +:+ dquote
  else if (n =? 8)%N then backslash +:+ "b"
  else if (n =? 12)%N then backslash +:+ "f"
  else if (n =? 10)%N then backslash +:+ "n"
  else if (n =? 13)%N then backslash +:+ "r"
  else if (n =? 9)%N then backslash +:+ "t"
  else if ((32 <=? n) && (n <=? 126))%N then String c ""
  else backslash +:+ "u00" +:+
       String (hex_digit (n / 16)) (String (hex_digit (n mod 16)) "").

Fixpoint escape (s : string) : string :=
  match s with
  | EmptyString => ""
  | String c rest => escape_char c +:+ escape rest
  end.

Definition encode_string (s : string) : string :=
  dquote +:+ escape s +:+ dquote.

(** The value of a hexadecimal digit of an escape. *)
Definition hex_value (c : ascii) : option N :=
  let n := N_of_ascii c in
  if ((48 <=? n) && (n <=? 57))%N then Some (n - 48)%N
  else if ((97 <=? n) && (n <=? 102))%N then Some (n - 87)%N
  else None.

(** Reading one character back from an escaped text: a plain character, a
    short escape or a [\uXXXX] escape below 256, with the text left. *)
Definition read_char (s : string) : option (ascii * string) :=
  match s with
  | EmptyString => None
  | String c rest =>
      if (N_of_ascii c =? 92)%N then
        match rest with
        | EmptyString => None
        | String d rest' =>
            let k := N_of_ascii d in
            if (k =? 92)%N then Some ("092"%char, rest')
            else if (k =? 34)%N then Some ("034"%char, rest')
            else if (k =? 98)%N then Some ("008"%char, rest')
            else if (k =? 102)%N then Some ("012"%char, rest')
            else if (k =? 110)%N then Some ("010"%char, rest')
            else if (k =? 114)%N then Some ("013"%char, rest')
            else if (k =? 116)%N then Some ("009"%char, rest')
            else
              match rest' with
              | String _ (String _ (String h (String l rest''))) =>
                  match hex_value h, hex_value l with
                  | Some a, Some b => Some (ascii_of_N (16 * a + b), rest'')
                  | _, _ => None
                  end
              | _ => None
              end
        end
      else Some (c, rest)
  end.

Fixpoint spaces (n : nat) : string :=
  match n with
  | O => ""
  | S k => " " +:+ spaces k
  end.

(** [json.dumps(v, indent=indent)] at nesting depth [level]:
    without [indent] the items are separated by [", "], with it each item
    sits on a line of its own. *)
Fixpoint encode (indent : option nat) (level : nat) (v : pyvalue) : string :=
  let opening :=
    match indent with
    | None => ""
    | Some n => newline +:+ spaces (n * S level)
    end in
  let closing :=
    match indent with
    | None => ""
    | Some n => newline +:+ spaces (n * level)
    end in
  let separator :=
    match indent with
    | None => ", "
    | Some n => "," +:+ newline +:+ spaces (n * S level)
    end in
  match v with
  | PNone => "null"
  | PBool true => "true"
  | PBool false => "false"
  | PInt z => pretty z
  | PStr s => encode_string s
  | PList [] => "[]"
  | PList items =>
      "[" +:+ opening +:+
      join separator (map (encode indent (S level)) items) +:+
      closing +:+ "]"
  | PDict [] => "{}"
  | PDict items =>
      "{" +:+ opening +:+
      join separator
        (map (fun kv => encode_string (fst kv) +:+ ": " +:+
                        encode indent (S level) (snd kv)) items) +:+
      closing +:+ "}"
  end.

Definition dumps (v : pyvalue) : string := encode None 0 v.
Definition dumps_indent (n : nat) (v : pyvalue) : string := encode (Some n) 0 v.

End json.

(** The payload every tool uses to report a failure: [{"error": text}]. *)
Definition error_payload (text : string) : string :=
  json.dumps (PDict [("error", PStr text)]).

(** ** The objects the libraries hand over *)

(** A tool-call request of an assistant message: [tool_call.id],
    [tool_call.function.name], [tool_call.function.arguments]. *)
Record ToolCall : Type := {
  call_id : string;
  function_name : string;
  function_arguments : string;
}.

(** [response.choices[i].message] *)
Record ChatCompletionMessage : Type := {
  content : option string;
  tool_calls : option (list ToolCall);
}.

(** The response of [chat.completions.create], by its [choices]. *)
Record ChatCompletion : Type := {
  choices : list ChatCompletionMessage;
}.

#[global] Instance ToolCall_eq_dec : EqDecision ToolCall.
Proof. solve_decision. Defined.

(** An element of [self.messages]: the two dict shapes the agent builds and
    the message object of the client, appended as it is. *)
Inductive Message : Type :=
| role_content (role text : string)
| tool_result (tool_call_id text : string)
| message_object (m : ChatCompletionMessage).

(** One entry of [TOOL_SCHEMAS]: the name and, for each property, its name
    and type, with the list of required properties (descriptions left out). *)
Record tool_schema : Type := {
  schema_name : string;
  schema_properties : list (string * string);
  schema_required : list string;
}.

(** [github.ContentFile] *)
Record ContentFile : Type := {
  cf_name : string;
  cf_path : string;
  cf_type : string;
  cf_size : Z;
  cf_sha : string;
  (** [decoded_content.decode("utf-8")] *)
  cf_text : outcome string;
}.

(** [repo.get_contents] answers with one file or with the entries of a
    directory. *)
Inductive contents : Type :=
| one_file (f : ContentFile)
| directory (entries : list ContentFile).

(** [github.PullRequest] *)
Record PullRequest : Type := {
  pr_number : Z;
  pr_html_url : string;
  pr_title : string;
}.

(** An entry of [client.list_entries], by the attributes [query_logs] reads.
    [text_payload] is [None] when the entry has no such attribute. *)
Record LogEntry (datetime : Type) : Type := {
  timestamp : option datetime;
  severity : option string;
  resource : option (string * list (string * pyvalue));
  text_payload : option pyvalue;
  payload : pyvalue;
  http_request : option pyvalue;
}.
Arguments timestamp {datetime} _.
Arguments severity {datetime} _.
Arguments resource {datetime} _.
Arguments text_payload {datetime} _.
Arguments payload {datetime} _.
Arguments http_request {datetime} _.

(** ** The services outside the program

    The model, the clock, Cloud Logging, GitHub and the operating system
    act on a [World] the program cannot inspect. *)
Record Platform : Type := {
  World : Type;
  datetime : Type;
  timedelta : Type;
  LoggingClient : Type;
  Repository : Type;
  (** [repr] of a list or of a dict, as an f-string prints it *)
  repr_container : pyvalue → string;
  (** [json.loads], with what it raises *)
  json_loads : string → outcome pyvalue;
  (** what the encoder of [json.dumps(v, indent=2)] raises, if anything: the
      [RecursionError] of a value nested deeper than the interpreter allows *)
  json_encoder_raises : pyvalue → option exn;
  (** [OpenAI(api_key=)] *)
  openai_client : string → World → outcome () * World;
  (** [client.chat.completions.create(model=, messages=, tools=)] *)
  chat_completions_create :
    string → list Message → list tool_schema → World → outcome ChatCompletion * World;
  (** [datetime.now(timezone.utc)] *)
  datetime_now_utc : World → datetime * World;
  (** [timedelta(hours=h)] *)
  timedelta_hours : pyvalue → outcome timedelta;
  (** [d - delta] *)
  datetime_sub : datetime → timedelta → outcome datetime;
  isoformat : datetime → string;
  (** [os.path.exists] *)
  os_path_exists : string → World → bool * World;
  (** [base64.b64decode] *)
  b64decode : string → outcome string;
  (** [tempfile.mkstemp], [os.write], [os.close]: the path of the new file *)
  mkstemp_write : string → World → outcome string * World;
  (** [os.environ[...] = path] and [atexit.register] *)
  export_credentials : string → World → World;
  (** [LoggingClient(project=)] *)
  logging_client : string → World → outcome LoggingClient * World;
  (** [list(client.list_entries(filter_=, max_results=))] *)
  list_entries :
    LoggingClient → pyvalue → pyvalue → World → outcome (list (LogEntry datetime)) * World;
  (** [Github(token).get_repo(name)] *)
  get_repo : string → string → World → outcome Repository * World;
  (** [repo.get_contents(path)] and [repo.get_contents(path, ref=)] *)
  get_contents :
    Repository → pyvalue → option pyvalue → World → outcome contents * World;
  (** [repo.get_git_ref(ref).object.sha] *)
  get_git_ref : Repository → string → World → outcome string * World;
  (** [repo.create_git_ref(ref=, sha=)] *)
  create_git_ref : Repository → string → string → World → outcome () * World;
  (** [repo.update_file(path=, message=, content=, sha=, branch=)["commit"].sha] *)
  update_file :
    Repository → pyvalue → pyvalue → pyvalue → string → pyvalue →
    World → outcome string * World;
  (** [repo.create_file(path=, message=, content=, branch=)["commit"].sha] *)
  create_file :
    Repository → pyvalue → pyvalue → pyvalue → pyvalue →
    World → outcome string * World;
  (** [repo.create_pull(title=, body=, head=, base=)] *)
  create_pull :
    Repository → pyvalue → pyvalue → pyvalue → pyvalue →
    World → outcome PullRequest * World;
}.

(** The calls that reach a service, in the order they are made. *)
Inductive api_call : Type :=
| call_logging_client (project : string)
| call_list_entries (filter_ max_results : pyvalue)
| call_get_repo (token repo : string)
| call_get_contents (path : pyvalue) (ref : option pyvalue)
| call_get_git_ref (ref : string)
| call_create_git_ref (ref sha : string)
| call_update_file (path msg text : pyvalue) (sha : string) (branch : pyvalue)
| call_create_file (path msg text branch : pyvalue)
| call_create_pull (title body head base : pyvalue).

(** The state a tool runs in: the module global of [gcp_logging], the world
    and, as a ghost, the calls made so far. *)
Record process (P : Platform) : Type := {
  temp_credentials_path : option string;
  api_calls : list api_call;
  world : World P;
}.
Arguments temp_credentials_path {P} _.
Arguments api_calls {P} _.
Arguments world {P} _.

(** ** Computations that may raise and act on the process *)

Definition M (P : Platform) (A : Type) : Type := process P → outcome A * process P.

Definition ret {P : Platform} {A : Type} (a : A) : M P A :=
  fun p => (Return a, p).

Definition raise {P : Platform} {A : Type} (e : exn) : M P A :=
  fun p => (Raise e, p).

Definition bind {P : Platform} {A B : Type} (m : M P A) (k : A → M P B) : M P B :=
  fun p =>
    match m p with
    | (Return a, p') => k a p'
    | (Raise e, p') => (Raise e, p')
    end.

(** An expression without effects that may raise. *)
Definition lift {P : Platform} {A : Type} (o : outcome A) : M P A :=
  fun p => (o, p).

(** [try: body  except cls as e: handler(e)], [catches] telling the
    exceptions of class [cls]. *)
Definition try_except {P : Platform} {A : Type}
    (body : M P A) (catches : exn → bool) (handler : exn → M P A) : M P A :=
  fun p =>
    match body p with
    | (Return a, p') => (Return a, p')
    | (Raise e, p') => if catches e then handler e p' else (Raise e, p')
    end.

(** A call to a service, recorded and run on the world. *)
Definition service {P : Platform} {A : Type}
    (c : api_call) (op : World P → outcome A * World P) : M P A :=
  fun p =>
    let (r, w) := op (world p) in
    (r, {| temp_credentials_path := temp_credentials_path p;
           api_calls := api_calls p ++ [c];
           world := w |}).

Declare Scope py_scope.
Delimit Scope py_scope with py.
Notation "x <- m ;; k" := (bind m (fun x => k))
  (at level 100, m at next level, right associativity) : py_scope.
#[local] Open Scope py_scope.

(** [str(v)], as an f-string interpolates a value. *)
Definition py_str (P : Platform) (v : pyvalue) : string :=
  match v with
  | PNone => "None"
  | PBool true => "True"
  | PBool false => "False"
  | PInt z => pretty z
  | PStr s => s
  | PList _ | PDict _ => repr_container P v
  end.

(** [config[key]] on the configuration dict. *)
Definition config_get (config : gmap string string) (key : string) : outcome string :=
  match config !! key with
  | Some v => Return v
  | None => Raise (KeyError key)
  end.

Section process_operations.
Context {P : Platform}.

(** A call to the operating system or the clock: it runs on the world and
    leaves no record. *)
Definition system {A : Type} (op : World P → outcome A * World P) : M P A :=
  fun p =>
    let (r, w) := op (world p) in
    (r, {| temp_credentials_path := temp_credentials_path p;
           api_calls := api_calls p;
           world := w |}).

(** Reading and assigning the global [_temp_credentials_path]. *)
Definition read_temp_credentials_path : M P (option string) :=
  fun p => (Return (temp_credentials_path p), p).

Definition assign_temp_credentials_path (path : string) : M P () :=
  fun p =>
    (Return (),
     {| temp_credentials_path := Some path;
        api_calls := api_calls p;
        world := world p |}).

End process_operations.

(** ** [agent/tools/gcp_logging.py] *)

Module gcp_logging.
Section gcp_logging.
Context {P : Platform}.

Definition _ensure_credentials_file (config : gmap string string) : M P string :=
  cached <- read_temp_credentials_path ;;
  found <-
    match cached with
    | Some path =>
        if negb (String.eqb path "")
        then system (fun w => let (b, w') := os_path_exists P path w in (Return b, w'))
        else ret false
    | None => ret false
    end ;;
  if found then ret (default "" cached)
  else
    key <- lift (config_get config "GCP_SA_KEY_BASE64") ;;
    sa_json <- lift (b64decode P key) ;;
    path <- system (mkstemp_write P sa_json) ;;
    _ <- system (fun w => (Return (), export_credentials P path w)) ;;
    _ <- assign_temp_credentials_path path ;;
    ret path.

Definition _get_client (config : gmap string string) : M P (LoggingClient P) :=
  _ <- _ensure_credentials_file config ;;
  project <- lift (config_get config "GCP_PROJECT_ID") ;;
  service (call_logging_client project) (logging_client P project).

(** The dict [query_logs] builds for one entry. *)
Definition log_entry (entry : LogEntry (datetime P)) : pyvalue :=
  let base :=
    [ ("timestamp",
       match timestamp entry with
       | Some t => PStr (isoformat P t)
       | None => PNone
       end);
      ("severity",
       match severity entry with
       | Some s => if negb (String.eqb s "") then PStr s else PStr "DEFAULT"
       | None => PStr "DEFAULT"
       end);
      ("resource",
       PDict
         [ ("type",
            match resource entry with
            | Some (type, _) => PStr type
            | None => PNone
            end);
           ("labels",
            match resource entry with
            | Some (_, labels) => PDict labels
            | None => PDict []
            end) ]) ] in
  let with_payload :=
    match text_payload entry with
    | Some text =>
        if truthy text then base ++ [("text_payload", text)]
        else
          match payload entry with
          | PStr s =>
              if truthy (PStr s) then base ++ [("text_payload", PStr s)] else base
          | PDict d => base ++ [("payload", PDict d)]
          | _ => base
          end
    | None =>
        match payload entry with
        | PStr s =>
            if truthy (PStr s) then base ++ [("text_payload", PStr s)] else base
        | PDict d => base ++ [("payload", PDict d)]
        | _ => base
        end
    end in
  match http_request entry with
  | Some request =>
      if truthy request
      then PDict (with_payload ++ [("http_request", request)])
      else PDict with_payload
  | None => PDict with_payload
  end.

Definition query_logs
    (config : gmap string string) (filter_str limit : pyvalue) : M P string :=
  client <- _get_client config ;;
  entries <- service (call_list_entries filter_str limit)
                     (list_entries P client filter_str limit) ;;
  let results := map log_entry entries in
  ret (json.dumps_indent 2 (PList results)).

Definition list_log_entries
    (config : gmap string string) (function_name hours_ago limit : pyvalue)
    : M P string :=
  now <- system (fun w => let (t, w') := datetime_now_utc P w in (Return t, w')) ;;
  delta <- lift (timedelta_hours P hours_ago) ;;
  past <- lift (datetime_sub P now delta) ;;
  let service_name := py_str P function_name in
  project <- lift (config_get config "GCP_PROJECT_ID") ;;
  let filter_str :=
    "resource.type=" +:+ dquote +:+ "cloud_run_revision" +:+ dquote +:+ " " +:+
    "resource.labels.service_name=" +:+ dquote +:+ service_name +:+ dquote +:+ " " +:+
    "logName=" +:+ dquote +:+ "projects/" +:+ project +:+
      "/logs/run.googleapis.com%2Frequests" +:+ dquote +:+ " " +:+
    "timestamp>=" +:+ dquote +:+ isoformat P past +:+ dquote in
  query_logs config (PStr filter_str) limit.

End gcp_logging.
End gcp_logging.

(** ** [agent/tools/github.py] *)

Module github.
Section github.
Context {P : Platform}.

Definition _get_repo (config : gmap string string) : M P (Repository P) :=
  token <- lift (config_get config "GITHUB_TOKEN") ;;
  repo_name <- lift (config_get config "GITHUB_REPO") ;;
  service (call_get_repo token repo_name) (get_repo P token repo_name).

(** [except GithubException as e: return json.dumps({"error": str(e)})] *)
Definition report_error (e : exn) : M P string :=
  ret (error_payload (str_exn e)).

Definition list_repo_files (config : gmap string string) (path : pyvalue) : M P string :=
  repo <- _get_repo config ;;
  try_except
    (found <- service (call_get_contents path None) (get_contents P repo path None) ;;
     let listing :=
       match found with
       | one_file f => [f]
       | directory entries => entries
       end in
     let results :=
       map (fun item =>
              PDict [ ("name", PStr (cf_name item));
                      ("path", PStr (cf_path item));
                      ("type", PStr (cf_type item));
                      ("size", PInt (cf_size item)) ])
           listing in
     ret (json.dumps_indent 2 (PList results)))
    is_GithubException
    report_error.

Definition get_file_content
    (config : gmap string string) (path ref : pyvalue) : M P string :=
  repo <- _get_repo config ;;
  try_except
    (file_content <- service (call_get_contents path (Some ref))
                             (get_contents P repo path (Some ref)) ;;
     match file_content with
     | one_file f => lift (cf_text f)
     | directory _ =>
         raise (AttributeError "'list' object has no attribute 'decoded_content'")
     end)
    is_GithubException
    report_error.

Definition create_branch
    (config : gmap string string) (branch_name : pyvalue) : M P string :=
  repo <- _get_repo config ;;
  try_except
    (sha <- service (call_get_git_ref "heads/main") (get_git_ref P repo "heads/main") ;;
     let ref := "refs/heads/" +:+ py_str P branch_name in
     _ <- service (call_create_git_ref ref sha) (create_git_ref P repo ref sha) ;;
     ret (json.dumps (PDict [ ("success", PBool true);
                              ("branch", branch_name);
                              ("base_sha", PStr sha) ])))
    is_GithubException
    report_error.

Definition commit_file_change
    (config : gmap string string) (path content message branch : pyvalue)
    : M P string :=
  repo <- _get_repo config ;;
  try_except
    (existing <- service (call_get_contents path (Some branch))
                         (get_contents P repo path (Some branch)) ;;
     sha <- match existing with
            | one_file f => ret (cf_sha f)
            | directory _ =>
                raise (AttributeError "'list' object has no attribute 'sha'")
            end ;;
     commit_sha <- service (call_update_file path message content sha branch)
                           (update_file P repo path message content sha branch) ;;
     ret (json.dumps (PDict [ ("success", PBool true);
                              ("action", PStr "updated");
                              ("commit_sha", PStr commit_sha) ])))
    is_GithubException
    (fun _ =>
       try_except
         (commit_sha <- service (call_create_file path message content branch)
                                (create_file P repo path message content branch) ;;
          ret (json.dumps (PDict [ ("success", PBool true);
                                   ("action", PStr "created");
                                   ("commit_sha", PStr commit_sha) ])))
         is_GithubException
         report_error).

Definition create_pull_request
    (config : gmap string string) (title body head_branch base_branch : pyvalue)
    : M P string :=
  repo <- _get_repo config ;;
  try_except
    (pr <- service (call_create_pull title body head_branch base_branch)
                   (create_pull P repo title body head_branch base_branch) ;;
     ret (json.dumps (PDict [ ("success", PBool true);
                              ("pr_number", PInt (pr_number pr));
                              ("pr_url", PStr (pr_html_url pr));
                              ("title", PStr (pr_title pr)) ])))
    is_GithubException
    report_error.

End github.
End github.

(** ** [agent/tools/__init__.py] *)

Module tools.

Definition TOOL_SCHEMAS : list tool_schema :=
  [ {| schema_name := "query_logs";
       schema_properties := [("filter_str", "string"); ("limit", "integer")];
       schema_required := ["filter_str"] |};
    {| schema_name := "list_log_entries";
       schema_properties :=
         [("function_name", "string"); ("hours_ago", "integer"); ("limit", "integer")];
       schema_required := ["function_name"] |};
    {| schema_name := "list_repo_files";
       schema_properties := [("path", "string")];
       schema_required := [] |};
    {| schema_name := "get_file_content";
       schema_properties := [("path", "string"); ("ref", "string")];
       schema_required := ["path"] |};
    {| schema_name := "create_branch";
       schema_properties := [("branch_name", "string")];
       schema_required := ["branch_name"] |};
    {| schema_name := "commit_file_change";
       schema_properties :=
         [("path", "string"); ("content", "string");
          ("message", "string"); ("branch", "string")];
       schema_required := ["path"; "content"; "message"; "branch"] |};
    {| schema_name := "create_pull_request";
       schema_properties :=
         [("title", "string"); ("body", "string");
          ("head_branch", "string"); ("base_branch", "string")];
       schema_required := ["title"; "body"; "head_branch"] |} ].

Section tools.
Context {P : Platform}.

(** The items of the [handlers] dict of [dispatch], one lambda per tool. *)
Definition handler_items (config : gmap string string)
    : list (string * (pyvalue → M P string)) :=
  [ ("query_logs", fun args =>
       filter_str <- lift (subscript args "filter_str") ;;
       limit <- lift (get args "limit" (PInt 50)) ;;
       gcp_logging.query_logs config filter_str limit);
    ("list_log_entries", fun args =>
       function_name <- lift (subscript args "function_name") ;;
       hours_ago <- lift (get args "hours_ago" (PInt 24)) ;;
       limit <- lift (get args "limit" (PInt 50)) ;;
       gcp_logging.list_log_entries config function_name hours_ago limit);
    ("list_repo_files", fun args =>
       path <- lift (get args "path" (PStr "")) ;;
       github.list_repo_files config path);
    ("get_file_content", fun args =>
       path <- lift (subscript args "path") ;;
       ref <- lift (get args "ref" (PStr "main")) ;;
       github.get_file_content config path ref);
    ("create_branch", fun args =>
       branch_name <- lift (subscript args "branch_name") ;;
       github.create_branch config branch_name);
    ("commit_file_change", fun args =>
       path <- lift (subscript args "path") ;;
       content <- lift (subscript args "content") ;;
       message <- lift (subscript args "message") ;;
       branch <- lift (subscript args "branch") ;;
       github.commit_file_change config path content message branch);
    ("create_pull_request", fun args =>
       title <- lift (subscript args "title") ;;
       body <- lift (subscript args "body") ;;
       head_branch <- lift (subscript args "head_branch") ;;
       base_branch <- lift (get args "base_branch" (PStr "main")) ;;
       github.create_pull_request config title body head_branch base_branch) ].

Definition handlers (config : gmap string string)
    : gmap string (pyvalue → M P string) :=
  list_to_map (handler_items config).

Definition dispatch
    (tool_name : string) (arguments : pyvalue) (config : gmap string string)
    : M P string :=
  match handlers config !! tool_name with
  | None => ret (error_payload ("Unknown tool: " +:+ tool_name))
  | Some handler =>
      try_except
        (handler arguments)
        (fun _ => true)
        (fun e =>
           ret (error_payload
                  ("Tool '" +:+ tool_name +:+ "' failed: " +:+ str_exn e)))
  end.

End tools.
End tools.

(** ** [agent/config.py] *)

Module agent_config.

Definition required_vars : list string :=
  [ "OPENAI_API_KEY"; "GCP_PROJECT_ID"; "GCP_FUNCTION_NAME";
    "GCP_SA_KEY_BASE64"; "GITHUB_TOKEN"; "GITHUB_REPO" ].

(** The body of the loop over [required_vars]: a variable that is set and
    not empty goes to [config], any other to [missing]. *)
Definition collect (environ : gmap string string)
    (acc : gmap string string * list string) (var : string)
    : gmap string string * list string :=
  match environ !! var with
  | Some value =>
      if negb (String.eqb value "")
      then (<[var := value]> (fst acc), snd acc)
      else (fst acc, snd acc ++ [var])
  | None => (fst acc, snd acc ++ [var])
  end.

(** [load_config] on the environment as [load_dotenv] leaves it; [None]
    is [sys.exit(1)]. *)
Definition load_config (environ : gmap string string) : option (gmap string string) :=
  let result := foldl (collect environ) (∅, []) required_vars in
  match snd result with
  | [] => Some (fst result)
  | _ => None
  end.

End agent_config.

(** ** [agent/agent.py] *)

Module agent.

(** [get_user_prompt] of [agent/prompts.py] *)
Definition get_user_prompt (function_name project_id : string) : string :=
  "Investigate production issues with the Cloud Function '" +:+ function_name +:+ "' " +:+
  "in GCP project '" +:+ project_id +:+ "'. " +:+
  "Check the logs for any errors or anomalous behavior, " +:+
  "identify the root cause, fix the code, and open a GitHub Pull Request.".

(** The attributes [__init__] sets and [run] only reads. *)
Record DebugAgent : Type := {
  config : gmap string string;
  max_iterations : Z;
  verbose : bool;
  model : string;
}.

(** [DebugAgent(config, max_iterations, verbose)]: the API key is read and
    the client is built, and either may raise. *)
Definition init {P : Platform}
    (config : gmap string string) (max_iterations : Z) (verbose : bool)
    : M P DebugAgent :=
  api_key <- lift (config_get config "OPENAI_API_KEY") ;;
  _ <- system (openai_client P api_key) ;;
  ret {| config := config;
         max_iterations := max_iterations;
         verbose := verbose;
         model := "gpt-4o" |}.

(** The return statement that ends [run]: inside the loop, with the final
    message, or after it. *)
Inductive exit : Type :=
| completed (iteration : Z) (final_message : string)
| max_iterations_reached.

Definition return_value (e : exit) : string :=
  match e with
  | completed _ final_message => final_message
  | max_iterations_reached =>
      "Agent reached maximum iterations without completing the task."
  end.

(** The phase of the specification's run state, read off the exit. *)
Inductive phase : Type := RUNNING | COMPLETED | BUDGET_EXHAUSTED.

Definition phase_of (e : exit) : phase :=
  match e with
  | completed _ _ => COMPLETED
  | max_iterations_reached => BUDGET_EXHAUSTED
  end.

(** [range(lo, hi)] *)
Definition range (lo hi : Z) : list Z := seqZ lo (hi - lo).

Section agent.
Context {P : Platform}.

(** The text of [SYSTEM_PROMPT] ([agent/prompts.py]). *)
Variable SYSTEM_PROMPT : string.

(** A call to the model as the ghost state keeps it: the transcript
    submitted and what came back. *)
Record model_call : Type := {
  snapshot : list Message;
  response : outcome ChatCompletion;
}.

(** What [run] works on: [self.messages], the process and, as a ghost, the
    model calls made so far. *)
Record state : Type := {
  messages : list Message;
  model_calls : list model_call;
  proc : process P;
}.

(** [self.messages.append(m)] *)
Definition append (m : Message) (s : state) : state :=
  {| messages := messages s ++ [m];
     model_calls := model_calls s;
     proc := proc s |}.

(** [self.client.chat.completions.create(model=self.model,
    messages=self.messages, tools=TOOL_SCHEMAS)] *)
Definition create (self : DebugAgent) (s : state) : outcome ChatCompletion * state :=
  let (r, w) :=
    chat_completions_create P (model self) (messages s) tools.TOOL_SCHEMAS
                            (world (proc s)) in
  (r, {| messages := messages s;
         model_calls := model_calls s ++ [{| snapshot := messages s; response := r |}];
         proc := {| temp_credentials_path := temp_credentials_path (proc s);
                    api_calls := api_calls (proc s);
                    world := w |} |}).

(** [json.loads(text)] under [except json.JSONDecodeError: arguments = {}]:
    any other error of [json.loads] is not caught. *)
Definition parse_arguments (text : string) : outcome pyvalue :=
  match json_loads P text with
  | Return arguments => Return arguments
  | Raise e => if is_JSONDecodeError e then Return (PDict []) else Raise e
  end.

(** [json.dumps(arguments, indent=2)], the text the f-string of the
    [_log] call builds from the arguments, verbose or not.  The empty
    mapping is encoded without a nested call. *)
Definition arguments_text (arguments : pyvalue) : outcome string :=
  match arguments, json_encoder_raises P arguments with
  | PDict [], _ | _, None => Return (json.dumps_indent 2 arguments)
  | _, Some e => Raise e
  end.

(** The body of [for tool_call in message.tool_calls]. *)
Definition run_tool_call (self : DebugAgent) (tool_call : ToolCall) (s : state)
    : outcome () * state :=
  let tool_name := function_name tool_call in
  match parse_arguments (function_arguments tool_call) with
  | Raise e => (Raise e, s)
  | Return arguments =>
      match arguments_text arguments with
      | Raise e => (Raise e, s)
      | Return _ =>
          match tools.dispatch tool_name arguments (config self) (proc s) with
          | (Return result, p) =>
              (Return (),
               {| messages := messages s ++ [tool_result (call_id tool_call) result];
                  model_calls := model_calls s;
                  proc := p |})
          | (Raise e, p) =>
              (Raise e,
               {| messages := messages s; model_calls := model_calls s; proc := p |})
          end
      end
  end.

Fixpoint run_tool_calls (self : DebugAgent) (calls : list ToolCall) (s : state)
    : outcome () * state :=
  match calls with
  | [] => (Return (), s)
  | tool_call :: rest =>
      match run_tool_call self tool_call s with
      | (Return _, s') => run_tool_calls self rest s'
      | (Raise e, s') => (Raise e, s')
      end
  end.

(** [message.content or "Agent finished without a summary."] *)
Definition final_message_of (message : ChatCompletionMessage) : string :=
  match content message with
  | Some text =>
      if negb (String.eqb text "") then text
      else "Agent finished without a summary."
  | None => "Agent finished without a summary."
  end.

(** The [for iteration in range(...)] loop with the statements after it. *)
Fixpoint loop (self : DebugAgent) (iterations : list Z) (s : state)
    : outcome exit * state :=
  match iterations with
  | [] => (Return max_iterations_reached, s)
  | iteration :: rest =>
      match create self s with
      | (Raise e, s1) => (Raise e, s1)
      | (Return completion, s1) =>
          match choices completion with
          | [] => (Raise (IndexError "list index out of range"), s1)
          | message :: _ =>
              match tool_calls message with
              | None | Some [] =>
                  let final_message := final_message_of message in
                  (Return (completed iteration final_message),
                   append (role_content "assistant" final_message) s1)
              | Some calls =>
                  let s2 := append (message_object message) s1 in
                  match run_tool_calls self calls s2 with
                  | (Raise e, s3) => (Raise e, s3)
                  | (Return _, s3) => loop self rest s3
                  end
              end
          end
      end
  end.

(** [run], by the return statement it leaves through.  [self.messages] is
    the empty list of [__init__] until the two prompts are stored; the
    banner then reads [GITHUB_REPO]. *)
Definition run_exit (self : DebugAgent) (p : process P) : outcome exit * state :=
  let unset := {| messages := []; model_calls := []; proc := p |} in
  match config_get (config self) "GCP_FUNCTION_NAME" with
  | Raise e => (Raise e, unset)
  | Return function_name =>
      match config_get (config self) "GCP_PROJECT_ID" with
      | Raise e => (Raise e, unset)
      | Return project_id =>
          let s :=
            {| messages :=
                 [ role_content "system" SYSTEM_PROMPT;
                   role_content "user" (get_user_prompt function_name project_id) ];
               model_calls := [];
               proc := p |} in
          match config_get (config self) "GITHUB_REPO" with
          | Raise e => (Raise e, s)
          | Return _ => loop self (range 1 (max_iterations self + 1)) s
          end
      end
  end.

(** [DebugAgent.run] *)
Definition run (self : DebugAgent) (p : process P) : outcome string * state :=
  match run_exit self p with
  | (Return e, s) => (Return (return_value e), s)
  | (Raise e, s) => (Raise e, s)
  end.

End agent.
End agent.

(** ** [agent/main.py] *)

Module agent_main.
Section agent_main.
Context {P : Platform}.

(** The text of [SYSTEM_PROMPT] ([agent/prompts.py]). *)
Variable SYSTEM_PROMPT : string.

(** [main], by the exit status of the process and the state [run] left
    behind, if it ran.  [environ] is the environment after [load_dotenv];
    [max_iterations] and [verbose] are what [parse_args] returned.
    [sys.exit(1)], in [load_config] or in a handler of [main], and an
    exception that leaves [main] uncaught all end the process with status
    1; falling off the end of [main] ends it with status 0. *)
Definition main
    (environ : gmap string string) (max_iterations : Z) (verbose : bool) (p : process P)
    : Z * option (agent.state (P := P)) :=
  match agent_config.load_config environ with
  | None => (1, None)
  | Some config =>
      match agent.init config max_iterations verbose p with
      | (Raise _, _) => (1, None)
      | (Return debug_agent, p1) =>
          match agent.run SYSTEM_PROMPT debug_agent p1 with
          | (Return _, s) => (0, Some s)
          | (Raise _, s) => (1, Some s)
          end
      end
  end.

End agent_main.
End agent_main.

(** ** Scripted services

    A platform whose services answer from a script, used to run the code
    above on concrete inputs. *)

Module scripted.

(** The entry of a table under a text. *)
Fixpoint entry_of {A : Type} (text : string) (table : list (string * A)) : option A :=
  match table with
  | [] => None
  | (k, a) :: rest => if String.eqb k text then Some a else entry_of text rest
  end.

Record script : Type := {
  (** the answers of the model, in order *)
  answers : list (outcome ChatCompletion);
  (** the argument texts [json.loads] accepts, with their values, and the
      ones it raises something else on than a decode error *)
  parses : list (string * outcome pyvalue);
  (** the answer of each GitHub operation *)
  repo_answer : outcome ();
  contents_answer : outcome contents;
  update_answer : outcome string;
  create_answer : outcome string;
  (** the current time, in hours *)
  clock : Z;
}.

Definition platform (sc : script) : Platform :=
  {| World := list (outcome ChatCompletion);
     datetime := Z;
     timedelta := Z;
     LoggingClient := string;
     Repository := ();
     repr_container := fun _ => "[...]";
     json_loads := fun text =>
       match entry_of text (parses sc) with
       | Some parsed => parsed
       | None => Raise (JSONDecodeError "Expecting value: line 1 column 1 (char 0)")
       end;
     json_encoder_raises := fun _ => None;
     openai_client := fun _ w => (Return (), w);
     chat_completions_create := fun _ _ _ w =>
       match w with
       | [] => (Raise (OtherException "Connection error."), [])
       | answer :: rest => (answer, rest)
       end;
     datetime_now_utc := fun w => (clock sc, w);
     timedelta_hours := fun h =>
       match h with
       | PInt z => Return z
       | _ => Raise (TypeError "unsupported type for timedelta hours component")
       end;
     datetime_sub := fun t d =>
       if t - d <? 0 then Raise (OtherException "date value out of range")
       else Return (t - d);
     isoformat := fun t => pretty t;
     os_path_exists := fun _ w => (true, w);
     b64decode := fun text => Return text;
     mkstemp_write := fun _ w => (Return "/tmp/gcp_sa_0.json", w);
     export_credentials := fun _ w => w;
     logging_client := fun project w => (Return project, w);
     list_entries := fun _ _ _ w => (Return [], w);
     get_repo := fun _ _ w => (repo_answer sc, w);
     get_contents := fun _ _ _ w => (contents_answer sc, w);
     get_git_ref := fun _ _ w => (Return "0a1b2c", w);
     create_git_ref := fun _ _ _ w => (Return (), w);
     update_file := fun _ _ _ _ _ _ w => (update_answer sc, w);
     create_file := fun _ _ _ _ _ w => (create_answer sc, w);
     create_pull := fun _ _ _ _ _ w =>
       (Return {| pr_number := 1;
                  pr_html_url := "https://github.com/acme/shop/pull/1";
                  pr_title := "Fix" |}, w) |}.

Definition start (sc : script) : process (platform sc) :=
  Build_process (platform sc) None [] (answers sc).

(** A configuration as [load_config] returns it. *)
Definition environ : gmap string string :=
  list_to_map
    [ ("OPENAI_API_KEY", "sk-test");
      ("GCP_PROJECT_ID", "acme-prod");
      ("GCP_FUNCTION_NAME", "checkout");
      ("GCP_SA_KEY_BASE64", "e30=");
      ("GITHUB_TOKEN", "ghp_test");
      ("GITHUB_REPO", "acme/shop") ].

Definition config : gmap string string :=
  default ∅ (agent_config.load_config environ).

Definition debug_agent (max_iterations : Z) : agent.DebugAgent :=
  {| agent.config := config;
     agent.max_iterations := max_iterations;
     agent.verbose := false;
     agent.model := "gpt-4o" |}.

Definition file : ContentFile :=
  {| cf_name := "main.py";
     cf_path := "src/main.py";
     cf_type := "file";
     cf_size := 120;
     cf_sha := "9f8e7d";
     cf_text := Return "print(1)" |}.

(** The model answers with text, or asks for tools. *)
Definition says (text : option string) : outcome ChatCompletion :=
  Return {| choices := [ {| content := text; tool_calls := None |} ] |}.

Definition asks (calls : list ToolCall) : outcome ChatCompletion :=
  Return {| choices := [ {| content := None; tool_calls := Some calls |} ] |}.

Definition call (id tool arguments : string) : ToolCall :=
  {| call_id := id; function_name := tool; function_arguments := arguments |}.

(** A script in which every GitHub operation succeeds. *)
Definition healthy (answers : list (outcome ChatCompletion)) : script :=
  {| answers := answers;
     parses := [("{}", Return (PDict []))];
     repo_answer := Return ();
     contents_answer := Return (one_file file);
     update_answer := Return "c0ffee";
     create_answer := Return "c0ffee";
     clock := 1000 |}.

(** The file is there, the update is refused and so is the create over
    the existing file. *)
Definition refused_update : script :=
  {| answers := [];
     parses := [("{}", Return (PDict []))];
     repo_answer := Return ();
     contents_answer := Return (one_file file);
     update_answer := Raise (GithubException "409 Conflict");
     create_answer := Raise (GithubException "422 sha was not supplied");
     clock := 1000 |}.

(** The token is rejected when the repository is opened. *)
Definition bad_credentials : script :=
  {| answers := [];
     parses := [("{}", Return (PDict []))];
     repo_answer := Raise (GithubException "401 Bad credentials");
     contents_answer := Return (one_file file);
     update_answer := Return "c0ffee";
     create_answer := Return "c0ffee";
     clock := 1000 |}.

(** The file is not there yet. *)
Definition new_file : script :=
  {| answers := [];
     parses := [("{}", Return (PDict []))];
     repo_answer := Return ();
     contents_answer := Raise (GithubException "404 Not Found");
     update_answer := Return "c0ffee";
     create_answer := Return "c0ffee";
     clock := 1000 |}.

Definition prompt : string := "You are an AI debugging agent.".

(** A text of 2000 opening brackets. *)
Definition deep_text : string := string_of_list_ascii (replicate 2000 "["%char).

(** A mapping cut short, and what [json.loads] raises on it. *)
Definition cut_text : string := "{path: ".

Definition no_property_name : exn :=
  JSONDecodeError
    "Expecting property name enclosed in double quotes: line 1 column 2 (char 1)".

(** What [json.loads] raises on [deep_text]. *)
Definition too_deep : exn :=
  RecursionError
    "maximum recursion depth exceeded while decoding a JSON array from a unicode string".

(** Every GitHub operation succeeds, and [json.loads] gives up on
    [deep_text]. *)
Definition nested (answers : list (outcome ChatCompletion)) : script :=
  {| answers := answers;
     parses :=
       [ ("{}", Return (PDict []));
         (cut_text, Raise no_property_name);
         (deep_text, Raise too_deep) ];
     repo_answer := Return ();
     contents_answer := Return (one_file file);
     update_answer := Return "c0ffee";
     create_answer := Return "c0ffee";
     clock := 1000 |}.

End scripted.

(** ** The vocabulary of the properties *)

(** A tool name with a contract in [TOOL_SCHEMAS]. *)
Definition registered (tool_name : string) : Prop :=
  tool_name ∈ map schema_name tools.TOOL_SCHEMAS.

#[global] Instance registered_dec (tool_name : string) : Decision (registered tool_name).
Proof. unfold registered. apply _. Defined.

(** The parameters of a contract that are not required. *)
Definition optional (schema : tool_schema) (parameter : string) : Prop :=
  parameter ∈ map fst (schema_properties schema) ∧ parameter ∉ schema_required schema.

(** The defaults the tool descriptions announce. *)
Definition documented_default (parameter : string) : option pyvalue :=
  if String.eqb parameter "limit" then Some (PInt 50)
  else if String.eqb parameter "hours_ago" then Some (PInt 24)
  else if String.eqb parameter "path" then Some (PStr "")
  else if String.eqb parameter "ref" then Some (PStr "main")
  else if String.eqb parameter "base_branch" then Some (PStr "main")
  else None.

(** The value a parameter is bound to: the one in the argument mapping or,
    when the mapping has none, the documented default. *)
Definition bound (items : list (string * pyvalue)) (parameter : string) : pyvalue :=
  match dict_find parameter items with
  | Some v => v
  | None => default PNone (documented_default parameter)
  end.

(** The function behind each tool, applied to its parameters by name. *)
Definition invoke {P : Platform}
    (config : gmap string string) (tool_name : string) (value : string → pyvalue)
    : M P string :=
  if String.eqb tool_name "query_logs" then
    gcp_logging.query_logs config (value "filter_str") (value "limit")
  else if String.eqb tool_name "list_log_entries" then
    gcp_logging.list_log_entries
      config (value "function_name") (value "hours_ago") (value "limit")
  else if String.eqb tool_name "list_repo_files" then
    github.list_repo_files config (value "path")
  else if String.eqb tool_name "get_file_content" then
    github.get_file_content config (value "path") (value "ref")
  else if String.eqb tool_name "create_branch" then
    github.create_branch config (value "branch_name")
  else if String.eqb tool_name "commit_file_change" then
    github.commit_file_change
      config (value "path") (value "content") (value "message") (value "branch")
  else
    github.create_pull_request
      config (value "title") (value "body") (value "head_branch") (value "base_branch").

(** [except Exception as e] of [dispatch]. *)
Definition report_failure {P : Platform} (tool_name : string) (e : exn) : M P string :=
  ret (error_payload ("Tool '" +:+ tool_name +:+ "' failed: " +:+ str_exn e)).

(** Following the specification of the convenience contract: the filter
    for the request logs of one service of one project since a given time,
    four restrictions separated by spaces. *)
Definition recent_requests_filter (service_name project since : string) : string :=
  join " "
    [ "resource.type=" +:+ dquote +:+ "cloud_run_revision" +:+ dquote;
      "resource.labels.service_name=" +:+ dquote +:+ service_name +:+ dquote;
      "logName=" +:+ dquote +:+ "projects/" +:+ project +:+
        "/logs/run.googleapis.com%2Frequests" +:+ dquote;
      "timestamp>=" +:+ dquote +:+ since +:+ dquote ].

(** Following the specification: the filter builder resolves "the last N
    hours for function X" against the clock and the project of the
    configuration. *)
Definition last_hours_filter {P : Platform}
    (config : gmap string string) (function_name hours_ago : pyvalue) : M P string :=
  now <- system (fun w => let (t, w') := datetime_now_utc P w in (Return t, w')) ;;
  delta <- lift (timedelta_hours P hours_ago) ;;
  past <- lift (datetime_sub P now delta) ;;
  project <- lift (config_get config "GCP_PROJECT_ID") ;;
  ret (recent_requests_filter (py_str P function_name) project (isoformat P past)).

(** Following the specification: the convenience operation as the
    composition of the filter builder with [query_logs]. *)
Definition list_log_entries_composed {P : Platform}
    (config : gmap string string) (function_name hours_ago limit : pyvalue)
    : M P string :=
  filter_str <- last_hours_filter config function_name hours_ago ;;
  gcp_logging.query_logs config (PStr filter_str) limit.

(** The success payload of [commit_file_change]. *)
Definition commit_payload (action commit_sha : string) : string :=
  json.dumps (PDict [ ("success", PBool true);
                      ("action", PStr action);
                      ("commit_sha", PStr commit_sha) ]).

(** What [commit_file_change] makes of the answer of [create_file]. *)
Definition create_report (answer : outcome string) : outcome string :=
  match answer with
  | Return commit_sha => Return (commit_payload "created" commit_sha)
  | Raise e =>
      if is_GithubException e then Return (error_payload (str_exn e)) else Raise e
  end.

(** The payload of a failed tool. *)
Definition failure_text (tool_name : string) (e : exn) : string :=
  "Tool '" +:+ tool_name +:+ "' failed: " +:+ str_exn e.

(** The configuration holds the keys [run] reads before the loop. *)
Definition config_ready (config : gmap string string) : Prop :=
  is_Some (config !! "GCP_FUNCTION_NAME") ∧
  is_Some (config !! "GCP_PROJECT_ID") ∧
  is_Some (config !! "GITHUB_REPO").

(** [not message.tool_calls] *)
Definition terminal (m : ChatCompletionMessage) : Prop :=
  tool_calls m = None ∨ tool_calls m = Some [].

#[global] Instance terminal_dec (m : ChatCompletionMessage) : Decision (terminal m).
Proof. unfold terminal. apply _. Defined.

(** The tool-call requests of a message. *)
Definition requests (m : ChatCompletionMessage) : list ToolCall :=
  default [] (tool_calls m).

(** What stops a tool call before [dispatch], if anything: an error of
    [json.loads] that is no decode error, or the error of encoding the
    arguments for the log. *)
Definition argument_error {P : Platform} (tool_call : ToolCall) : option exn :=
  match agent.parse_arguments (P := P) (function_arguments tool_call) with
  | Raise e => Some e
  | Return arguments =>
      match agent.arguments_text (P := P) arguments with
      | Raise e => Some e
      | Return _ => None
      end
  end.

(** [response.choices[0].message] of a recorded model call. *)
Definition first_message (c : agent.model_call) : option ChatCompletionMessage :=
  match agent.response c with
  | Return completion => head (choices completion)
  | Raise _ => None
  end.

(** The tool messages that answer [calls] with [results], in order. *)
Definition tool_messages (calls : list ToolCall) (results : list string) : list Message :=
  zip_with tool_result (map call_id calls) results.

(** The model asked for tools in this call. *)
Definition tool_turn (c : agent.model_call) : Prop :=
  ∃ m, first_message c = Some m ∧ ¬ terminal m.

(** The names of the tools asked for in the answers to [calls], in order. *)
Definition requested_names (calls : list agent.model_call) : list string :=
  concat ((λ c, match first_message c with
                | Some m => function_name <$> requests m
                | None => []
                end) <$> calls).

(** A call whose tool calls were cut short: its message asked for tools, the
    requests before one of them were answered, and an argument error [e]
    stopped that one; [transcript] is what was submitted, the message and
    the tool messages of the requests answered. *)
Definition cut_short {P : Platform}
    (c : agent.model_call) (e : exn) (transcript : list Message) : Prop :=
  ∃ m results call,
    first_message c = Some m ∧ ¬ terminal m ∧
    requests m !! length results = Some call ∧
    argument_error (P := P) call = Some e ∧
    Forall (λ earlier, argument_error (P := P) earlier = None)
           (take (length results) (requests m)) ∧
    transcript =
      agent.snapshot c ++ message_object m :: tool_messages (requests m) results.

(** What a call that asked for tools adds to the transcript: the message of
    the model, then one tool message per request, in the order of the
    requests. *)
Definition turn_shape (c : agent.model_call) (added : list Message) : Prop :=
  ∃ m results,
    first_message c = Some m ∧ ¬ terminal m ∧
    length results = length (requests m) ∧
    added = message_object m :: tool_messages (requests m) results.

(** Reading a transcript from the left with the ids of the requests still
    waiting for their tool message: a message of the model opens the list of
    its requests, a tool message must carry the id that waits first, and
    nothing but a tool message may come while an id waits.  [None] tells a
    transcript that breaks this. *)
Fixpoint awaited (pending : list string) (transcript : list Message)
    : option (list string) :=
  match transcript with
  | [] => Some pending
  | role_content _ _ :: rest =>
      match pending with
      | [] => awaited [] rest
      | _ => None
      end
  | message_object m :: rest =>
      match pending with
      | [] => awaited (map call_id (requests m)) rest
      | _ => None
      end
  | tool_result id _ :: rest =>
      match pending with
      | next :: later => if String.eqb next id then awaited later rest else None
      | [] => None
      end
  end.

(** Every request of the transcript has its tool message, in order, right
    after the message that made it. *)
Definition answered (transcript : list Message) : Prop :=
  awaited [] transcript = Some [].

(** The calls that change the repository. *)
Definition is_write (c : api_call) : bool :=
  match c with
  | call_create_git_ref _ _ => true
  | call_update_file _ _ _ _ _ => true
  | call_create_file _ _ _ _ => true
  | call_create_pull _ _ _ _ => true
  | _ => false
  end.

(** The tools that only read. *)
Definition read_tools : list string :=
  ["query_logs"; "list_log_entries"; "list_repo_files"; "get_file_content"].

(** The tools that change the repository. *)
Definition write_tools : list string :=
  ["create_branch"; "commit_file_change"; "create_pull_request"].

(** A computation that reaches the services only to read. *)
Definition reads_only {P : Platform} {A : Type} (m : M P A) : Prop :=
  ∀ p r p', m p = (r, p') →
    ∃ new, api_calls p' = api_calls p ++ new ∧ Forall (λ c, is_write c = false) new.

(** * Properties *)

(** ** Text and payloads *)

Lemma string_app_cons (x : ascii) (a b : string) :
  String x a +:+ b = String x (a +:+ b).
Proof. reflexivity. Qed.

Lemma string_app_nil_l (a : string) : "" +:+ a = a.
Proof. reflexivity. Qed.

Lemma string_app_assoc (a b c : string) : (a +:+ b) +:+ c = a +:+ (b +:+ c).
Proof.
  induction a as [|x a IH]; [reflexivity|].
  by rewrite !string_app_cons, IH.
Qed.

Lemma string_app_nil_r (a : string) : a +:+ "" = a.
Proof.
  induction a as [|x a IH]; [reflexivity|].
  by rewrite string_app_cons, IH.
Qed.

Lemma contains_refl (s : string) : contains s s.
Proof. exists "", "". simpl. by rewrite string_app_nil_r. Qed.

Lemma contains_app_l (needle a b : string) : contains needle a → contains needle (a +:+ b).
Proof.
  intros (before & after & ->). exists before, (after +:+ b).
  by rewrite !string_app_assoc.
Qed.

Lemma contains_app_r (needle a b : string) : contains needle b → contains needle (a +:+ b).
Proof.
  intros (before & after & ->). exists (a +:+ before), after.
  by rewrite !string_app_assoc.
Qed.

Lemma escape_app (a b : string) :
  json.escape (a +:+ b) = json.escape a +:+ json.escape b.
Proof.
  induction a as [|x a IH]; [reflexivity|].
  rewrite string_app_cons. cbn [json.escape].
  by rewrite IH, string_app_assoc.
Qed.

(** The text of an error payload sits, escaped, between the quotes of its
    only field. *)
Lemma error_payload_unfold (text : string) :
  error_payload text =
  ("{" +:+ dquote +:+ "error" +:+ dquote +:+ ": " +:+ dquote) +:+
  json.escape text +:+ (dquote +:+ "}").
Proof.
  unfold error_payload, json.dumps. cbn. unfold json.encode_string.
  cbn. rewrite !string_app_assoc. reflexivity.
Qed.

Lemma error_payload_contains (part text : string) :
  contains part text → contains (json.escape part) (error_payload text).
Proof.
  intros (before & after & ->). rewrite error_payload_unfold, !escape_app.
  apply contains_app_r, contains_app_l, contains_app_r, contains_app_l.
  apply contains_refl.
Qed.

(** An escaped text can be read back character by character, so two texts
    with the same escaped form are the same text. *)
Lemma read_char_escape (c : ascii) (rest : string) :
  json.read_char (json.escape_char c +:+ rest) = Some (c, rest).
Proof. destruct c as [[] [] [] [] [] [] [] []]; reflexivity. Qed.

Lemma escape_inj (a b : string) : json.escape a = json.escape b → a = b.
Proof.
  revert b. induction a as [|x a IH]; intros [|y b] Heq; [done|..].
  - apply (f_equal json.read_char) in Heq. cbn [json.escape] in Heq.
    by rewrite read_char_escape in Heq.
  - apply (f_equal json.read_char) in Heq. cbn [json.escape] in Heq.
    by rewrite read_char_escape in Heq.
  - apply (f_equal json.read_char) in Heq. cbn [json.escape] in Heq.
    rewrite !read_char_escape in Heq. injection Heq as -> Heq.
    f_equal. by apply IH.
Qed.

Lemma string_length_app (a b : string) :
  String.length (a +:+ b) = (String.length a + String.length b)%nat.
Proof.
  induction a as [|x a IH]; [done|].
  rewrite string_app_cons. cbn. by rewrite IH.
Qed.

Lemma string_app_inv_tail (a b tail : string) : a +:+ tail = b +:+ tail → a = b.
Proof.
  revert b. induction a as [|x a IH]; intros [|y b] Heq; [done|..].
  - apply (f_equal String.length) in Heq.
    rewrite string_app_cons, string_app_nil_l in Heq. cbn in Heq.
    rewrite string_length_app in Heq. lia.
  - apply (f_equal String.length) in Heq.
    rewrite string_app_cons, string_app_nil_l in Heq. cbn in Heq.
    rewrite string_length_app in Heq. lia.
  - rewrite !string_app_cons in Heq. injection Heq as -> Heq.
    f_equal. by apply IH.
Qed.

(** An error payload determines its text. *)
Lemma error_payload_inj (a b : string) : error_payload a = error_payload b → a = b.
Proof.
  rewrite !error_payload_unfold. intros Heq.
  apply String.app_inj in Heq. apply string_app_inv_tail in Heq.
  by apply escape_inj.
Qed.

Lemma failure_text_contains_name (tool_name : string) (e : exn) :
  contains tool_name (failure_text tool_name e).
Proof.
  unfold failure_text. apply contains_app_r, contains_app_l, contains_refl.
Qed.

Lemma failure_text_contains_message (tool_name : string) (e : exn) :
  contains (str_exn e) (failure_text tool_name e).
Proof.
  unfold failure_text. apply contains_app_r, contains_app_r, contains_app_r, contains_refl.
Qed.

(** ** The dispatcher *)

Ltac in_list :=
  repeat first [ apply list_elem_of_here | apply list_elem_of_further ].

Section dispatcher.
Context {P : Platform}.
Implicit Types (config : gmap string string) (p : process P).

Lemma handler_items_names config :
  (tools.handler_items (P := P) config).*1 = map schema_name tools.TOOL_SCHEMAS.
Proof. reflexivity. Qed.

Lemma handler_names_NoDup : NoDup (map schema_name tools.TOOL_SCHEMAS).
Proof. apply (bool_decide_unpack _). by vm_compute. Qed.

Lemma handlers_lookup_item config tool_name (handler : pyvalue → M P string) :
  (tool_name, handler) ∈ tools.handler_items config →
  tools.handlers config !! tool_name = Some handler.
Proof.
  intros Hin. unfold tools.handlers.
  apply elem_of_list_to_map_1; [|exact Hin].
  rewrite handler_items_names. apply handler_names_NoDup.
Qed.

Lemma handlers_unregistered config tool_name :
  ¬ registered tool_name → tools.handlers (P := P) config !! tool_name = None.
Proof.
  intros Hno. unfold tools.handlers. apply not_elem_of_list_to_map_1.
  by rewrite handler_items_names.
Qed.

Lemma handlers_registered config tool_name :
  registered tool_name →
  ∃ handler, (tool_name, handler) ∈ tools.handler_items (P := P) config.
Proof.
  unfold registered. rewrite <- (handler_items_names config).
  intros Hin. apply list_elem_of_fmap in Hin as ([name handler] & -> & Hin).
  by exists handler.
Qed.

(** Whatever the tool and its arguments, [dispatch] returns a text. *)
Lemma dispatch_returns tool_name (arguments : pyvalue) config p :
  ∃ text p', tools.dispatch tool_name arguments config p = (Return text, p').
Proof.
  unfold tools.dispatch.
  destruct (tools.handlers config !! tool_name) as [handler|].
  - unfold try_except. destruct (handler arguments p) as [[text|e] p']; eauto.
  - eauto.
Qed.

End dispatcher.

Section dispatcher_contract.
Context {P : Platform}.
Implicit Types (config : gmap string string) (p : process P).

Lemma registered_cases tool_name :
  registered tool_name →
  tool_name = "query_logs" ∨ tool_name = "list_log_entries" ∨
  tool_name = "list_repo_files" ∨ tool_name = "get_file_content" ∨
  tool_name = "create_branch" ∨ tool_name = "commit_file_change" ∨
  tool_name = "create_pull_request".
Proof.
  unfold registered. cbn. intros Hin.
  repeat (apply elem_of_cons in Hin as [-> | Hin]; [tauto|]).
  by apply elem_of_nil in Hin.
Qed.

(** The names of the registered tools pass through [json.dumps] unchanged. *)
Lemma registered_escape tool_name :
  registered tool_name → json.escape tool_name = tool_name.
Proof.
  intros Hreg. apply registered_cases in Hreg.
  repeat (destruct Hreg as [-> | Hreg]; [reflexivity|]). by subst.
Qed.

(** C5. For every tool name that matches no registered contract and every
    argument value, [dispatch] returns (it does not raise) the error payload
    [{"error": "Unknown tool: <name>"}], leaving the process as it was; the
    error text contains the name, the payload contains the name as
    [json.dumps] writes it, and no other name has that payload. *)
Theorem dispatch_unknown_tool config tool_name (arguments : pyvalue) p :
  ¬ registered tool_name →
  tools.dispatch tool_name arguments config p =
    (Return (error_payload ("Unknown tool: " +:+ tool_name)), p) ∧
  contains tool_name ("Unknown tool: " +:+ tool_name) ∧
  contains (json.escape tool_name) (error_payload ("Unknown tool: " +:+ tool_name)) ∧
  (∀ other,
     error_payload ("Unknown tool: " +:+ other) =
     error_payload ("Unknown tool: " +:+ tool_name) →
     other = tool_name).
Proof.
  intros Hno. split_and!.
  - unfold tools.dispatch. by rewrite (handlers_unregistered config tool_name Hno).
  - apply contains_app_r, contains_refl.
  - apply error_payload_contains, contains_app_r, contains_refl.
  - intros other Heq%error_payload_inj. by apply String.app_inj in Heq.
Qed.

(** C4. For every registered tool name, every argument value and every
    exception the resolved handler raises, [dispatch] returns the error
    payload [{"error": "Tool '<name>' failed: <str(e)>"}]: the payload
    contains the tool name and the message of the failure (as [json.dumps]
    writes it), the error text contains both verbatim, and the payload
    determines that text.  Whatever the arguments and the process,
    [dispatch] for that tool returns and never raises. *)
Theorem dispatch_catches_handler_failure
    config tool_name (handler : pyvalue → M P string) (arguments : pyvalue) p e p' :
  registered tool_name →
  tools.handlers config !! tool_name = Some handler →
  handler arguments p = (Raise e, p') →
  tools.dispatch tool_name arguments config p =
    (Return (error_payload (failure_text tool_name e)), p') ∧
  contains tool_name (failure_text tool_name e) ∧
  contains (str_exn e) (failure_text tool_name e) ∧
  contains tool_name (error_payload (failure_text tool_name e)) ∧
  contains (json.escape (str_exn e)) (error_payload (failure_text tool_name e)) ∧
  (∀ text, error_payload text = error_payload (failure_text tool_name e) →
           text = failure_text tool_name e) ∧
  (∀ (arguments' : pyvalue) p0,
     returns (fst (tools.dispatch tool_name arguments' config p0))).
Proof.
  intros Hreg Hhandler Hraise. split_and!.
  - unfold tools.dispatch, try_except. by rewrite Hhandler, Hraise.
  - apply failure_text_contains_name.
  - apply failure_text_contains_message.
  - rewrite <- (registered_escape tool_name Hreg) at 1.
    apply error_payload_contains, failure_text_contains_name.
  - apply error_payload_contains, failure_text_contains_message.
  - intros text. apply error_payload_inj.
  - intros arguments' p0.
    destruct (dispatch_returns tool_name arguments' config p0) as (text & q & ->).
    exact I.
Qed.

Lemma dict_find_app key (items more : list (string * pyvalue)) :
  dict_find key (items ++ more) =
  match dict_find key items with
  | Some v => Some v
  | None => dict_find key more
  end.
Proof.
  induction items as [|[k v] items IH]; [reflexivity|].
  cbn. by destruct (String.eqb k key).
Qed.

Lemma subscript_extended (items : list (string * pyvalue)) parameter d key :
  key ≠ parameter →
  subscript (PDict (items ++ [(parameter, d)])) key = subscript (PDict items) key.
Proof.
  intros Hne. unfold subscript. rewrite dict_find_app. cbn.
  destruct (String.eqb_spec parameter key); [congruence|].
  by destruct (dict_find key items).
Qed.

Lemma get_extended_other (items : list (string * pyvalue)) parameter d key d' :
  key ≠ parameter →
  get (PDict (items ++ [(parameter, d)])) key d' = get (PDict items) key d'.
Proof.
  intros Hne. unfold get. rewrite dict_find_app. cbn.
  destruct (String.eqb_spec parameter key); [congruence|].
  by destruct (dict_find key items).
Qed.

Lemma get_extended_same (items : list (string * pyvalue)) parameter d :
  dict_find parameter items = None →
  get (PDict (items ++ [(parameter, d)])) parameter d = get (PDict items) parameter d.
Proof.
  intros Hnone. unfold get. rewrite dict_find_app, Hnone. cbn.
  by rewrite String.eqb_refl.
Qed.

Ltac schema_cases H :=
  unfold tools.TOOL_SCHEMAS in H;
  repeat (apply elem_of_cons in H as [-> | H]);
  [ .. | by apply elem_of_nil in H ].

Ltac pick_handler :=
  unfold tools.dispatch;
  erewrite handlers_lookup_item by (unfold tools.handler_items; in_list).

Lemma optional_cases schema parameter :
  schema ∈ tools.TOOL_SCHEMAS → optional schema parameter →
  (schema_name schema = "query_logs" ∧ parameter = "limit") ∨
  (schema_name schema = "list_log_entries" ∧ parameter = "hours_ago") ∨
  (schema_name schema = "list_log_entries" ∧ parameter = "limit") ∨
  (schema_name schema = "list_repo_files" ∧ parameter = "path") ∨
  (schema_name schema = "get_file_content" ∧ parameter = "ref") ∨
  (schema_name schema = "create_pull_request" ∧ parameter = "base_branch").
Proof.
  intros Hin [Hprop Hreq]. schema_cases Hin; cbn in *;
    repeat (apply elem_of_cons in Hprop as [-> | Hprop]);
    try (by apply elem_of_nil in Hprop);
    try (exfalso; apply Hreq; set_solver);
    tauto.
Qed.

Ltac probe items l :=
  lazymatch l with
  | ?k :: ?rest =>
      lazymatch goal with
      | H : dict_find k items = None |- _ => idtac
      | _ => destruct (dict_find k items) eqn:?; [probe items rest | idtac]
      end
  | _ => idtac
  end.

Ltac run_handler :=
  pick_handler; unfold try_except, bind, lift, ret, subscript, get, bound, invoke.

(** C10. For every registered tool: when the argument mapping holds every
    required parameter, [dispatch] calls the tool's function with each
    parameter bound to the value in the mapping, or to its default (limit
    50, hours_ago 24, path "", ref "main", base_branch "main") when the
    mapping has none, so that leaving an optional parameter out is the same
    as passing its default; when a required parameter is missing, [dispatch]
    returns the error payload of that tool, naming a missing parameter, and
    does not raise. *)
Theorem dispatch_defaults_and_required schema :
  schema ∈ tools.TOOL_SCHEMAS →
  (∀ items config p,
     (∀ parameter, parameter ∈ schema_required schema →
                   is_Some (dict_find parameter items)) →
     tools.dispatch (schema_name schema) (PDict items) config p =
     try_except (invoke config (schema_name schema) (bound items))
                (fun _ => true) (report_failure (schema_name schema)) p) ∧
  (∀ parameter, optional schema parameter →
     ∃ d, documented_default parameter = Some d ∧
       ∀ items config p, dict_find parameter items = None →
         tools.dispatch (schema_name schema) (PDict items) config p =
         tools.dispatch (schema_name schema)
                        (PDict (items ++ [(parameter, d)])) config p) ∧
  (∀ items config p,
     (∃ parameter, parameter ∈ schema_required schema ∧
                   dict_find parameter items = None) →
     ∃ missing, missing ∈ schema_required schema ∧
       dict_find missing items = None ∧
       tools.dispatch (schema_name schema) (PDict items) config p =
       (Return (error_payload (failure_text (schema_name schema) (KeyError missing))),
        p)).
Proof.
  intros Hin. split; [|split].
  - intros items config p Hreq.
    assert (∀ parameter, parameter ∈ schema_required schema →
              ∃ v, dict_find parameter items = Some v) as Hreq'
      by (intros k Hk; destruct (Hreq k Hk) as [v Hv]; eauto).
    clear Hreq.
    schema_cases Hin; cbn [schema_name schema_required] in *; run_handler; cbn;
      repeat match goal with
             | |- context [dict_find ?k items] =>
                 lazymatch goal with
                 | H : dict_find k items = _ |- _ => fail
                 | _ =>
                     first
                       [ destruct (Hreq' k ltac:(in_list)) as [? ?]
                       | destruct (dict_find k items) eqn:? ]
                 end
             | H : dict_find ?k items = _ |- _ => rewrite !H
             end; reflexivity.
  - intros parameter Hopt.
    destruct (optional_cases schema parameter Hin Hopt)
      as [[Hn ->]|[[Hn ->]|[[Hn ->]|[[Hn ->]|[[Hn ->]|[Hn ->]]]]]];
      rewrite Hn; (eexists; split; [reflexivity|]); intros items config p Hnone;
      pick_handler; unfold try_except, bind;
      repeat first
        [ rewrite get_extended_same by done
        | rewrite get_extended_other by discriminate
        | rewrite subscript_extended by discriminate ];
      reflexivity.
  - intros items config p (parameter & Hparam & Hnone).
    schema_cases Hin; cbn [schema_name schema_required] in *;
      repeat (apply elem_of_cons in Hparam as [-> | Hparam]);
      try (by apply elem_of_nil in Hparam);
      match goal with
      | |- ∃ missing, missing ∈ ?l ∧ _ => probe items l
      end.
    all: try congruence.
    all: match goal with
         | H : dict_find ?k _ = None |- _ =>
             exists k; split; [in_list|]; split; [exact H|];
             run_handler; cbn;
             repeat match goal with H' : dict_find _ _ = _ |- _ => rewrite !H' end;
             reflexivity
         end.
Qed.

End dispatcher_contract.

(** ** The driver loop *)

Section driver.
Context {P : Platform}.
Variable SYSTEM_PROMPT : string.
Implicit Types (self : agent.DebugAgent) (s : agent.state (P := P)).

Lemma create_spec self s r s1 :
  agent.create self s = (r, s1) →
  agent.messages s1 = agent.messages s ∧
  agent.model_calls s1 =
    agent.model_calls s ++ [ {| agent.snapshot := agent.messages s; agent.response := r |} ].
Proof.
  unfold agent.create.
  destruct (chat_completions_create _ _ _ _ _) as [r0 w]. by intros [= <- <-].
Qed.

Lemma argument_error_none tool_call :
  argument_error (P := P) tool_call = None →
  ∃ arguments text,
    agent.parse_arguments (P := P) (function_arguments tool_call) = Return arguments ∧
    agent.arguments_text (P := P) arguments = Return text.
Proof.
  unfold argument_error.
  destruct (agent.parse_arguments _) as [arguments|e]; [|done].
  destruct (agent.arguments_text arguments) as [text|e] eqn:Htext; [|done].
  intros _. by exists arguments, text.
Qed.

(** A tool call whose arguments are read without error is dispatched, and
    what [dispatch] returns is appended as its tool message. *)
Lemma run_tool_call_spec self tool_call s :
  argument_error (P := P) tool_call = None →
  ∃ arguments result p',
    agent.parse_arguments (P := P) (function_arguments tool_call) = Return arguments ∧
    tools.dispatch (function_name tool_call) arguments
                   (agent.config self) (agent.proc s) = (Return result, p') ∧
    agent.run_tool_call self tool_call s =
      (Return (),
       {| agent.messages := agent.messages s ++ [tool_result (call_id tool_call) result];
          agent.model_calls := agent.model_calls s;
          agent.proc := p' |}).
Proof.
  intros (arguments & text & Hparse & Htext)%argument_error_none.
  destruct (dispatch_returns (function_name tool_call) arguments
              (agent.config self) (agent.proc s)) as (result & p' & Hd).
  exists arguments, result, p'. split_and!; [done..|].
  unfold agent.run_tool_call. by rewrite Hparse, Htext, Hd.
Qed.

(** A tool call stopped by an argument error raises it and leaves the state
    as it was: nothing is dispatched and nothing appended. *)
Lemma run_tool_call_stopped self tool_call s e :
  argument_error (P := P) tool_call = Some e →
  agent.run_tool_call self tool_call s = (Raise e, s).
Proof.
  unfold argument_error, agent.run_tool_call.
  destruct (agent.parse_arguments _) as [arguments|e']; [|by intros [= ->]].
  destruct (agent.arguments_text arguments) as [text|e']; [done | by intros [= ->]].
Qed.

(** The tool calls of one message: the requests are answered in order, up to
    the first one an argument error stops. *)
Lemma run_tool_calls_spec self calls s :
  ∃ results o s',
    agent.run_tool_calls self calls s = (o, s') ∧
    (length results ≤ length calls)%nat ∧
    agent.messages s' = agent.messages s ++ tool_messages calls results ∧
    agent.model_calls s' = agent.model_calls s ∧
    Forall (λ call, argument_error (P := P) call = None) (take (length results) calls) ∧
    match o with
    | Return _ => length results = length calls
    | Raise e =>
        ∃ call, calls !! length results = Some call ∧
                argument_error (P := P) call = Some e
    end.
Proof.
  revert s. induction calls as [|tool_call calls IH]; intros s.
  - exists [], (Return ()), s. cbn. rewrite app_nil_r. split_and!; done.
  - destruct (argument_error (P := P) tool_call) as [e|] eqn:Hargs.
    + exists [], (Raise e), s. cbn [agent.run_tool_calls].
      rewrite (run_tool_call_stopped self tool_call s e Hargs).
      cbn. rewrite app_nil_r. split_and!; try done; [lia | by exists tool_call].
    + destruct (run_tool_call_spec self tool_call s Hargs)
        as (arguments & result & p' & _ & _ & Hone).
      cbn [agent.run_tool_calls]. rewrite Hone.
      match goal with |- context [agent.run_tool_calls self calls ?s1] =>
        destruct (IH s1) as (results & o & s' & Hrun & Hlen & Hmsgs & Hcalls & Hok & Hend)
      end.
      exists (result :: results), o, s'. rewrite Hrun. split_and!.
      * done.
      * cbn. lia.
      * rewrite Hmsgs. cbn. by rewrite <- app_assoc.
      * by rewrite Hcalls.
      * cbn. by constructor.
      * destruct o as [[]|e]; cbn; [by rewrite Hend | done].
Qed.

Lemma terminal_or_not m : terminal m ∨ ¬ terminal m.
Proof. destruct (decide (terminal m)); [by left | by right]. Qed.

Lemma not_terminal_requests m :
  ¬ terminal m → ∃ call calls, tool_calls m = Some (call :: calls).
Proof.
  unfold terminal. destruct (tool_calls m) as [[|call calls]|]; intros Hno.
  - exfalso. by apply Hno; right.
  - eauto.
  - exfalso. by apply Hno; left.
Qed.

(** An iteration whose answer carries no tool-call requests ends the loop. *)
Lemma loop_terminal self iteration rest s completion s1 m others :
  agent.create self s = (Return completion, s1) →
  choices completion = m :: others →
  terminal m →
  agent.loop self (iteration :: rest) s =
    (Return (agent.completed iteration (agent.final_message_of m)),
     agent.append (role_content "assistant" (agent.final_message_of m)) s1).
Proof.
  intros Hcreate Hchoices Hterminal. cbn [agent.loop].
  rewrite Hcreate, Hchoices. by destruct Hterminal as [-> | ->].
Qed.

(** An iteration whose answer asks for tools appends the answer and the
    tool messages of its requests, and goes on with the rest of the range;
    or an argument error stops it, and the loop raises. *)
Lemma loop_tools self iteration rest s completion s1 m others :
  agent.create self s = (Return completion, s1) →
  choices completion = m :: others →
  ¬ terminal m →
  ∃ results o s3,
    agent.run_tool_calls self (requests m) (agent.append (message_object m) s1) = (o, s3) ∧
    agent.loop self (iteration :: rest) s =
      match o with
      | Return _ => agent.loop self rest s3
      | Raise e => (Raise e, s3)
      end ∧
    (length results ≤ length (requests m))%nat ∧
    agent.messages s3 =
      agent.messages s ++ message_object m :: tool_messages (requests m) results ∧
    agent.model_calls s3 = agent.model_calls s1 ∧
    Forall (λ call, argument_error (P := P) call = None)
           (take (length results) (requests m)) ∧
    match o with
    | Return _ => length results = length (requests m)
    | Raise e =>
        ∃ call, requests m !! length results = Some call ∧
                argument_error (P := P) call = Some e
    end.
Proof.
  intros Hcreate Hchoices Hno.
  destruct (not_terminal_requests m Hno) as (call & calls & Hcalls).
  unfold requests. rewrite Hcalls.
  change (default [] (Some (call :: calls))) with (call :: calls).
  destruct (run_tool_calls_spec self (call :: calls)
              (agent.append (message_object m) s1))
    as (results & o & s3 & Hrun & Hlen & Hmsgs & Hmodel & Hok & Hend).
  exists results, o, s3. cbn [agent.loop]. rewrite Hcreate, Hchoices, Hcalls, Hrun.
  split_and!; try done.
  rewrite Hmsgs. cbn [agent.append agent.messages].
  apply create_spec in Hcreate as [-> _]. by rewrite <- app_assoc.
Qed.

Lemma first_message_created (snapshot : list Message) completion m others :
  choices completion = m :: others →
  first_message {| agent.snapshot := snapshot; agent.response := Return completion |}
  = Some m.
Proof. intros Hchoices. unfold first_message. cbn. by rewrite Hchoices. Qed.

(** The trace of the loop: the calls to the model it adds, at most one per
    iteration; every call but the last asked for tools; and what the exit
    says about the last call and the transcript. *)
Lemma loop_trace self iterations s r s' :
  agent.loop self iterations s = (r, s') →
  ∃ new,
    agent.model_calls s' = agent.model_calls s ++ new ∧
    (length new ≤ length iterations)%nat ∧
    agent.messages s `prefix_of` agent.messages s' ∧
    (∀ c, c ∈ new →
       agent.messages s `prefix_of` agent.snapshot c ∧
       agent.snapshot c `prefix_of` agent.messages s') ∧
    match r with
    | Return (agent.completed iteration final_message) =>
        ∃ earlier c m,
          new = earlier ++ [c] ∧ Forall tool_turn earlier ∧
          first_message c = Some m ∧ terminal m ∧
          final_message = agent.final_message_of m ∧
          iterations !! length earlier = Some iteration ∧
          agent.messages s' = agent.snapshot c ++ [role_content "assistant" final_message]
    | Return agent.max_iterations_reached =>
        length new = length iterations ∧
        ∃ turns,
          Forall2 turn_shape new turns ∧
          agent.messages s' = agent.messages s ++ concat turns
    | Raise e =>
        ∃ earlier c,
          new = earlier ++ [c] ∧ Forall tool_turn earlier ∧
          (first_message c = None ∨ cut_short (P := P) c e (agent.messages s'))
    end.
Proof.
  revert s r s'. induction iterations as [|iteration rest IH]; intros s r s' Hloop.
  { cbn in Hloop. injection Hloop as <- <-. exists []. rewrite !app_nil_r.
    split_and!; try done.
    - intros c Hc. by apply elem_of_nil in Hc.
    - exists []. split; [constructor|]. cbn. by rewrite app_nil_r. }
  destruct (agent.create self s) as [r0 s1] eqn:Hcreate.
  destruct (create_spec self s r0 s1 Hcreate) as [Hmsgs1 Hcalls1].
  set (c0 := {| agent.snapshot := agent.messages s; agent.response := r0 |}) in *.
  assert (∀ c, c ∈ [c0] → agent.messages s `prefix_of` agent.snapshot c) as Hsnap0.
  { intros c ->%list_elem_of_singleton. done. }
  destruct r0 as [completion|e].
  2:{ cbn [agent.loop] in Hloop. rewrite Hcreate in Hloop. injection Hloop as <- <-.
      exists [c0]. rewrite Hmsgs1. split_and!; try done; cbn; try lia.
      - intros c ->%list_elem_of_singleton. done.
      - exists [], c0. split_and!; try done. by left. }
  destruct (choices completion) as [|m others] eqn:Hchoices.
  { cbn [agent.loop] in Hloop. rewrite Hcreate, Hchoices in Hloop.
    injection Hloop as <- <-.
    exists [c0]. rewrite Hmsgs1. split_and!; try done; cbn; try lia.
    - intros c ->%list_elem_of_singleton. done.
    - exists [], c0. split_and!; try done. left. unfold first_message. cbn.
      by rewrite Hchoices. }
  assert (first_message c0 = Some m) as Hfirst
    by (by apply first_message_created with others).
  destruct (terminal_or_not m) as [Hterm|Hno].
  - rewrite (loop_terminal self iteration rest s completion s1 m others
               Hcreate Hchoices Hterm) in Hloop.
    injection Hloop as <- <-.
    exists [c0]. cbn [agent.append agent.messages agent.model_calls].
    rewrite Hmsgs1. split_and!; try done; cbn; try lia.
    + by apply prefix_app_r.
    + intros c ->%list_elem_of_singleton. split; [done|]. by apply prefix_app_r.
    + by exists [], c0, m.
  - destruct (loop_tools self iteration rest s completion s1 m others
                Hcreate Hchoices Hno)
      as (results & o & s3 & _ & Hstep & Hlen & Hmsgs3 & Hcalls3 & Hok & Hend).
    rewrite Hstep in Hloop.
    assert (agent.messages s `prefix_of` agent.messages s3) as Hgrow
      by (rewrite Hmsgs3; by apply prefix_app_r).
    assert (tool_turn c0) as Hturn0 by (by exists m).
    destruct o as [[]|e0].
    2:{ injection Hloop as <- <-. destruct Hend as (call & Hcall & Hstop).
        exists [c0]. rewrite Hcalls3, Hcalls1. split_and!; try done; cbn; try lia.
        - intros c ->%list_elem_of_singleton. done.
        - exists [], c0. split_and!; try done. right.
          by exists m, results, call. }
    destruct (IH s3 r s' Hloop) as (new & Hnew & Hbound & Hprefix & Hsnaps & Hexit).
    exists (c0 :: new). split; [|split; [|split; [|split]]].
    + rewrite Hnew, Hcalls3, Hcalls1. by rewrite <- app_assoc.
    + cbn. lia.
    + by etrans.
    + intros c [-> | Hc]%elem_of_cons.
      * split; [done|]. cbn. by etrans.
      * destruct (Hsnaps c Hc) as [Hlo Hhi]. split; [by etrans | done].
    + destruct r as [[i final_message|]|e].
      * destruct Hexit as (earlier & c & m' & -> & Hall & Hm' & Ht & Hfm & Hi & Hlast).
        exists (c0 :: earlier), c, m'. split_and!; try done.
        by constructor.
      * destruct Hexit as (Hfull & turns & Hshape & Hlast).
        split; [cbn; by rewrite Hfull|].
        exists ((message_object m :: tool_messages (requests m) results) :: turns).
        split.
        -- constructor; [|done]. by exists m, results.
        -- rewrite Hlast, Hmsgs3. cbn. by rewrite <- app_assoc.
      * destruct Hexit as (earlier & c & -> & Hall & Hlast).
        exists (c0 :: earlier), c. split_and!; try done. by constructor.
Qed.

Lemma tool_turn_not_terminal c m :
  tool_turn c → first_message c = Some m → ¬ terminal m.
Proof. intros (m' & Hm' & Hno) Hm. congruence. Qed.

Lemma turn_shape_tool_turn c added : turn_shape c added → tool_turn c.
Proof. intros (m & results & Hm & Hno & _). by exists m. Qed.

Lemma cut_short_tool_turn c e transcript :
  cut_short (P := P) c e transcript → tool_turn c.
Proof. intros (m & results & call & Hm & Hno & _). by exists m. Qed.

Lemma final_message_of_nonempty m : agent.final_message_of m ≠ "".
Proof.
  unfold agent.final_message_of. destruct (content m) as [text|]; [|done].
  destruct (String.eqb_spec text ""); cbn; [done | congruence].
Qed.

(** [run] either stops at a key the configuration lacks, before any call to
    the model, or runs the loop on the transcript of the two prompts. *)
Lemma run_exit_unfold self p :
  (∃ key s',
     agent.run_exit SYSTEM_PROMPT self p = (Raise (KeyError key), s') ∧
     agent.model_calls s' = [] ∧
     ¬ config_ready (agent.config self)) ∨
  (∃ function_name project_id,
     agent.config self !! "GCP_FUNCTION_NAME" = Some function_name ∧
     agent.config self !! "GCP_PROJECT_ID" = Some project_id ∧
     config_ready (agent.config self) ∧
     agent.run_exit SYSTEM_PROMPT self p =
       agent.loop self (agent.range 1 (agent.max_iterations self + 1))
         (@agent.Build_state P
            [ role_content "system" SYSTEM_PROMPT;
              role_content "user" (agent.get_user_prompt function_name project_id) ]
            [] p)).
Proof.
  unfold agent.run_exit, config_get, config_ready.
  destruct (agent.config self !! "GCP_FUNCTION_NAME") as [function_name|] eqn:Hf.
  2:{ left. eexists "GCP_FUNCTION_NAME", _. split_and!; [done..|].
      by intros [[? [=]] _]. }
  destruct (agent.config self !! "GCP_PROJECT_ID") as [project_id|] eqn:Hp.
  2:{ left. eexists "GCP_PROJECT_ID", _. split_and!; [done..|].
      by intros (_ & [? [=]] & _). }
  destruct (agent.config self !! "GITHUB_REPO") as [repo|] eqn:Hr.
  2:{ left. eexists "GITHUB_REPO", _. split_and!; [done..|].
      by intros (_ & _ & [? [=]]). }
  right. exists function_name, project_id. split_and!; eauto.
Qed.

Lemma range_lookup (bound : Z) (k : nat) (iteration : Z) :
  agent.range 1 (bound + 1) !! k = Some iteration → iteration = 1 + Z.of_nat k.
Proof. unfold agent.range. by intros [-> _]%lookup_seqZ. Qed.

Lemma range_length (bound : Z) :
  length (agent.range 1 (bound + 1)) = Z.to_nat bound.
Proof. unfold agent.range. rewrite length_seqZ. f_equal. lia. Qed.

(** Once the model answers without tool-call requests, that call is the
    last one and the run leaves through the return statement of the loop. *)
Lemma run_exit_terminal self p r s' (k : nat) c m :
  agent.run_exit SYSTEM_PROMPT self p = (r, s') →
  agent.model_calls s' !! k = Some c →
  first_message c = Some m →
  terminal m →
  r = Return (agent.completed (1 + Z.of_nat k) (agent.final_message_of m)) ∧
  agent.messages s' =
    agent.snapshot c ++ [role_content "assistant" (agent.final_message_of m)] ∧
  length (agent.model_calls s') = S k.
Proof.
  intros Hrun Hk Hm Hterm.
  destruct (run_exit_unfold self p)
    as [(key & s0 & Hraise & Hnone & _)|(fn & pid & _ & _ & _ & Hloop)].
  { rewrite Hraise in Hrun. injection Hrun as <- <-. by rewrite Hnone in Hk. }
  rewrite Hloop in Hrun. clear Hloop.
  destruct (loop_trace self _ _ r s' Hrun) as (new & Hnew & _ & _ & _ & Hexit).
  cbn in Hnew. rewrite Hnew in *. clear Hnew.
  assert (∀ earlier last,
            new = earlier ++ [last] → Forall tool_turn earlier →
            k = length earlier ∧ c = last) as Hlast.
  { intros earlier last -> Hall.
    destruct (decide (k < length earlier)%nat) as [Hlt|Hge].
    - rewrite lookup_app_l in Hk by done.
      exfalso. eapply (tool_turn_not_terminal c m); [|done..].
      eapply Forall_lookup_1; eauto.
    - rewrite lookup_app_r in Hk by lia.
      destruct (k - length earlier)%nat as [|n] eqn:Hdiff; [|done].
      injection Hk as <-. split; [lia | done]. }
  destruct r as [[iteration final_message|]|e].
  - destruct Hexit as (earlier & last & m' & Heq & Hall & Hm' & _ & -> & Hi & Hend).
    destruct (Hlast earlier last Heq Hall) as [-> <-].
    assert (m' = m) as -> by congruence.
    apply range_lookup in Hi as ->. split_and!; try done.
    rewrite Heq, length_app. cbn. lia.
  - destruct Hexit as (_ & turns & Hshape & _).
    destruct (Forall2_lookup_l _ _ _ _ _ Hshape Hk) as (added & _ & Hadded).
    exfalso. by eapply (tool_turn_not_terminal c m); [eapply turn_shape_tool_turn|..].
  - destruct Hexit as (earlier & last & Heq & Hall & Hstop).
    destruct (Hlast earlier last Heq Hall) as [_ <-].
    destruct Hstop as [Hnone|Hcut%cut_short_tool_turn]; [congruence|].
    by destruct (tool_turn_not_terminal c m Hcut Hm).
Qed.

Lemma tool_messages_length calls (results : list string) :
  (length results ≤ length calls)%nat →
  length (tool_messages calls results) = length results.
Proof.
  intros Hlen. unfold tool_messages. rewrite length_zip_with, length_map. lia.
Qed.

Lemma tool_messages_lookup calls (results : list string) (i : nat) call :
  (i < length results)%nat →
  calls !! i = Some call →
  ∃ text, results !! i = Some text ∧
          tool_messages calls results !! i = Some (tool_result (call_id call) text).
Proof.
  intros Hlen Hcall.
  destruct (lookup_lt_is_Some_2 results i Hlen) as [text Htext].
  exists text. split; [done|].
  unfold tool_messages. rewrite lookup_zip_with, list_lookup_fmap, Hcall, Htext.
  reflexivity.
Qed.

(** C1 (amended). For every bound B >= 1 and every iteration k <= B: if the
    assistant message returned by the k-th model call carries no tool-call
    requests, the run ends at iteration k through the return statement of the
    loop (phase COMPLETED), it makes no further model call, it returns that
    message's textual content when that content is a non-empty text and the
    fixed text "Agent finished without a summary." otherwise, and the
    transcript is the one submitted on that call followed by one assistant
    message holding the returned text. *)
Theorem terminal_answer_completes self p r s' (k : Z) c m :
  1 ≤ k ≤ agent.max_iterations self →
  agent.run_exit SYSTEM_PROMPT self p = (r, s') →
  agent.model_calls s' !! Z.to_nat (k - 1) = Some c →
  first_message c = Some m →
  terminal m →
  r = Return (agent.completed k (agent.final_message_of m)) ∧
  agent.phase_of (agent.completed k (agent.final_message_of m)) = agent.COMPLETED ∧
  fst (agent.run SYSTEM_PROMPT self p) = Return (agent.final_message_of m) ∧
  (∀ text, content m = Some text → text ≠ "" → agent.final_message_of m = text) ∧
  (content m = None ∨ content m = Some "" →
   agent.final_message_of m = "Agent finished without a summary.") ∧
  agent.messages s' =
    agent.snapshot c ++ [role_content "assistant" (agent.final_message_of m)] ∧
  length (agent.model_calls s') = Z.to_nat k.
Proof.
  intros Hk Hrun Hcall Hm Hterm.
  destruct (run_exit_terminal self p r s' _ c m Hrun Hcall Hm Hterm)
    as (-> & Hmsgs & Hlen).
  replace (1 + Z.of_nat (Z.to_nat (k - 1))) with k by lia.
  split_and!; try done.
  - unfold agent.run. by rewrite Hrun.
  - intros text Htext Hne. unfold agent.final_message_of. rewrite Htext.
    by destruct (String.eqb_spec text "").
  - unfold agent.final_message_of. by intros [-> | ->].
  - rewrite Hlen. lia.
Qed.

(** C2 (amended). For every bound B >= 0 a run makes at most B model calls.
    On a configuration that holds the keys [run] reads before the loop (any
    that [load_config] returns): with B = 0 the model is never called and
    the run returns the fixed budget-exhausted text at once; and when the
    bound is reached, every answer asked for tools and no tool call was
    stopped by an argument error, the run returns the budget-exhausted text,
    and the transcript is the two prompts followed, for each model call in
    order, by the assistant message and one tool message per request: every
    tool result appended is still there.  A run in which every answer asked
    for tools raises only when an argument error stops a tool call of the
    last answer, and it raises that error. *)
Theorem model_calls_within_bound self p r s' :
  0 ≤ agent.max_iterations self →
  agent.run_exit SYSTEM_PROMPT self p = (r, s') →
  (length (agent.model_calls s') ≤ Z.to_nat (agent.max_iterations self))%nat ∧
  (config_ready (agent.config self) → agent.max_iterations self = 0 →
   agent.model_calls s' = [] ∧
   r = Return agent.max_iterations_reached ∧
   agent.phase_of agent.max_iterations_reached = agent.BUDGET_EXHAUSTED ∧
   fst (agent.run SYSTEM_PROMPT self p) =
     Return "Agent reached maximum iterations without completing the task.") ∧
  (config_ready (agent.config self) →
   length (agent.model_calls s') = Z.to_nat (agent.max_iterations self) →
   Forall tool_turn (agent.model_calls s') →
   (∀ c m call,
      c ∈ agent.model_calls s' → first_message c = Some m → call ∈ requests m →
      argument_error (P := P) call = None) →
   r = Return agent.max_iterations_reached ∧
   fst (agent.run SYSTEM_PROMPT self p) =
     Return "Agent reached maximum iterations without completing the task." ∧
   ∃ function_name project_id turns,
     agent.config self !! "GCP_FUNCTION_NAME" = Some function_name ∧
     agent.config self !! "GCP_PROJECT_ID" = Some project_id ∧
     Forall2 turn_shape (agent.model_calls s') turns ∧
     agent.messages s' =
       [ role_content "system" SYSTEM_PROMPT;
         role_content "user" (agent.get_user_prompt function_name project_id) ]
       ++ concat turns) ∧
  (config_ready (agent.config self) →
   ∀ e,
     r = Raise e → Forall tool_turn (agent.model_calls s') →
     fst (agent.run SYSTEM_PROMPT self p) = Raise e ∧
     ∃ earlier c,
       agent.model_calls s' = earlier ++ [c] ∧
       cut_short (P := P) c e (agent.messages s')).
Proof.
  intros Hbound Hrun.
  destruct (run_exit_unfold self p)
    as [(key & s0 & Hraise & Hnone & Hnot)|(fn & pid & Hfn & Hpid & _ & Hloop)].
  { rewrite Hraise in Hrun. injection Hrun as <- <-. rewrite Hnone. cbn.
    split_and!; [lia | done..]. }
  rewrite Hloop in Hrun.
  destruct (loop_trace self _ _ r s' Hrun) as (new & Hnew & Hle & _ & _ & Hexit).
  cbn in Hnew. rewrite range_length in Hle. rewrite Hnew.
  assert (Forall tool_turn new →
          (∀ c m call,
             c ∈ new → first_message c = Some m → call ∈ requests m →
             argument_error (P := P) call = None) →
          r = Return agent.max_iterations_reached) as Hall.
  { intros Hturns Hfine. destruct r as [[iteration final_message|]|e]; [|done|].
    - destruct Hexit as (earlier & c & m & -> & _ & Hm & Hterm & _).
      apply Forall_app in Hturns as [_ Hc]. apply Forall_inv in Hc.
      by destruct (tool_turn_not_terminal c m Hc Hm).
    - destruct Hexit as (earlier & c & -> & _ & [Hm|Hcut]).
      + apply Forall_app in Hturns as [_ Hc]. apply Forall_inv in Hc.
        destruct Hc as (m & Hm' & _). congruence.
      + destruct Hcut as (m & results & call & Hm & _ & Hcall & Hstop & _).
        rewrite (Hfine c m call) in Hstop; [done | set_solver | done |].
        by eapply list_elem_of_lookup_2. }
  split_and!.
  - done.
  - intros _ Hzero. rewrite Hzero in Hle. destruct new; [|cbn in Hle; lia].
    assert (r = Return agent.max_iterations_reached) as ->
      by (apply Hall; [constructor | intros c m call Hc; by apply elem_of_nil in Hc]).
    split_and!; try done.
    unfold agent.run. by rewrite Hloop, Hrun.
  - intros _ Hfull Hturns Hfine. pose proof (Hall Hturns Hfine) as ->.
    destruct Hexit as (_ & turns & Hshape & Hlast).
    split_and!; try done.
    + unfold agent.run. by rewrite Hloop, Hrun.
    + by exists fn, pid, turns.
  - intros _ e -> Hturns. split; [unfold agent.run; by rewrite Hloop, Hrun|].
    destruct Hexit as (earlier & c & -> & _ & [Hm|Hcut]).
    + apply Forall_app in Hturns as [_ Hc]. apply Forall_inv in Hc.
      destruct Hc as (m & Hm' & _). congruence.
    + by exists earlier, c.
Qed.

(** C3 (amended). In every iteration in which the assistant message issues
    N >= 1 tool-call requests and no request is stopped by an argument
    error, the transcript grows by exactly 1 + N messages: the assistant
    message, then N tool messages.  When an argument error stops the request
    after j answered ones, the transcript has grown by 1 + j messages, the
    assistant message and the tool messages of those j requests, and the
    loop raises that error.  In both cases this is the state the loop goes
    on with or ends in; the entries the transcript held keep their places
    and values; and the i-th tool message carries the id of the i-th
    request. *)
Theorem tool_iteration_transcript self iteration rest s completion s1 m others calls :
  agent.create self s = (Return completion, s1) →
  choices completion = m :: others →
  tool_calls m = Some calls →
  (1 ≤ length calls)%nat →
  ∃ results o s3,
    agent.run_tool_calls self calls (agent.append (message_object m) s1) = (o, s3) ∧
    agent.loop self [iteration] s =
      (match o with
       | Return _ => Return agent.max_iterations_reached
       | Raise e => Raise e
       end, s3) ∧
    agent.loop self (iteration :: rest) s =
      match o with
      | Return _ => agent.loop self rest s3
      | Raise e => (Raise e, s3)
      end ∧
    (length results ≤ length calls)%nat ∧
    agent.messages s3 =
      agent.messages s ++ message_object m :: tool_messages calls results ∧
    length (agent.messages s3) = (length (agent.messages s) + 1 + length results)%nat ∧
    (∀ i existing, agent.messages s !! i = Some existing →
                   agent.messages s3 !! i = Some existing) ∧
    agent.messages s3 !! length (agent.messages s) = Some (message_object m) ∧
    (∀ i call, (i < length results)%nat → calls !! i = Some call →
       ∃ text,
         agent.messages s3 !! (length (agent.messages s) + 1 + i)%nat =
         Some (tool_result (call_id call) text)) ∧
    match o with
    | Return _ => length results = length calls
    | Raise e =>
        ∃ call, calls !! length results = Some call ∧
                argument_error (P := P) call = Some e ∧
                Forall (λ earlier, argument_error (P := P) earlier = None)
                       (take (length results) calls)
    end ∧
    ((∀ call, call ∈ calls → argument_error (P := P) call = None) →
     o = Return () ∧
     length (agent.messages s3) = (length (agent.messages s) + 1 + length calls)%nat).
Proof.
  intros Hcreate Hchoices Hcalls Hn.
  assert (¬ terminal m) as Hno.
  { unfold terminal. rewrite Hcalls. intros [[=] | [= ->]]. cbn in Hn. lia. }
  destruct (loop_tools self iteration rest s completion s1 m others
              Hcreate Hchoices Hno)
    as (results & o & s3 & Hrun & Hstep & Hlen & Hmsgs & _ & Hok & Hend).
  pose proof (loop_tools self iteration [] s completion s1 m others
                Hcreate Hchoices Hno)
    as (results' & o' & s3' & Hrun' & Hone & _).
  rewrite Hrun in Hrun'. injection Hrun' as <- <-.
  unfold requests in *. rewrite Hcalls in *.
  change (default [] (Some calls)) with calls in *.
  assert (length (agent.messages s3)
          = (length (agent.messages s) + 1 + length results)%nat) as Hgrown.
  { rewrite Hmsgs, length_app, length_cons, tool_messages_length by done. lia. }
  exists results, o, s3. split_and!; try done.
  - rewrite Hone. by destruct o as [[]|e].
  - intros i existing Hi. rewrite Hmsgs. by apply lookup_app_l_Some.
  - rewrite Hmsgs. by rewrite list_lookup_middle.
  - intros i call Hlt Hi.
    destruct (tool_messages_lookup calls results i call Hlt Hi) as (text & _ & Htool).
    exists text. rewrite Hmsgs.
    rewrite lookup_app_r by lia.
    replace (length (agent.messages s) + 1 + i - length (agent.messages s))%nat
      with (S i) by lia.
    exact Htool.
  - destruct o as [[]|e]; [done|]. destruct Hend as (call & Hcall & Hstop).
    by exists call.
  - intros Hfine. destruct o as [[]|e].
    + split; [done|]. by rewrite Hgrown, Hend.
    + destruct Hend as (call & Hcall & Hstop).
      rewrite Hfine in Hstop; [done|]. by eapply list_elem_of_lookup_2.
Qed.

(** C6 (amended). For every tool-call request whose argument text
    [json.loads] rejects with a decode error, the arguments are the empty
    mapping: [dispatch] is called with it, the resolved handler, if the tool
    has one, runs on the empty mapping, its result or the error payload of
    its failure becomes a tool message with the id of the request, appended
    to the transcript, and the loop over the requests goes on with the next
    one.  Any other error [json.loads] raises on the text is not caught:
    nothing is dispatched or appended, and the loop over the requests stops
    with that error. *)
Theorem malformed_arguments_degrade self tool_call s e :
  json_loads P (function_arguments tool_call) = Raise e →
  (is_JSONDecodeError e = true →
   ∃ result p',
     tools.dispatch (function_name tool_call) (PDict []) (agent.config self)
                    (agent.proc s) = (Return result, p') ∧
     (∀ handler : pyvalue → M P string,
        tools.handlers (agent.config self) !! function_name tool_call = Some handler →
        match handler (PDict []) (agent.proc s) with
        | (Return text, q) => result = text ∧ p' = q
        | (Raise e', q) =>
            result = error_payload (failure_text (function_name tool_call) e') ∧ p' = q
        end) ∧
     agent.run_tool_call self tool_call s =
       (Return (),
        {| agent.messages := agent.messages s ++ [tool_result (call_id tool_call) result];
           agent.model_calls := agent.model_calls s;
           agent.proc := p' |}) ∧
     (∀ rest,
        agent.run_tool_calls self (tool_call :: rest) s =
        agent.run_tool_calls self rest
          {| agent.messages := agent.messages s ++ [tool_result (call_id tool_call) result];
             agent.model_calls := agent.model_calls s;
             agent.proc := p' |})) ∧
  (is_JSONDecodeError e = false →
   agent.run_tool_call self tool_call s = (Raise e, s) ∧
   ∀ rest, agent.run_tool_calls self (tool_call :: rest) s = (Raise e, s)).
Proof.
  intros Hparse. split; intros Hclass.
  - assert (agent.parse_arguments (P := P) (function_arguments tool_call)
            = Return (PDict [])) as Hempty
      by (unfold agent.parse_arguments; by rewrite Hparse, Hclass).
    assert (argument_error (P := P) tool_call = None) as Hfine
      by (unfold argument_error; by rewrite Hempty).
    destruct (run_tool_call_spec self tool_call s Hfine)
      as (arguments & result & p' & Hargs & Hdispatch & Hone).
    assert (arguments = PDict []) as -> by congruence.
    exists result, p'. split_and!; try done.
    + intros handler Hhandler. revert Hdispatch.
      unfold tools.dispatch, try_except. rewrite Hhandler.
      destruct (handler (PDict []) (agent.proc s)) as [[text|e'] q].
      * by intros [= -> ->].
      * by intros [= <- ->].
    + intros rest. cbn [agent.run_tool_calls]. by rewrite Hone.
  - assert (agent.run_tool_call self tool_call s = (Raise e, s)) as Hone.
    { apply run_tool_call_stopped. unfold argument_error, agent.parse_arguments.
      by rewrite Hparse, Hclass. }
    split; [done|]. intros rest. cbn [agent.run_tool_calls]. by rewrite Hone.
Qed.

(** C9. When the terminal assistant message (one without tool-call
    requests) has no content or an empty one, the run appends and returns
    the fixed text "Agent finished without a summary." in its place; and
    whatever the answers of the model, a run that returns, returns a
    non-empty text. *)
Theorem empty_answer_gets_fixed_summary self p :
  (∀ r s' (k : nat) c m,
     agent.run_exit SYSTEM_PROMPT self p = (r, s') →
     agent.model_calls s' !! k = Some c →
     first_message c = Some m →
     terminal m →
     content m = None ∨ content m = Some "" →
     fst (agent.run SYSTEM_PROMPT self p) = Return "Agent finished without a summary." ∧
     last (agent.messages s') =
       Some (role_content "assistant" "Agent finished without a summary.")) ∧
  (∀ text s', agent.run SYSTEM_PROMPT self p = (Return text, s') → text ≠ "").
Proof.
  split.
  - intros r s' k c m Hrun Hk Hm Hterm Hcontent.
    destruct (run_exit_terminal self p r s' k c m Hrun Hk Hm Hterm)
      as (-> & Hmsgs & _).
    assert (agent.final_message_of m = "Agent finished without a summary.") as Hfixed
      by (unfold agent.final_message_of; by destruct Hcontent as [-> | ->]).
    rewrite Hfixed in *. split.
    + unfold agent.run. by rewrite Hrun.
    + rewrite Hmsgs. apply last_snoc.
  - intros text s'. unfold agent.run.
    destruct (agent.run_exit SYSTEM_PROMPT self p) as [[e|e] s0] eqn:Hrun; [|done].
    intros [= <- <-].
    destruct e as [iteration final_message|]; [|done].
    destruct (run_exit_unfold self p)
      as [(key & s1 & Hraise & _)|(fn & pid & _ & _ & _ & Hloop)]; [congruence|].
    rewrite Hloop in Hrun.
    destruct (loop_trace self _ _ _ _ Hrun) as (new & _ & _ & _ & _ & Hexit).
    destruct Hexit as (earlier & c & m & _ & _ & _ & _ & -> & _).
    apply final_message_of_nonempty.
Qed.

End driver.

(** ** The log tools *)

Section log_tools.
Context {P : Platform}.
Implicit Types (config : gmap string string) (p : process P).

Ltac run_monad :=
  unfold bind, system, service, lift, ret, raise, try_except,
    read_temp_credentials_path, assign_temp_credentials_path in *;
  repeat (case_match; simplify_eq/=).

(** [_ensure_credentials_file] reaches no service. *)
Lemma ensure_credentials_file_calls config p r p' :
  gcp_logging._ensure_credentials_file config p = (r, p') →
  api_calls p' = api_calls p.
Proof.
  unfold gcp_logging._ensure_credentials_file. intros Hrun. by run_monad.
Qed.

(** The only entries [query_logs] asks the service for are those of its
    filter, up to its limit. *)
Lemma query_logs_calls config (filter_str limit : pyvalue) p r p' :
  gcp_logging.query_logs config filter_str limit p = (r, p') →
  ∀ f l, call_list_entries f l ∈ api_calls p' →
         call_list_entries f l ∈ api_calls p ∨ (f = filter_str ∧ l = limit).
Proof.
  unfold gcp_logging.query_logs, gcp_logging._get_client. unfold bind at 1 2 3.
  destruct (gcp_logging._ensure_credentials_file config p) as [[path|e] p1] eqn:Hcred;
    apply ensure_credentials_file_calls in Hcred as Hcalls.
  2:{ intros [= <- <-] f l. rewrite Hcalls. by left. }
  intros Hrun f l. revert Hrun. run_monad; intros [= <- <-]; cbn;
    rewrite ?Hcalls, ?elem_of_app, ?list_elem_of_singleton; naive_solver.
Qed.

Lemma filter_text_agrees (service_name project since : string) :
  "resource.type=" +:+ dquote +:+ "cloud_run_revision" +:+ dquote +:+ " " +:+
  "resource.labels.service_name=" +:+ dquote +:+ service_name +:+ dquote +:+ " " +:+
  "logName=" +:+ dquote +:+ "projects/" +:+ project +:+
    "/logs/run.googleapis.com%2Frequests" +:+ dquote +:+ " " +:+
  "timestamp>=" +:+ dquote +:+ since +:+ dquote
  = recent_requests_filter service_name project since.
Proof.
  unfold recent_requests_filter. cbn [join].
  rewrite !string_app_assoc. reflexivity.
Qed.

Lemma last_hours_filter_spec config (function_name hours_ago : pyvalue) p filter_str p1 :
  last_hours_filter config function_name hours_ago p = (Return filter_str, p1) →
  ∃ now delta past project,
    datetime_now_utc P (world p) = (now, world p1) ∧
    timedelta_hours P hours_ago = Return delta ∧
    datetime_sub P now delta = Return past ∧
    config !! "GCP_PROJECT_ID" = Some project ∧
    filter_str =
      recent_requests_filter (py_str P function_name) project (isoformat P past) ∧
    api_calls p1 = api_calls p.
Proof.
  unfold last_hours_filter, config_get. intros Hrun. run_monad.
  eexists _, _, _, _. split_and!; eauto.
Qed.

(** C8. For every configuration, function name, [hours_ago] and limit,
    [list_log_entries] is the filter builder composed with [query_logs]
    on the same configuration and limit.  The filter the builder returns
    restricts the entries to resource type [cloud_run_revision], to the
    service named after the function, to the request log of the project of
    the configuration, and to the timestamps from the current time minus
    [hours_ago] hours on; and the only entries [list_log_entries] asks the
    logging service for are those of that filter, up to that limit. *)
Theorem list_log_entries_is_query_logs
    config (function_name hours_ago limit : pyvalue) p :
  gcp_logging.list_log_entries config function_name hours_ago limit p =
    list_log_entries_composed config function_name hours_ago limit p ∧
  (∀ filter_str p1,
     last_hours_filter config function_name hours_ago p = (Return filter_str, p1) →
     ∃ now delta past project,
       datetime_now_utc P (world p) = (now, world p1) ∧
       timedelta_hours P hours_ago = Return delta ∧
       datetime_sub P now delta = Return past ∧
       config !! "GCP_PROJECT_ID" = Some project ∧
       filter_str =
         recent_requests_filter (py_str P function_name) project (isoformat P past) ∧
       contains ("resource.type=" +:+ dquote +:+ "cloud_run_revision" +:+ dquote)
                filter_str ∧
       contains ("resource.labels.service_name=" +:+ dquote +:+
                 py_str P function_name +:+ dquote) filter_str ∧
       contains ("logName=" +:+ dquote +:+ "projects/" +:+ project +:+
                 "/logs/run.googleapis.com%2Frequests" +:+ dquote) filter_str ∧
       contains ("timestamp>=" +:+ dquote +:+ isoformat P past +:+ dquote)
                filter_str) ∧
  (∀ r p' f l,
     gcp_logging.list_log_entries config function_name hours_ago limit p = (r, p') →
     call_list_entries f l ∈ api_calls p' →
     call_list_entries f l ∈ api_calls p ∨
     (l = limit ∧
      ∃ filter_str p1,
        last_hours_filter config function_name hours_ago p = (Return filter_str, p1) ∧
        f = PStr filter_str)).
Proof.
  assert (gcp_logging.list_log_entries config function_name hours_ago limit p =
          list_log_entries_composed config function_name hours_ago limit p) as Hcomposed.
  { unfold gcp_logging.list_log_entries, list_log_entries_composed, last_hours_filter.
    unfold bind, system, lift, ret.
    destruct (datetime_now_utc P (world p)) as [now w].
    destruct (timedelta_hours P hours_ago) as [delta|e]; [|done].
    destruct (datetime_sub P now delta) as [past|e]; [|done].
    destruct (config_get config "GCP_PROJECT_ID") as [project|e]; [|done].
    by rewrite filter_text_agrees. }
  split_and!.
  - exact Hcomposed.
  - intros filter_str p1 Hfilter.
    destruct (last_hours_filter_spec _ _ _ _ _ _ Hfilter)
      as (now & delta & past & project & Hnow & Hdelta & Hpast & Hproject & -> & _).
    exists now, delta, past, project. split_and!; try done;
      unfold recent_requests_filter; cbn [join].
    + apply contains_app_l, contains_refl.
    + apply contains_app_r, contains_app_r, contains_app_l, contains_refl.
    + do 4 apply contains_app_r. apply contains_app_l, contains_refl.
    + do 6 apply contains_app_r. apply contains_refl.
  - intros r p' f l Hrun Hin. rewrite Hcomposed in Hrun.
    unfold list_log_entries_composed in Hrun. unfold bind at 1 in Hrun.
    destruct (last_hours_filter config function_name hours_ago p)
      as [[filter_str|e] p1] eqn:Hfilter.
    + apply last_hours_filter_spec in Hfilter as Hspec.
      destruct Hspec as (_ & _ & _ & _ & _ & _ & _ & _ & _ & Hcalls).
      destruct (query_logs_calls _ _ _ _ _ _ Hrun f l Hin) as [Hold | [-> ->]].
      * left. by rewrite <- Hcalls.
      * right. split; [done|]. by exists filter_str, p1.
    + injection Hrun as <- <-. left.
      revert Hfilter. unfold last_hours_filter, config_get. intros Hfilter.
      by run_monad.
Qed.

End log_tools.

(** ** The repository tools *)

Ltac flat := repeat (progress (rewrite <- ?app_assoc; cbn [app])).

Section repository_tools.
Context {P : Platform}.
Implicit Types (config : gmap string string) (p : process P).

(** C7 (amended). For every path, content, commit message and branch,
    [commit_file_change] opens the repository and looks the file up on the
    branch.  When the lookup returns the file, it attempts an update with
    the sha of that file and, when the update succeeds, reports action
    "updated" with the sha of the commit.  When the lookup raises a GitHub
    error, it attempts no update but a create: it reports action "created"
    when the create succeeds and returns a structured error payload when the
    create raises a GitHub error.  An update is only ever attempted on the
    file the lookup returned.  A failure to open the repository, and an
    error of the lookup or of the create that is not a GitHub error, is
    raised to the caller. *)
Theorem commit_file_change_outcomes
    config (path content message branch : pyvalue) p r p' :
  github.commit_file_change config path content message branch p = (r, p') →
  (∀ e p1, github._get_repo config p = (Raise e, p1) → r = Raise e ∧ p' = p1) ∧
  (∀ token repo_name repo w1 found w2,
     config !! "GITHUB_TOKEN" = Some token →
     config !! "GITHUB_REPO" = Some repo_name →
     get_repo P token repo_name (world p) = (Return repo, w1) →
     get_contents P repo path (Some branch) w1 = (found, w2) →
     let opened :=
       [ call_get_repo token repo_name; call_get_contents path (Some branch) ] in
     (∀ existing updated w3,
        found = Return (one_file existing) →
        update_file P repo path message content (cf_sha existing) branch w2
          = (updated, w3) →
        let tried :=
          opened ++ [call_update_file path message content (cf_sha existing) branch] in
        (∃ rest, api_calls p' = api_calls p ++ tried ++ rest) ∧
        (∀ commit_sha,
           updated = Return commit_sha →
           r = Return (commit_payload "updated" commit_sha) ∧
           api_calls p' = api_calls p ++ tried ∧ world p' = w3)) ∧
     (∀ e created w3,
        found = Raise e →
        is_GithubException e = true →
        create_file P repo path message content branch w2 = (created, w3) →
        r = create_report created ∧
        api_calls p' =
          api_calls p ++ opened ++ [call_create_file path message content branch] ∧
        world p' = w3) ∧
     (∀ e,
        found = Raise e →
        is_GithubException e = false →
        r = Raise e ∧ api_calls p' = api_calls p ++ opened ∧ world p' = w2) ∧
     (∃ new,
        api_calls p' = api_calls p ++ new ∧
        ∀ sha, call_update_file path message content sha branch ∈ new →
               ∃ existing, found = Return (one_file existing) ∧ sha = cf_sha existing)).
Proof.
  intros Hrun. split.
  - intros e p1 Hrepo. revert Hrun. unfold github.commit_file_change.
    unfold bind at 1. rewrite Hrepo. by intros [= <- <-].
  - intros token repo_name repo w1 found w2 Htoken Hname Hrepo Hfound.
    revert Hrun.
    unfold github.commit_file_change, github._get_repo, github.report_error, config_get.
    rewrite Htoken, Hname.
    unfold bind, try_except, service, lift, ret, raise, create_report, commit_payload.
    cbn. rewrite Hrepo. cbn. rewrite Hfound. cbn.
    destruct found as [[existing|entries]|e]; cbn.
    + destruct (update_file P repo path message content (cf_sha existing) branch w2)
        as [updated w3] eqn:Hupdate. cbn.
      assert (∀ rest : list api_call,
                (api_calls p ++ [call_get_repo token repo_name]) ++
                [call_get_contents path (Some branch)] ++
                call_update_file path message content (cf_sha existing) branch :: rest
                = api_calls p ++
                  ([call_get_repo token repo_name; call_get_contents path (Some branch)]
                   ++ [call_update_file path message content (cf_sha existing) branch])
                  ++ rest) as Hshape
        by (intros rest; by flat).
      intros Hrun. split_and!.
      * intros existing' updated' w3' [= <-] Hsame.
        rewrite Hupdate in Hsame. injection Hsame as <- <-. split.
        -- revert Hrun. destruct updated as [commit_sha|e]; cbn.
           ++ intros [= <- <-]. exists []. cbn. by flat.
           ++ destruct (is_GithubException e); cbn.
              ** destruct (create_file P repo path message content branch w3)
                   as [[commit_sha|e'] w4]; cbn;
                   [|destruct (is_GithubException e')];
                   intros [= <- <-]; cbn;
                   exists [call_create_file path message content branch];
                   by flat.
              ** intros [= <- <-]. exists []. cbn. by flat.
        -- intros commit_sha ->. cbn in Hrun. injection Hrun as <- <-. cbn.
           by flat.
      * intros e created w3' [=].
      * intros e [=].
      * revert Hrun. destruct updated as [commit_sha|e]; cbn.
        -- intros [= <- <-]. eexists. cbn. flat. split; [done|].
           intros sha Hin. cbn in Hin.
           repeat (apply elem_of_cons in Hin as [Hin|Hin]; [try discriminate Hin|]);
             [|by apply elem_of_nil in Hin].
           injection Hin as ->. by exists existing.
        -- destruct (is_GithubException e); cbn.
           ++ destruct (create_file P repo path message content branch w3)
                as [[commit_sha|e'] w4]; cbn;
                [|destruct (is_GithubException e')];
                intros [= <- <-]; cbn; eexists;
                (flat; split; [done|]);
                intros sha Hin; cbn in Hin;
                repeat (apply elem_of_cons in Hin as [Hin|Hin];
                        [first [discriminate Hin
                               | injection Hin as ->; by exists existing]|]);
                by apply elem_of_nil in Hin.
           ++ intros [= <- <-]. eexists. cbn. flat. split; [done|].
              intros sha Hin. cbn in Hin.
              repeat (apply elem_of_cons in Hin as [Hin|Hin]; [try discriminate Hin|]);
                [|by apply elem_of_nil in Hin].
              injection Hin as ->. by exists existing.
    + intros [= <- <-]. cbn. split_and!.
      * intros existing updated w3 [=].
      * intros e created w3 [=].
      * intros e [=].
      * eexists. flat. split; [done|].
        intros sha Hin. cbn in Hin.
        repeat (apply elem_of_cons in Hin as [Hin|Hin]; [discriminate Hin|]).
        by apply elem_of_nil in Hin.
    + intros Hrun. split_and!.
      * intros existing updated w3 [=].
      * intros e0 created w3 [= <-] He Hcreate. rewrite He in Hrun. cbn in Hrun.
        rewrite Hcreate in Hrun. cbn in Hrun.
        destruct created as [commit_sha|e']; cbn in Hrun.
        -- injection Hrun as <- <-. cbn. by flat.
        -- destruct (is_GithubException e'); injection Hrun as <- <-; cbn;
             by flat.
      * intros e0 [= <-] He. rewrite He in Hrun. injection Hrun as <- <-. cbn.
        by flat.
      * revert Hrun. destruct (is_GithubException e); cbn.
        -- destruct (create_file P repo path message content branch w2)
             as [[commit_sha|e'] w3]; cbn;
             [|destruct (is_GithubException e')];
             intros [= <- <-]; cbn; eexists;
             (flat; split; [done|]);
             intros sha Hin; cbn in Hin;
             repeat (apply elem_of_cons in Hin as [Hin|Hin]; [discriminate Hin|]);
             by apply elem_of_nil in Hin.
        -- intros [= <- <-]. cbn. eexists. flat. split; [done|].
           intros sha Hin. cbn in Hin.
           repeat (apply elem_of_cons in Hin as [Hin|Hin]; [discriminate Hin|]).
           by apply elem_of_nil in Hin.
Qed.

End repository_tools.

(** ** The configuration *)

Lemma collect_missing environ acc vars :
  snd (foldl (agent_config.collect environ) acc vars) = [] → snd acc = [].
Proof.
  revert acc. induction vars as [|var vars IH]; intros acc Hnone; [done|].
  cbn in Hnone. apply IH in Hnone. revert Hnone. unfold agent_config.collect.
  destruct (environ !! var) as [value|]; [destruct (negb (String.eqb value ""))|]; cbn;
    try done; by intros [? [=]]%app_eq_nil.
Qed.

Lemma collect_keeps environ acc vars key value :
  snd (foldl (agent_config.collect environ) acc vars) = [] →
  (∀ k v, fst acc !! k = Some v → environ !! k = Some v) →
  fst acc !! key = Some value →
  fst (foldl (agent_config.collect environ) acc vars) !! key = Some value.
Proof.
  revert acc. induction vars as [|var vars IH]; intros acc Hnone Hsound Hkey; [done|].
  cbn in *. apply IH; [done|..]; unfold agent_config.collect;
    destruct (environ !! var) as [found|] eqn:Hvar;
    [destruct (negb (String.eqb found ""))| | destruct (negb (String.eqb found ""))|];
    cbn; try done.
  - intros k v. destruct (decide (var = k)) as [->|Hne].
    + rewrite lookup_insert_eq. congruence.
    + rewrite lookup_insert_ne by done. apply Hsound.
  - destruct (decide (var = key)) as [->|Hne].
    + rewrite lookup_insert_eq. apply Hsound in Hkey. congruence.
    + by rewrite lookup_insert_ne.
Qed.

Lemma collect_complete environ acc vars var :
  snd (foldl (agent_config.collect environ) acc vars) = [] →
  (∀ k v, fst acc !! k = Some v → environ !! k = Some v) →
  var ∈ vars →
  ∃ value, value ≠ "" ∧ environ !! var = Some value ∧
           fst (foldl (agent_config.collect environ) acc vars) !! var = Some value.
Proof.
  revert acc. induction vars as [|first vars IH]; intros acc Hnone Hsound Hin.
  { by apply elem_of_nil in Hin. }
  cbn in Hnone |- *.
  assert (∀ k v, fst (agent_config.collect environ acc first) !! k = Some v →
                 environ !! k = Some v) as Hsound'.
  { unfold agent_config.collect.
    destruct (environ !! first) as [found|] eqn:Hfirst;
      [destruct (negb (String.eqb found ""))|]; cbn; try done.
    intros k v. destruct (decide (first = k)) as [->|Hne].
    - rewrite lookup_insert_eq. congruence.
    - rewrite lookup_insert_ne by done. apply Hsound. }
  apply elem_of_cons in Hin as [->|Hin]; [|by apply IH].
  pose proof (collect_missing _ _ _ Hnone) as Hhere.
  assert (∃ found, found ≠ "" ∧ environ !! first = Some found ∧
                   fst (agent_config.collect environ acc first) !! first = Some found)
    as (found & Hne & Hfirst & Hstored).
  { revert Hhere. unfold agent_config.collect.
    destruct (environ !! first) as [found|] eqn:Hfirst.
    2:{ cbn. by intros [? [=]]%app_eq_nil. }
    destruct (String.eqb_spec found "") as [->|Hne]; cbn.
    { by intros [? [=]]%app_eq_nil. }
    intros _. exists found. split_and!; try done. apply lookup_insert_eq. }
  exists found. split_and!; try done. by apply collect_keeps.
Qed.

(** A configuration [load_config] returns holds every required variable,
    with the non-empty value of the environment. *)
Lemma load_config_complete environ config var :
  agent_config.load_config environ = Some config →
  var ∈ agent_config.required_vars →
  ∃ value, value ≠ "" ∧ environ !! var = Some value ∧ config !! var = Some value.
Proof.
  unfold agent_config.load_config.
  destruct (snd (foldl (agent_config.collect environ) (∅, [])
                       agent_config.required_vars)) as [|missing rest] eqn:Hnone; [|done].
  intros [= <-] Hin.
  apply (collect_complete environ (∅, []) agent_config.required_vars var Hnone);
    [|done].
  intros k v. cbn. by rewrite lookup_empty.
Qed.

(** [DebugAgent(...)] on a configuration that holds the API key: the agent
    is built when the client is, and the error of the client is raised
    otherwise. *)
Lemma init_unfold {P : Platform}
    config (max_iterations : Z) (verbose : bool) (p : process P) api_key built w :
  config !! "OPENAI_API_KEY" = Some api_key →
  openai_client P api_key (world p) = (built, w) →
  agent.init config max_iterations verbose p =
    (match built with
     | Return _ =>
         Return {| agent.config := config;
                   agent.max_iterations := max_iterations;
                   agent.verbose := verbose;
                   agent.model := "gpt-4o" |}
     | Raise e => Raise e
     end,
     {| temp_credentials_path := temp_credentials_path p;
        api_calls := api_calls p;
        world := w |}).
Proof.
  intros Hkey Hbuilt. unfold agent.init, bind, lift, system, ret, config_get.
  rewrite Hkey, Hbuilt. by destruct built as [[]|e].
Qed.

Lemma load_config_ready environ config :
  agent_config.load_config environ = Some config → config_ready config.
Proof.
  intros Hload. unfold config_ready.
  split_and!;
    match goal with
    | |- is_Some (config !! ?var) =>
        destruct (load_config_complete environ config var Hload) as (value & _ & _ & ->);
        [ unfold agent_config.required_vars;
          repeat first [ apply list_elem_of_here | apply list_elem_of_further ]
        | by exists value ]
    end.
Qed.

(** ** The scenarios of the specification, run on scripted services *)

(** The model answers "Done." at once: the run returns it, with a
    transcript of three messages. *)
Example scenario_done :
  let outcome :=
    agent.run scripted.prompt (scripted.debug_agent 15)
      (scripted.start (scripted.healthy [scripted.says (Some "Done.")])) in
  fst outcome = Return "Done." ∧
  agent.messages (snd outcome) =
    [ role_content "system" scripted.prompt;
      role_content "user" (agent.get_user_prompt "checkout" "acme-prod");
      role_content "assistant" "Done." ].
Proof. by vm_compute. Qed.

(** Bound 2; the first answer asks for the unregistered tool "foo", the
    second is "Fixed.": five messages, the fourth the error payload. *)
Example scenario_unknown_tool :
  let first :=
    {| content := None; tool_calls := Some [scripted.call "call_1" "foo" "{}"] |} in
  let outcome :=
    agent.run scripted.prompt (scripted.debug_agent 2)
      (scripted.start
         (scripted.healthy
            [ Return {| choices := [first] |}; scripted.says (Some "Fixed.") ])) in
  fst outcome = Return "Fixed." ∧
  agent.messages (snd outcome) =
    [ role_content "system" scripted.prompt;
      role_content "user" (agent.get_user_prompt "checkout" "acme-prod");
      message_object first;
      tool_result "call_1" (error_payload "Unknown tool: foo");
      role_content "assistant" "Fixed." ].
Proof. by vm_compute. Qed.

(** Bound 1; the answer asks for a tool: the tool runs, its result is in the
    transcript, and the run reports the exhausted budget after one call. *)
Example scenario_budget :
  let first :=
    {| content := None;
       tool_calls := Some [scripted.call "call_1" "create_branch" "{}"] |} in
  let outcome :=
    agent.run scripted.prompt (scripted.debug_agent 1)
      (scripted.start
         (scripted.healthy
            [ Return {| choices := [first] |}; scripted.says (Some "Fixed.") ])) in
  fst outcome = Return "Agent reached maximum iterations without completing the task." ∧
  length (agent.model_calls (snd outcome)) = 1%nat ∧
  agent.messages (snd outcome) =
    [ role_content "system" scripted.prompt;
      role_content "user" (agent.get_user_prompt "checkout" "acme-prod");
      message_object first;
      tool_result "call_1"
        (error_payload "Tool 'create_branch' failed: 'branch_name'") ].
Proof. by vm_compute. Qed.

(** A payload as [json.dumps] writes it. *)
Example error_payload_foo :
  error_payload "Unknown tool: foo" =
  "{" +:+ dquote +:+ "error" +:+ dquote +:+ ": " +:+
  dquote +:+ "Unknown tool: foo" +:+ dquote +:+ "}".
Proof. reflexivity. Qed.

(** The filter of the last 24 hours of "checkout", at hour 1000. *)
Example filter_of_checkout :
  fst (last_hours_filter scripted.config (PStr "checkout") (PInt 24)
         (scripted.start (scripted.healthy []))) =
  Return
    ("resource.type=" +:+ dquote +:+ "cloud_run_revision" +:+ dquote +:+
     " resource.labels.service_name=" +:+ dquote +:+ "checkout" +:+ dquote +:+
     " logName=" +:+ dquote +:+
     "projects/acme-prod/logs/run.googleapis.com%2Frequests" +:+ dquote +:+
     " timestamp>=" +:+ dquote +:+ "976" +:+ dquote).
Proof. by vm_compute. Qed.

(** ** Concrete runs *)

Ltac not_in_list H :=
  cbn in H; repeat (apply elem_of_cons in H as [H|H]; [discriminate H|]);
  by apply elem_of_nil in H.

Ltac not_terminal := intros [H|H]; discriminate H.

(** The unregistered tool "foo" gets the unknown-tool payload. *)
Lemma dispatch_unknown_tool_witness :
  let p := scripted.start (scripted.healthy []) in
  ¬ registered "foo" ∧
  tools.dispatch "foo" (PDict [("path", PStr "src")]) scripted.config p =
    (Return (error_payload "Unknown tool: foo"), p).
Proof.
  intros p.
  assert (¬ registered "foo") as Hno by (unfold registered; intros Hin; not_in_list Hin).
  split; [exact Hno|].
  exact (proj1 (dispatch_unknown_tool scripted.config "foo" _ p Hno)).
Defined.

(** [list_repo_files] when GitHub rejects the token: the failure comes back
    as the payload of the tool. *)
Lemma dispatch_catches_handler_failure_witness :
  let p := scripted.start scripted.bad_credentials in
  let p' :=
    Build_process (scripted.platform scripted.bad_credentials) None
      [call_get_repo "ghp_test" "acme/shop"] [] in
  let handler : pyvalue → M (scripted.platform scripted.bad_credentials) string :=
    fun args =>
      (path <- lift (get args "path" (PStr "")) ;;
       github.list_repo_files scripted.config path)%py in
  registered "list_repo_files" ∧
  tools.handlers scripted.config !! "list_repo_files" = Some handler ∧
  handler (PDict []) p = (Raise (GithubException "401 Bad credentials"), p') ∧
  tools.dispatch "list_repo_files" (PDict []) scripted.config p =
    (Return (error_payload "Tool 'list_repo_files' failed: 401 Bad credentials"), p').
Proof.
  intros p p' handler.
  assert (registered "list_repo_files") as Hreg by (unfold registered; cbn; in_list).
  assert (tools.handlers scripted.config !! "list_repo_files" = Some handler) as Hhandler
    by (apply handlers_lookup_item; unfold tools.handler_items; in_list).
  assert (handler (PDict []) p = (Raise (GithubException "401 Bad credentials"), p'))
    as Hraise by (vm_compute; reflexivity).
  split_and!; [exact Hreg | exact Hhandler | exact Hraise |].
  exact (proj1 (dispatch_catches_handler_failure
                  scripted.config "list_repo_files" handler (PDict []) p _ p'
                  Hreg Hhandler Hraise)).
Defined.

(** [query_logs]: the limit defaults to 50, the filter is required. *)
Lemma dispatch_defaults_and_required_witness :
  let p := scripted.start (scripted.healthy []) in
  let schema :=
    {| schema_name := "query_logs";
       schema_properties := [("filter_str", "string"); ("limit", "integer")];
       schema_required := ["filter_str"] |} in
  schema ∈ tools.TOOL_SCHEMAS ∧
  tools.dispatch "query_logs" (PDict [("filter_str", PStr "severity>=ERROR")])
                 scripted.config p =
  tools.dispatch "query_logs"
                 (PDict [("filter_str", PStr "severity>=ERROR"); ("limit", PInt 50)])
                 scripted.config p ∧
  tools.dispatch "query_logs" (PDict [("limit", PInt 5)]) scripted.config p =
    (Return (error_payload "Tool 'query_logs' failed: 'filter_str'"), p).
Proof.
  intros p schema.
  assert (schema ∈ tools.TOOL_SCHEMAS) as Hin by (unfold tools.TOOL_SCHEMAS; in_list).
  destruct (dispatch_defaults_and_required (P := scripted.platform (scripted.healthy []))
              schema Hin) as (_ & Hdefault & Hrequired).
  split_and!; [exact Hin | |].
  - assert (optional schema "limit") as Hopt.
    { split; [cbn; in_list|]. intros Hreq. not_in_list Hreq. }
    destruct (Hdefault "limit" Hopt) as (d & Hd & Hsame).
    injection Hd as <-.
    exact (Hsame [("filter_str", PStr "severity>=ERROR")] scripted.config p eq_refl).
  - destruct (Hrequired [("limit", PInt 5)] scripted.config p) as (missing & Hm & _ & Hpayload).
    + exists "filter_str". split; [cbn; in_list | reflexivity].
    + cbn in Hm. apply list_elem_of_singleton in Hm. subst missing. exact Hpayload.
Defined.

(** A request for [list_repo_files] whose arguments are cut short still
    gets its tool message; one whose arguments are nested too deep stops the
    loop over the requests. *)
Lemma malformed_arguments_degrade_witness :
  let sc := scripted.nested [] in
  let tool_call := scripted.call "call_7" "list_repo_files" scripted.cut_text in
  let deep := scripted.call "call_8" "list_repo_files" scripted.deep_text in
  let decode := scripted.no_property_name in
  let s :=
    @agent.Build_state (scripted.platform sc)
      [role_content "system" scripted.prompt] [] (scripted.start sc) in
  json_loads (scripted.platform sc) (function_arguments tool_call) = Raise decode ∧
  is_JSONDecodeError decode = true ∧
  (∃ result p',
     tools.dispatch "list_repo_files" (PDict []) scripted.config (scripted.start sc) =
       (Return result, p') ∧
     agent.run_tool_call (scripted.debug_agent 3) tool_call s =
       (Return (),
        @agent.Build_state (scripted.platform sc)
          [role_content "system" scripted.prompt; tool_result "call_7" result] [] p')) ∧
  json_loads (scripted.platform sc) (function_arguments deep) = Raise scripted.too_deep ∧
  is_JSONDecodeError scripted.too_deep = false ∧
  agent.run_tool_call (scripted.debug_agent 3) deep s = (Raise scripted.too_deep, s).
Proof.
  intros sc tool_call deep decode s.
  assert (json_loads (scripted.platform sc) (function_arguments tool_call) = Raise decode)
    as Hparse by reflexivity.
  assert (json_loads (scripted.platform sc) (function_arguments deep)
          = Raise scripted.too_deep) as Hdeep by (vm_compute; reflexivity).
  split_and!; [exact Hparse | reflexivity | | exact Hdeep | reflexivity |].
  - destruct (proj1 (malformed_arguments_degrade (scripted.debug_agent 3) tool_call s
                       decode Hparse) eq_refl)
      as (result & p' & Hdispatch & _ & Hone & _).
    exists result, p'. split; [exact Hdispatch | exact Hone].
  - exact (proj1 (proj2 (malformed_arguments_degrade (scripted.debug_agent 3) deep s
                           scripted.too_deep Hdeep) eq_refl)).
Defined.

(** The arguments of the only request are nested too deep for [json.loads]:
    the text fails to parse, no handler runs, no tool message is appended
    and the run raises. *)
Lemma unparsed_arguments_abort :
  let tool_call := scripted.call "call_1" "list_repo_files" scripted.deep_text in
  let m := {| content := None; tool_calls := Some [tool_call] |} in
  let sc := scripted.nested [ Return {| choices := [m] |} ] in
  let outcome := agent.run scripted.prompt (scripted.debug_agent 3) (scripted.start sc) in
  ¬ returns (json_loads (scripted.platform sc) (function_arguments tool_call)) ∧
  fst outcome = Raise scripted.too_deep ∧
  api_calls (agent.proc (snd outcome)) = [] ∧
  agent.messages (snd outcome) =
    [ role_content "system" scripted.prompt;
      role_content "user" (agent.get_user_prompt "checkout" "acme-prod");
      message_object m ] ∧
  ¬ (∃ result, last (agent.messages (snd outcome)) = Some (tool_result "call_1" result)).
Proof.
  intros tool_call m sc outcome.
  assert (agent.messages (snd outcome) =
            [ role_content "system" scripted.prompt;
              role_content "user" (agent.get_user_prompt "checkout" "acme-prod");
              message_object m ]) as Hmessages by (vm_compute; reflexivity).
  split_and!.
  - vm_compute. intros [].
  - vm_compute. reflexivity.
  - vm_compute. reflexivity.
  - exact Hmessages.
  - intros (result & Hlast). rewrite Hmessages in Hlast. discriminate Hlast.
Qed.

(** A run of bound 2 that ends at its second iteration. *)
Lemma terminal_answer_completes_witness :
  let first :=
    {| content := None; tool_calls := Some [scripted.call "call_1" "foo" "{}"] |} in
  let m := {| content := Some "Fixed."; tool_calls := None |} in
  let self := scripted.debug_agent 2 in
  let p :=
    scripted.start
      (scripted.healthy [ Return {| choices := [first] |}; Return {| choices := [m] |} ]) in
  let c :=
    {| agent.snapshot :=
         [ role_content "system" scripted.prompt;
           role_content "user" (agent.get_user_prompt "checkout" "acme-prod");
           message_object first;
           tool_result "call_1" (error_payload "Unknown tool: foo") ];
       agent.response := Return {| choices := [m] |} |} in
  let outcome := agent.run_exit scripted.prompt self p in
  1 ≤ 2 ≤ agent.max_iterations self ∧
  agent.model_calls (snd outcome) !! Z.to_nat (2 - 1) = Some c ∧
  first_message c = Some m ∧
  terminal m ∧
  fst outcome = Return (agent.completed 2 "Fixed.") ∧
  fst (agent.run scripted.prompt self p) = Return "Fixed." ∧
  agent.messages (snd outcome) =
    agent.snapshot c ++ [role_content "assistant" "Fixed."] ∧
  length (agent.model_calls (snd outcome)) = 2%nat.
Proof.
  intros first m self p c outcome.
  assert (1 ≤ 2 ≤ agent.max_iterations self) as Hk by (cbn; lia).
  assert (agent.model_calls (snd outcome) !! Z.to_nat (2 - 1) = Some c) as Hcall
    by (vm_compute; reflexivity).
  assert (first_message c = Some m) as Hm by reflexivity.
  assert (terminal m) as Hterm by (left; reflexivity).
  destruct (terminal_answer_completes scripted.prompt self p (fst outcome) (snd outcome)
              2 c m Hk (surjective_pairing outcome) Hcall Hm Hterm)
    as (Hexit & _ & Hrun & _ & _ & Hmsgs & Hlen).
  exact (conj Hk (conj Hcall (conj Hm (conj Hterm
           (conj Hexit (conj Hrun (conj Hmsgs Hlen))))))).
Defined.

(** The model ends the run with an empty text: the run returns, and
    appends, the fixed summary, not the content of the message. *)
Lemma empty_answer_not_returned :
  let m := {| content := Some ""; tool_calls := None |} in
  let self := scripted.debug_agent 1 in
  let p := scripted.start (scripted.healthy [ Return {| choices := [m] |} ]) in
  let outcome := agent.run scripted.prompt self p in
  (∃ c, agent.model_calls (snd outcome) !! 0%nat = Some c ∧ first_message c = Some m) ∧
  terminal m ∧
  content m = Some "" ∧
  fst outcome = Return "Agent finished without a summary." ∧
  ¬ (∃ text, content m = Some text ∧ fst outcome = Return text) ∧
  last (agent.messages (snd outcome)) =
    Some (role_content "assistant" "Agent finished without a summary.").
Proof.
  intros m self p outcome. split_and!.
  - eexists. split; [vm_compute; reflexivity | reflexivity].
  - left. reflexivity.
  - reflexivity.
  - vm_compute. reflexivity.
  - intros (text & [= <-] & Hreturned). vm_compute in Hreturned. discriminate Hreturned.
  - vm_compute. reflexivity.
Qed.

(** Bound 1 with an answer that asks for a tool, and bound 0. *)
Lemma model_calls_within_bound_witness :
  let first :=
    {| content := None;
       tool_calls := Some [scripted.call "call_1" "create_branch" "{}"] |} in
  let p := scripted.start (scripted.healthy [ Return {| choices := [first] |} ]) in
  let outcome := agent.run_exit scripted.prompt (scripted.debug_agent 1) p in
  let idle := agent.run_exit scripted.prompt (scripted.debug_agent 0) p in
  0 ≤ agent.max_iterations (scripted.debug_agent 1) ∧
  config_ready scripted.config ∧
  (length (agent.model_calls (snd outcome)) ≤ 1)%nat ∧
  fst outcome = Return agent.max_iterations_reached ∧
  fst (agent.run scripted.prompt (scripted.debug_agent 1) p) =
    Return "Agent reached maximum iterations without completing the task." ∧
  tool_result "call_1" (error_payload "Tool 'create_branch' failed: 'branch_name'")
    ∈ agent.messages (snd outcome) ∧
  agent.model_calls (snd idle) = [] ∧
  fst idle = Return agent.max_iterations_reached.
Proof.
  intros first p outcome idle.
  assert (0 ≤ agent.max_iterations (scripted.debug_agent 1)) as Hbound by (cbn; lia).
  assert (0 ≤ agent.max_iterations (scripted.debug_agent 0)) as Hzero by (cbn; lia).
  assert (config_ready scripted.config) as Hready
    by (apply (load_config_ready scripted.environ); vm_compute; reflexivity).
  destruct (model_calls_within_bound scripted.prompt (scripted.debug_agent 1) p
              (fst outcome) (snd outcome) Hbound (surjective_pairing outcome))
    as (Hle & _ & Hfull).
  destruct (model_calls_within_bound scripted.prompt (scripted.debug_agent 0) p
              (fst idle) (snd idle) Hzero (surjective_pairing idle))
    as (_ & Hnone & _).
  destruct (Hnone Hready eq_refl) as (Hcalls & Hidle & _).
  assert (length (agent.model_calls (snd outcome)) =
          Z.to_nat (agent.max_iterations (scripted.debug_agent 1))) as Hlen
    by (vm_compute; reflexivity).
  assert (Forall tool_turn (agent.model_calls (snd outcome))) as Hturns.
  { let calls := eval vm_compute in (agent.model_calls (snd outcome)) in
    change (Forall tool_turn calls).
    constructor; [|constructor].
    exists first. split; [reflexivity | not_terminal]. }
  assert (∀ c m call,
            c ∈ agent.model_calls (snd outcome) → first_message c = Some m →
            call ∈ requests m →
            argument_error (P := scripted.platform (scripted.healthy [])) call = None)
    as Hfine.
  { assert (first_message <$> agent.model_calls (snd outcome) = [Some first])
      as Hfirst by (vm_compute; reflexivity).
    intros c m call Hc Hm Hcall.
    apply (list_elem_of_fmap_2 first_message) in Hc. rewrite Hfirst, Hm in Hc.
    apply list_elem_of_singleton in Hc as [= ->]. cbn in Hcall.
    apply list_elem_of_singleton in Hcall as ->. reflexivity. }
  destruct (proj1 Hfull Hready Hlen Hturns Hfine) as (Hexit & Hrun & _).
  split_and!; [exact Hbound | exact Hready | exact Hle | exact Hexit | exact Hrun
              | | exact Hcalls | exact Hidle].
  vm_compute. in_list.
Defined.

(** Bound 1 and an answer that asks for a tool with arguments nested too
    deep for [json.loads]: the bound is reached, no answer was terminal, and
    the run raises where the budget-exhausted text was due. *)
Lemma bound_reached_run_raises :
  let tool_call := scripted.call "call_1" "list_repo_files" scripted.deep_text in
  let m := {| content := None; tool_calls := Some [tool_call] |} in
  let p := scripted.start (scripted.nested [ Return {| choices := [m] |} ]) in
  let outcome := agent.run_exit scripted.prompt (scripted.debug_agent 1) p in
  length (agent.model_calls (snd outcome)) =
    Z.to_nat (agent.max_iterations (scripted.debug_agent 1)) ∧
  Forall tool_turn (agent.model_calls (snd outcome)) ∧
  fst outcome = Raise scripted.too_deep ∧
  fst outcome ≠ Return agent.max_iterations_reached ∧
  fst (agent.run scripted.prompt (scripted.debug_agent 1) p) ≠
    Return "Agent reached maximum iterations without completing the task.".
Proof.
  intros tool_call m p outcome. split_and!.
  - vm_compute. reflexivity.
  - let calls := eval vm_compute in (agent.model_calls (snd outcome)) in
    change (Forall tool_turn calls).
    constructor; [|constructor].
    exists m. split; [reflexivity | not_terminal].
  - vm_compute. reflexivity.
  - vm_compute. discriminate.
  - vm_compute. discriminate.
Qed.

(** An iteration whose answer asks for two tools. *)
Lemma tool_iteration_transcript_witness :
  let calls :=
    [ scripted.call "call_1" "list_repo_files" "{}";
      scripted.call "call_2" "foo" "{}" ] in
  let m := {| content := None; tool_calls := Some calls |} in
  let completion := {| choices := [m] |} in
  let sc := scripted.healthy [Return completion] in
  let self := scripted.debug_agent 5 in
  let s :=
    @agent.Build_state (scripted.platform sc)
      [ role_content "system" scripted.prompt; role_content "user" "Investigate." ]
      [] (scripted.start sc) in
  agent.create self s = (Return completion, snd (agent.create self s)) ∧
  choices completion = m :: [] ∧
  tool_calls m = Some calls ∧
  (1 ≤ length calls)%nat ∧
  (∀ call, call ∈ calls → argument_error (P := scripted.platform sc) call = None) ∧
  ∃ s3,
    agent.loop self [1] s = (Return agent.max_iterations_reached, s3) ∧
    agent.loop self [1; 2] s = agent.loop self [2] s3 ∧
    length (agent.messages s3) = 5%nat ∧
    agent.messages s3 !! 2%nat = Some (message_object m) ∧
    (∃ text, agent.messages s3 !! 3%nat = Some (tool_result "call_1" text)) ∧
    (∃ text, agent.messages s3 !! 4%nat = Some (tool_result "call_2" text)).
Proof.
  intros calls m completion sc self s.
  assert (agent.create self s = (Return completion, snd (agent.create self s)))
    as Hcreate by (vm_compute; reflexivity).
  assert (choices completion = m :: []) as Hchoices by reflexivity.
  assert (tool_calls m = Some calls) as Hcalls by reflexivity.
  assert (1 ≤ length calls)%nat as Hn by (cbn; lia).
  assert (∀ call, call ∈ calls → argument_error (P := scripted.platform sc) call = None)
    as Hfine.
  { intros call Hin.
    repeat (apply elem_of_cons in Hin as [->|Hin]); [reflexivity.. |].
    by apply elem_of_nil in Hin. }
  split_and!; [exact Hcreate | exact Hchoices | exact Hcalls | exact Hn | exact Hfine |].
  destruct (tool_iteration_transcript self 1 [2] s completion _ m [] calls
              Hcreate Hchoices Hcalls Hn)
    as (results & o & s3 & _ & Hone & Hstep & _ & _ & _ & _ & Hmessage & Htools
        & Hend & Hwhole).
  destruct (Hwhole Hfine) as [-> Hlen].
  exists s3. split_and!.
  - exact Hone.
  - exact Hstep.
  - exact Hlen.
  - exact Hmessage.
  - apply (Htools 0%nat (scripted.call "call_1" "list_repo_files" "{}"));
      [rewrite Hend; cbn; lia | reflexivity].
  - apply (Htools 1%nat (scripted.call "call_2" "foo" "{}"));
      [rewrite Hend; cbn; lia | reflexivity].
Defined.

(** An iteration whose answer asks for one tool, with arguments nested too
    deep for [json.loads]: the transcript grows by the assistant message
    alone, one message where two were due. *)
Lemma stopped_iteration_grows_less :
  let tool_call := scripted.call "call_1" "list_repo_files" scripted.deep_text in
  let m := {| content := None; tool_calls := Some [tool_call] |} in
  let completion := {| choices := [m] |} in
  let sc := scripted.nested [Return completion] in
  let self := scripted.debug_agent 5 in
  let s :=
    @agent.Build_state (scripted.platform sc)
      [ role_content "system" scripted.prompt; role_content "user" "Investigate." ]
      [] (scripted.start sc) in
  let after := snd (agent.loop self [1; 2] s) in
  fst (agent.create self s) = Return completion ∧
  tool_calls m = Some [tool_call] ∧
  fst (agent.loop self [1; 2] s) = Raise scripted.too_deep ∧
  agent.messages after = agent.messages s ++ [message_object m] ∧
  length (agent.messages after) ≠ (length (agent.messages s) + 1 + 1)%nat.
Proof.
  intros tool_call m completion sc self s after. split_and!.
  - vm_compute. reflexivity.
  - reflexivity.
  - vm_compute. reflexivity.
  - vm_compute. reflexivity.
  - vm_compute. lia.
Qed.

(** A run the model ends without any content. *)
Lemma empty_answer_gets_fixed_summary_witness :
  let m := {| content := None; tool_calls := Some [] |} in
  let self := scripted.debug_agent 3 in
  let p := scripted.start (scripted.healthy [ Return {| choices := [m] |} ]) in
  let outcome := agent.run_exit scripted.prompt self p in
  let c :=
    {| agent.snapshot :=
         [ role_content "system" scripted.prompt;
           role_content "user" (agent.get_user_prompt "checkout" "acme-prod") ];
       agent.response := Return {| choices := [m] |} |} in
  agent.model_calls (snd outcome) !! 0%nat = Some c ∧
  first_message c = Some m ∧
  terminal m ∧
  (content m = None ∨ content m = Some "") ∧
  fst (agent.run scripted.prompt self p) = Return "Agent finished without a summary." ∧
  last (agent.messages (snd outcome)) =
    Some (role_content "assistant" "Agent finished without a summary.").
Proof.
  intros m self p outcome c.
  assert (agent.model_calls (snd outcome) !! 0%nat = Some c) as Hcall
    by (vm_compute; reflexivity).
  assert (first_message c = Some m) as Hm by reflexivity.
  assert (terminal m) as Hterm by (right; reflexivity).
  assert (content m = None ∨ content m = Some "") as Hempty by (left; reflexivity).
  destruct (proj1 (empty_answer_gets_fixed_summary scripted.prompt self p)
              (fst outcome) (snd outcome) 0%nat c m
              (surjective_pairing outcome) Hcall Hm Hterm Hempty)
    as (Hrun & Hlast).
  exact (conj Hcall (conj Hm (conj Hterm (conj Hempty (conj Hrun Hlast))))).
Defined.

(** The last 24 hours of "checkout". *)
Lemma list_log_entries_is_query_logs_witness :
  let p := scripted.start (scripted.healthy []) in
  gcp_logging.list_log_entries scripted.config (PStr "checkout") (PInt 24) (PInt 50) p =
  list_log_entries_composed scripted.config (PStr "checkout") (PInt 24) (PInt 50) p ∧
  call_list_entries
    (PStr (recent_requests_filter "checkout" "acme-prod" "976")) (PInt 50)
  ∈ api_calls (snd (gcp_logging.list_log_entries
                      scripted.config (PStr "checkout") (PInt 24) (PInt 50) p)).
Proof.
  intros p. split.
  - exact (proj1 (list_log_entries_is_query_logs
                    scripted.config (PStr "checkout") (PInt 24) (PInt 50) p)).
  - vm_compute. in_list.
Defined.

(** A commit to a file that is there, and to one that is not. *)
Lemma commit_file_change_outcomes_witness :
  let path := PStr "src/main.py" in
  let content := PStr "print(2)" in
  let message := PStr "Fix the total" in
  let branch := PStr "fix/total" in
  let p := scripted.start (scripted.healthy []) in
  let q := scripted.start scripted.new_file in
  let updated := github.commit_file_change scripted.config path content message branch p in
  let created := github.commit_file_change scripted.config path content message branch q in
  fst updated = Return (commit_payload "updated" "c0ffee") ∧
  api_calls (snd updated) =
    [ call_get_repo "ghp_test" "acme/shop";
      call_get_contents path (Some branch);
      call_update_file path message content "9f8e7d" branch ] ∧
  fst created = Return (commit_payload "created" "c0ffee") ∧
  api_calls (snd created) =
    [ call_get_repo "ghp_test" "acme/shop";
      call_get_contents path (Some branch);
      call_create_file path message content branch ].
Proof.
  intros path content message branch p q updated created.
  destruct (proj2 (commit_file_change_outcomes
                     scripted.config path content message branch p
                     (fst updated) (snd updated) (surjective_pairing updated))
              "ghp_test" "acme/shop" () [] (Return (one_file scripted.file)) []
              eq_refl eq_refl eq_refl eq_refl)
    as (Hfile & _).
  destruct (Hfile scripted.file (Return "c0ffee") [] eq_refl eq_refl) as (_ & Hdone).
  destruct (Hdone "c0ffee" eq_refl) as (Hupdated & Hcalls & _).
  destruct (proj2 (commit_file_change_outcomes
                     scripted.config path content message branch q
                     (fst created) (snd created) (surjective_pairing created))
              "ghp_test" "acme/shop" () [] (Raise (GithubException "404 Not Found")) []
              eq_refl eq_refl eq_refl eq_refl)
    as (_ & Habsent & _).
  destruct (Habsent (GithubException "404 Not Found") (Return "c0ffee") []
              eq_refl eq_refl eq_refl) as (Hcreated & Hcalls' & _).
  exact (conj Hupdated (conj Hcalls (conj Hcreated Hcalls'))).
Defined.

(** When the repository cannot be opened, [commit_file_change] raises the
    error to its caller; it does not return an error payload. *)
Lemma commit_file_change_counterexample :
  let path := PStr "src/main.py" in
  let content := PStr "print(2)" in
  let message := PStr "Fix the total" in
  let branch := PStr "fix/total" in
  let q := scripted.start scripted.bad_credentials in
  let locked := github.commit_file_change scripted.config path content message branch q in
  fst locked = Raise (GithubException "401 Bad credentials") ∧
  ¬ returns (fst locked) ∧
  api_calls (snd locked) = [call_get_repo "ghp_test" "acme/shop"].
Proof.
  intros path content message branch q locked. split_and!.
  - vm_compute. reflexivity.
  - vm_compute. intros [].
  - vm_compute. reflexivity.
Qed.

(** The file is on the branch and the update is refused: the handler of the
    lookup runs all the same and a create is attempted; what comes back is
    the error of the create. *)
Example refused_update_falls_through :
  let path := PStr "src/main.py" in
  let content := PStr "print(2)" in
  let message := PStr "Fix the total" in
  let branch := PStr "fix/total" in
  let p := scripted.start scripted.refused_update in
  let refused := github.commit_file_change scripted.config path content message branch p in
  get_contents (scripted.platform scripted.refused_update) () path (Some branch) (world p)
    = (Return (one_file scripted.file), world p) ∧
  api_calls (snd refused) =
    [ call_get_repo "ghp_test" "acme/shop";
      call_get_contents path (Some branch);
      call_update_file path message content "9f8e7d" branch;
      call_create_file path message content branch ] ∧
  fst refused = Return (error_payload "422 sha was not supplied").
Proof. by vm_compute. Qed.

(** ** More on the configuration *)

Lemma collect_only environ acc vars key value :
  fst (foldl (agent_config.collect environ) acc vars) !! key = Some value →
  fst acc !! key = Some value ∨ (key ∈ vars ∧ environ !! key = Some value).
Proof.
  revert acc. induction vars as [|var vars IH]; intros acc Hkey; [by left|].
  cbn in Hkey. apply IH in Hkey as [Hkey | [Hin Henv]].
  - revert Hkey. unfold agent_config.collect.
    destruct (environ !! var) as [found|] eqn:Hvar;
      [destruct (negb (String.eqb found ""))|]; cbn; try by left.
    destruct (decide (var = key)) as [->|Hne].
    + rewrite lookup_insert_eq. intros [= <-]. right. split; [left|done].
    + rewrite lookup_insert_ne by done. by left.
  - right. split; [by right | done].
Qed.

Lemma collect_succeeds environ acc vars :
  snd acc = [] →
  (∀ var, var ∈ vars → ∃ value, value ≠ "" ∧ environ !! var = Some value) →
  snd (foldl (agent_config.collect environ) acc vars) = [].
Proof.
  revert acc. induction vars as [|var vars IH]; intros acc Hnone Hall; [done|].
  cbn. apply IH.
  - destruct (Hall var) as (value & Hne & Hvar); [left|].
    unfold agent_config.collect. rewrite Hvar.
    by destruct (String.eqb_spec value "").
  - intros other Hin. apply Hall. by right.
Qed.

(** [load_config] returns a configuration exactly when every required
    variable is set to a non-empty value; otherwise it exits. *)
Theorem load_config_succeeds_iff environ :
  is_Some (agent_config.load_config environ) ↔
  ∀ var, var ∈ agent_config.required_vars →
         ∃ value, value ≠ "" ∧ environ !! var = Some value.
Proof.
  split.
  - intros [config Hload] var Hin.
    destruct (load_config_complete environ config var Hload Hin)
      as (value & Hne & Hvar & _).
    by exists value.
  - intros Hall. unfold agent_config.load_config.
    by rewrite (collect_succeeds environ (∅, []) agent_config.required_vars eq_refl Hall).
Qed.

(** The configuration [load_config] returns holds the six required
    variables with their values of the environment, and nothing else: no
    other variable of the environment gets into it. *)
Theorem load_config_exact environ config :
  agent_config.load_config environ = Some config →
  ∀ key,
    config !! key =
    if decide (key ∈ agent_config.required_vars) then environ !! key else None.
Proof.
  intros Hload key.
  destruct (decide (key ∈ agent_config.required_vars)) as [Hin|Hout].
  - destruct (load_config_complete environ config key Hload Hin)
      as (value & _ & -> & ->). done.
  - revert Hload. unfold agent_config.load_config.
    destruct (snd (foldl (agent_config.collect environ) (∅, [])
                         agent_config.required_vars)); [|done].
    intros [= <-].
    destruct (fst (foldl (agent_config.collect environ) (∅, [])
                         agent_config.required_vars) !! key) as [value|] eqn:Hkey;
      [|done].
    apply collect_only in Hkey as [Hkey | [Hin _]]; [|done].
    cbn in Hkey. by rewrite lookup_empty in Hkey.
Qed.

(** ** More on the driver loop *)

Section driver_invariants.
Context {P : Platform}.
Variable SYSTEM_PROMPT : string.
Implicit Types (self : agent.DebugAgent) (s : agent.state (P := P)).

Lemma awaited_app pending (a b : list Message) :
  awaited pending (a ++ b) = awaited pending a ≫= λ left, awaited left b.
Proof.
  revert pending. induction a as [|[role text|id text|m] a IH]; intros pending; cbn.
  - done.
  - destruct pending; [apply IH | done].
  - destruct pending as [|next later]; [done|].
    destruct (String.eqb next id); [apply IH | done].
  - destruct pending; [apply IH | done].
Qed.

Lemma awaited_tool_messages calls (results : list string) :
  (length results ≤ length calls)%nat →
  awaited (map call_id calls) (tool_messages calls results)
  = Some (drop (length results) (map call_id calls)).
Proof.
  revert results. induction calls as [|call calls IH]; intros [|result results] Hlen.
  - done.
  - cbn in Hlen. lia.
  - done.
  - cbn. rewrite String.eqb_refl. apply IH. cbn in Hlen. lia.
Qed.

(** After a message that asks for tools and the tool messages of its first
    requests, the requests still awaited are the others. *)
Lemma awaited_turn (transcript : list Message) m (results : list string) :
  answered transcript →
  (length results ≤ length (requests m))%nat →
  awaited [] (transcript ++ message_object m :: tool_messages (requests m) results)
  = Some (drop (length results) (map call_id (requests m))).
Proof.
  unfold answered. intros Hdone Hlen. rewrite awaited_app, Hdone. cbn.
  by apply awaited_tool_messages.
Qed.

Lemma answered_turn (transcript : list Message) m (results : list string) :
  answered transcript →
  length results = length (requests m) →
  answered (transcript ++ message_object m :: tool_messages (requests m) results).
Proof.
  intros Hdone Hlen. unfold answered. rewrite awaited_turn by (done || lia).
  f_equal. apply drop_ge. rewrite length_map. lia.
Qed.

Lemma answered_text (transcript : list Message) role text :
  answered transcript → answered (transcript ++ [role_content role text]).
Proof. unfold answered. intros Hdone. by rewrite awaited_app, Hdone. Qed.

(** The loop submits only answered transcripts, and a loop that returns
    leaves the transcript answered. *)
Lemma loop_answered self iterations s r s' :
  agent.loop self iterations s = (r, s') →
  answered (agent.messages s) →
  (returns r → answered (agent.messages s')) ∧
  ∀ c, c ∈ agent.model_calls s' →
       c ∈ agent.model_calls s ∨ answered (agent.snapshot c).
Proof.
  revert s r s'. induction iterations as [|iteration rest IH]; intros s r s' Hloop Hdone.
  { cbn in Hloop. injection Hloop as <- <-. split; [done | by left]. }
  destruct (agent.create self s) as [r0 s1] eqn:Hcreate.
  destruct (create_spec self s r0 s1 Hcreate) as [Hmsgs1 Hcalls1].
  assert (∀ c, c ∈ agent.model_calls s1 →
               c ∈ agent.model_calls s ∨ answered (agent.snapshot c)) as Hsent.
  { intros c. rewrite Hcalls1. intros [Hold | ->%list_elem_of_singleton]%elem_of_app;
      [by left | by right]. }
  destruct r0 as [completion|e].
  2:{ cbn [agent.loop] in Hloop. rewrite Hcreate in Hloop. injection Hloop as <- <-.
      by rewrite Hmsgs1. }
  destruct (choices completion) as [|m others] eqn:Hchoices.
  { cbn [agent.loop] in Hloop. rewrite Hcreate, Hchoices in Hloop.
    injection Hloop as <- <-. by rewrite Hmsgs1. }
  destruct (terminal_or_not m) as [Hterm|Hno].
  - rewrite (loop_terminal self iteration rest s completion s1 m others
               Hcreate Hchoices Hterm) in Hloop.
    injection Hloop as <- <-. cbn [agent.append agent.messages agent.model_calls].
    split; [|done]. intros _. rewrite Hmsgs1. by apply answered_text.
  - destruct (loop_tools self iteration rest s completion s1 m others
                Hcreate Hchoices Hno)
      as (results & o & s3 & _ & Hstep & Hlen & Hmsgs3 & Hcalls3 & _ & Hend).
    rewrite Hstep in Hloop. destruct o as [[]|e].
    2:{ injection Hloop as <- <-. split; [intros []|]. by rewrite Hcalls3. }
    destruct (IH s3 r s' Hloop) as [Hfinal Hlater].
    { rewrite Hmsgs3. by apply answered_turn. }
    split; [done|]. intros c Hc. destruct (Hlater c Hc) as [Hold | Hnew]; [|by right].
    apply Hsent. by rewrite <- Hcalls3.
Qed.

(** What [run] does before the loop: it stops at the first key the
    configuration lacks, having called nothing, or it enters the loop with
    the two prompts. *)
Lemma run_exit_start self p :
  (∃ key s0,
     agent.run_exit SYSTEM_PROMPT self p = (Raise (KeyError key), s0) ∧
     key ∈ ["GCP_FUNCTION_NAME"; "GCP_PROJECT_ID"; "GITHUB_REPO"] ∧
     agent.config self !! key = None ∧
     agent.model_calls s0 = [] ∧
     agent.proc s0 = p ∧
     answered (agent.messages s0)) ∨
  (∃ function_name project_id,
     agent.config self !! "GCP_FUNCTION_NAME" = Some function_name ∧
     agent.config self !! "GCP_PROJECT_ID" = Some project_id ∧
     is_Some (agent.config self !! "GITHUB_REPO") ∧
     agent.run_exit SYSTEM_PROMPT self p =
       agent.loop self (agent.range 1 (agent.max_iterations self + 1))
         (@agent.Build_state P
            [ role_content "system" SYSTEM_PROMPT;
              role_content "user" (agent.get_user_prompt function_name project_id) ]
            [] p)).
Proof.
  unfold agent.run_exit, config_get.
  destruct (agent.config self !! "GCP_FUNCTION_NAME") as [function_name|] eqn:Hf.
  2:{ left. eexists "GCP_FUNCTION_NAME", _. split_and!; try done. in_list. }
  destruct (agent.config self !! "GCP_PROJECT_ID") as [project_id|] eqn:Hp.
  2:{ left. eexists "GCP_PROJECT_ID", _. split_and!; try done. in_list. }
  destruct (agent.config self !! "GITHUB_REPO") as [repo|] eqn:Hr.
  2:{ left. eexists "GITHUB_REPO", _. split_and!; try done. in_list. }
  right. exists function_name, project_id. split_and!; eauto.
Qed.

(** When the loop raises, the exception is that of the last call to the
    model, or the [IndexError] of an answer without choices, and the
    transcript is the one submitted on that call; or it is the argument
    error that cut the tool calls of the last answer short. *)
Lemma loop_raise_origin self iterations s e s' :
  agent.loop self iterations s = (Raise e, s') →
  ∃ c, last (agent.model_calls s') = Some c ∧
       ((agent.snapshot c = agent.messages s' ∧
         (agent.response c = Raise e ∨
          ∃ completion,
            agent.response c = Return completion ∧ choices completion = [] ∧
            e = IndexError "list index out of range")) ∨
        cut_short (P := P) c e (agent.messages s')).
Proof.
  revert s s'. induction iterations as [|iteration rest IH]; intros s s' Hloop; [done|].
  destruct (agent.create self s) as [r0 s1] eqn:Hcreate.
  destruct (create_spec self s r0 s1 Hcreate) as [Hmsgs1 Hcalls1].
  destruct r0 as [completion|e0].
  2:{ cbn [agent.loop] in Hloop. rewrite Hcreate in Hloop. injection Hloop as <- <-.
      eexists. rewrite Hcalls1, last_snoc, Hmsgs1. split; [done|].
      left. split; [done | by left]. }
  destruct (choices completion) as [|m others] eqn:Hchoices.
  { cbn [agent.loop] in Hloop. rewrite Hcreate, Hchoices in Hloop.
    injection Hloop as <- <-.
    eexists. rewrite Hcalls1, last_snoc, Hmsgs1. split; [done|].
    left. split; [done|]. right. by exists completion. }
  destruct (terminal_or_not m) as [Hterm|Hno].
  - by rewrite (loop_terminal self iteration rest s completion s1 m others
                  Hcreate Hchoices Hterm) in Hloop.
  - destruct (loop_tools self iteration rest s completion s1 m others
                Hcreate Hchoices Hno)
      as (results & o & s3 & _ & Hstep & _ & Hmsgs3 & Hcalls3 & Hok & Hend).
    rewrite Hstep in Hloop. destruct o as [[]|e0]; [by apply (IH s3)|].
    injection Hloop as <- <-. destruct Hend as (call & Hcall & Hstop).
    eexists. rewrite Hcalls3, Hcalls1, last_snoc. split; [done|]. right.
    exists m, results, call. split_and!; try done.
    by apply first_message_created with others.
Qed.

(** Every transcript a run submits to the model is answered: each message
    of the model that asks for tools is followed at once by one tool message
    per request, with the ids of the requests in their order.  So is the
    transcript a run ends with when it returns.  When it raises, the final
    transcript is answered too, unless an argument error cut the tool calls
    of the last answer short: then the requests from the stopped one on are
    the ones left unanswered, and the error is the one raised. *)
Theorem transcripts_answered self p r s' :
  agent.run_exit SYSTEM_PROMPT self p = (r, s') →
  (∀ c, c ∈ agent.model_calls s' → answered (agent.snapshot c)) ∧
  (returns r → answered (agent.messages s')) ∧
  (∀ e, r = Raise e →
     answered (agent.messages s') ∨
     ∃ c m results call,
       last (agent.model_calls s') = Some c ∧
       first_message c = Some m ∧
       requests m !! length results = Some call ∧
       argument_error (P := P) call = Some e ∧
       agent.messages s' =
         agent.snapshot c ++ message_object m :: tool_messages (requests m) results ∧
       awaited [] (agent.messages s') =
         Some (drop (length results) (map call_id (requests m))) ∧
       ¬ answered (agent.messages s')).
Proof.
  intros Hrun.
  destruct (run_exit_start self p)
    as [(key & s0 & Hraise & _ & _ & Hnone & _ & Hdone)
       |(fn & pid & _ & _ & _ & Hloop)].
  { rewrite Hraise in Hrun. injection Hrun as <- <-. split_and!; [|done|by left].
    intros c. rewrite Hnone. by intros ?%elem_of_nil. }
  rewrite Hloop in Hrun.
  destruct (loop_answered self _ _ r s' Hrun) as [Hfinal Hsent]; [done|].
  assert (∀ c, c ∈ agent.model_calls s' → answered (agent.snapshot c)) as Hall.
  { intros c Hc. destruct (Hsent c Hc) as [Hold|Hnew]; [|done].
    by apply elem_of_nil in Hold. }
  split_and!; [done | done |]. intros e ->.
  destruct (loop_raise_origin self _ _ e s' Hrun) as (c & Hlast & [[Hsame _]|Hcut]).
  { left. rewrite <- Hsame. apply Hall. rewrite last_Some in Hlast.
    destruct Hlast as [earlier ->]. set_solver. }
  right. destruct Hcut as (m & results & call & Hm & Hno & Hcall & Hstop & _ & Hmsgs).
  assert (awaited [] (agent.messages s') =
            Some (drop (length results) (map call_id (requests m)))) as Hpending.
  { rewrite Hmsgs. apply awaited_turn.
    - apply Hall. rewrite last_Some in Hlast. destruct Hlast as [earlier ->]. set_solver.
    - apply lookup_lt_Some in Hcall. lia. }
  exists c, m, results, call. split_and!; try done.
  unfold answered. rewrite Hpending. intros [= Hnone].
  apply (f_equal length) in Hnone. rewrite length_drop, length_map in Hnone.
  apply lookup_lt_Some in Hcall. cbn in Hnone. lia.
Qed.

(** A run raises only for a key the configuration lacks, before anything is
    called; or for what the last call to the model did: the exception the
    client raised, or an answer without choices; or for an argument error
    that stops a tool call of the last answer: an error of [json.loads] that
    is no decode error, or the error of encoding the arguments for the log.
    No failure inside [dispatch] ever makes a run raise. *)
Theorem run_raises_only self p e s' :
  agent.run SYSTEM_PROMPT self p = (Raise e, s') →
  (∃ key,
     e = KeyError key ∧
     key ∈ ["GCP_FUNCTION_NAME"; "GCP_PROJECT_ID"; "GITHUB_REPO"] ∧
     agent.config self !! key = None ∧
     agent.model_calls s' = [] ∧
     agent.proc s' = p) ∨
  (∃ c,
     last (agent.model_calls s') = Some c ∧
     agent.snapshot c = agent.messages s' ∧
     (agent.response c = Raise e ∨
      ∃ completion,
        agent.response c = Return completion ∧ choices completion = [] ∧
        e = IndexError "list index out of range")) ∨
  (∃ c m results call,
     last (agent.model_calls s') = Some c ∧
     first_message c = Some m ∧
     requests m !! length results = Some call ∧
     argument_error (P := P) call = Some e ∧
     Forall (λ earlier, argument_error (P := P) earlier = None)
            (take (length results) (requests m)) ∧
     agent.messages s' =
       agent.snapshot c ++ message_object m :: tool_messages (requests m) results).
Proof.
  unfold agent.run.
  destruct (agent.run_exit SYSTEM_PROMPT self p) as [[exit|e0] s0] eqn:Hrun; [done|].
  intros [= <- <-].
  destruct (run_exit_start self p)
    as [(key & s1 & Hraise & Hkey & Hnone & Hcalls & Hproc & _)
       |(fn & pid & _ & _ & _ & Hloop)].
  - rewrite Hraise in Hrun. injection Hrun as <- <-. left. by exists key.
  - rewrite Hloop in Hrun. right.
    destruct (loop_raise_origin self _ _ _ _ Hrun) as (c & Hlast & [[Hsame Hwhy]|Hcut]).
    + left. by exists c.
    + right. destruct Hcut as (m & results & call & Hm & _ & Hcall & Hstop & Hok & Hmsgs).
      by exists c, m, results, call.
Qed.

(** With a bound of zero or less the loop has no iteration: the run calls
    neither the model nor a tool and returns the budget-exhausted text over a
    transcript of the two prompts. *)
Theorem nonpositive_bound self p function_name project_id :
  agent.max_iterations self ≤ 0 →
  agent.config self !! "GCP_FUNCTION_NAME" = Some function_name →
  agent.config self !! "GCP_PROJECT_ID" = Some project_id →
  is_Some (agent.config self !! "GITHUB_REPO") →
  agent.run SYSTEM_PROMPT self p =
    (Return "Agent reached maximum iterations without completing the task.",
     @agent.Build_state P
       [ role_content "system" SYSTEM_PROMPT;
         role_content "user" (agent.get_user_prompt function_name project_id) ]
       [] p).
Proof.
  intros Hbound Hf Hp [repo Hr].
  unfold agent.run, agent.run_exit, config_get. rewrite Hf, Hp, Hr.
  unfold agent.range, seqZ.
  replace (Z.to_nat (agent.max_iterations self + 1 - 1)) with 0%nat by lia.
  reflexivity.
Qed.

End driver_invariants.

Section driver_growth.
Context {P : Platform}.
Variable SYSTEM_PROMPT : string.
Implicit Types (self : agent.DebugAgent) (s : agent.state (P := P)).

(** Of two calls the loop makes to the model, the later one submits the
    transcript of the earlier one and more. *)
Lemma loop_chain self iterations s r s' (new : list agent.model_call) :
  agent.loop self iterations s = (r, s') →
  agent.model_calls s' = agent.model_calls s ++ new →
  ∀ (i j : nat) ci cj,
    (i < j)%nat → new !! i = Some ci → new !! j = Some cj →
    agent.snapshot ci `prefix_of` agent.snapshot cj ∧
    (length (agent.snapshot ci) < length (agent.snapshot cj))%nat.
Proof.
  revert s r s' new.
  induction iterations as [|iteration rest IH]; intros s r s' new Hloop Hnew.
  { cbn in Hloop. injection Hloop as <- <-.
    rewrite <- (app_nil_r (agent.model_calls s)) in Hnew at 1.
    apply app_inv_head in Hnew as <-. by intros i j ci cj _ Hi. }
  destruct (agent.create self s) as [r0 s1] eqn:Hcreate.
  destruct (create_spec self s r0 s1 Hcreate) as [Hmsgs1 Hcalls1].
  assert (agent.model_calls s1 = agent.model_calls s ++ new →
          ∀ (i j : nat) ci cj,
            (i < j)%nat → new !! i = Some ci → new !! j = Some cj →
            agent.snapshot ci `prefix_of` agent.snapshot cj ∧
            (length (agent.snapshot ci) < length (agent.snapshot cj))%nat) as Hone.
  { rewrite Hcalls1. intros <-%app_inv_head i j ci cj Hlt Hi Hj.
    apply lookup_lt_Some in Hj. cbn in Hj. lia. }
  destruct r0 as [completion|e].
  2:{ cbn [agent.loop] in Hloop. rewrite Hcreate in Hloop. injection Hloop as <- <-.
      by apply Hone. }
  destruct (choices completion) as [|m others] eqn:Hchoices.
  { cbn [agent.loop] in Hloop. rewrite Hcreate, Hchoices in Hloop.
    injection Hloop as <- <-. by apply Hone. }
  destruct (terminal_or_not m) as [Hterm|Hno].
  - rewrite (loop_terminal self iteration rest s completion s1 m others
               Hcreate Hchoices Hterm) in Hloop.
    injection Hloop as <- <-. by apply Hone.
  - destruct (loop_tools self iteration rest s completion s1 m others
                Hcreate Hchoices Hno)
      as (results & o & s3 & _ & Hstep & Hlen & Hmsgs3 & Hcalls3 & _).
    rewrite Hstep in Hloop. destruct o as [[]|e].
    2:{ injection Hloop as <- <-. apply Hone. by rewrite <- Hcalls3. }
    destruct (loop_trace self rest s3 r s' Hloop) as (later & Hlater & _ & _ & Hsnaps & _).
    rewrite Hlater, Hcalls3, Hcalls1, <- app_assoc in Hnew.
    apply app_inv_head in Hnew as <-.
    intros i j ci cj Hlt Hi Hj. destruct j as [|j]; [lia|]. cbn in Hj.
    destruct i as [|i].
    + cbn in Hi. injection Hi as <-. cbn.
      destruct (Hsnaps cj) as [Hlow _]; [by eapply list_elem_of_lookup_2|].
      rewrite Hmsgs3 in Hlow. split.
      * etrans; [|exact Hlow]. by apply prefix_app_r.
      * apply prefix_length in Hlow. rewrite length_app in Hlow. cbn in Hlow. lia.
    + cbn in Hi. apply (IH s3 r s' later Hloop Hlater i j); [lia | done | done].
Qed.

(** The transcript only grows during a run: every transcript submitted to
    the model begins with the two prompts, is a strict extension of each
    transcript submitted before it, and is a prefix of the transcript the
    run ends with. *)
Theorem snapshots_grow self p r s' :
  agent.run_exit SYSTEM_PROMPT self p = (r, s') →
  (∀ c, c ∈ agent.model_calls s' →
     (∃ function_name project_id,
        agent.config self !! "GCP_FUNCTION_NAME" = Some function_name ∧
        agent.config self !! "GCP_PROJECT_ID" = Some project_id ∧
        [ role_content "system" SYSTEM_PROMPT;
          role_content "user" (agent.get_user_prompt function_name project_id) ]
        `prefix_of` agent.snapshot c) ∧
     agent.snapshot c `prefix_of` agent.messages s') ∧
  (∀ (i j : nat) ci cj,
     (i < j)%nat →
     agent.model_calls s' !! i = Some ci →
     agent.model_calls s' !! j = Some cj →
     agent.snapshot ci `prefix_of` agent.snapshot cj ∧
     (length (agent.snapshot ci) < length (agent.snapshot cj))%nat).
Proof.
  intros Hrun.
  destruct (run_exit_start SYSTEM_PROMPT self p)
    as [(key & s0 & Hraise & _ & _ & Hnone & _)
       |(fn & pid & Hfn & Hpid & _ & Hloop)].
  { rewrite Hraise in Hrun. injection Hrun as <- <-. rewrite Hnone. split.
    - by intros c ?%elem_of_nil.
    - by intros i j ci cj _ Hi. }
  rewrite Hloop in Hrun.
  destruct (loop_trace self _ _ r s' Hrun) as (new & Hnew & _ & _ & Hsnaps & _).
  split.
  - intros c Hc. rewrite Hnew in Hc. cbn in Hc.
    destruct (Hsnaps c Hc) as [Hlow Hhigh]. split; [|done]. by exists fn, pid.
  - by apply (loop_chain self _ _ r s' (agent.model_calls s') Hrun).
Qed.

(** The exit status of [main].  It is 1 when a required variable is
    missing, and then nothing was run.  Otherwise the API key is there; when
    the client cannot be built, the error of [DebugAgent(...)], which is
    outside the [try], ends the process with status 1 and nothing was run;
    when it is built, [run] is called on the agent, and the status is 0
    exactly when [run] returns, be it with the summary of the model or with
    the budget-exhausted text, and 1 exactly when [run] raises. *)
Theorem main_exit_status environ (max_iterations : Z) (verbose : bool) (p : process P) :
  (agent_config.load_config environ = None →
   agent_main.main SYSTEM_PROMPT environ max_iterations verbose p = (1, None)) ∧
  (∀ config,
     agent_config.load_config environ = Some config →
     ∃ api_key,
       config !! "OPENAI_API_KEY" = Some api_key ∧
       ∀ built w,
         openai_client P api_key (world p) = (built, w) →
         let self :=
           {| agent.config := config;
              agent.max_iterations := max_iterations;
              agent.verbose := verbose;
              agent.model := "gpt-4o" |} in
         let p1 :=
           {| temp_credentials_path := temp_credentials_path p;
              api_calls := api_calls p;
              world := w |} in
         match built with
         | Raise e =>
             agent.init config max_iterations verbose p = (Raise e, p1) ∧
             agent_main.main SYSTEM_PROMPT environ max_iterations verbose p = (1, None)
         | Return _ =>
             agent.init config max_iterations verbose p = (Return self, p1) ∧
             snd (agent_main.main SYSTEM_PROMPT environ max_iterations verbose p) =
               Some (snd (agent.run SYSTEM_PROMPT self p1)) ∧
             (fst (agent_main.main SYSTEM_PROMPT environ max_iterations verbose p) = 0 ↔
              returns (fst (agent.run SYSTEM_PROMPT self p1))) ∧
             (fst (agent_main.main SYSTEM_PROMPT environ max_iterations verbose p) = 1 ↔
              ¬ returns (fst (agent.run SYSTEM_PROMPT self p1))) ∧
             (∀ s, agent.run_exit SYSTEM_PROMPT self p1 =
                     (Return agent.max_iterations_reached, s) →
                   fst (agent_main.main SYSTEM_PROMPT environ max_iterations verbose p)
                   = 0)
         end).
Proof.
  unfold agent_main.main. split.
  - by intros ->.
  - intros config Hload. rewrite Hload.
    destruct (load_config_complete environ config "OPENAI_API_KEY" Hload)
      as (api_key & _ & _ & Hkey).
    { unfold agent_config.required_vars. in_list. }
    exists api_key. split; [done|]. intros built w Hbuilt.
    rewrite (init_unfold config max_iterations verbose p api_key built w Hkey Hbuilt).
    set (self := {| agent.config := config;
                    agent.max_iterations := max_iterations;
                    agent.verbose := verbose;
                    agent.model := "gpt-4o" |}).
    set (p1 := {| temp_credentials_path := temp_credentials_path p;
                  api_calls := api_calls p;
                  world := w |}).
    destruct built as [[]|e]; [|done]. split_and!; try done.
    + by destruct (agent.run SYSTEM_PROMPT self p1) as [[text|e] s].
    + destruct (agent.run SYSTEM_PROMPT self p1) as [[text|e] s]; cbn; [done|].
      split; [done | intros []].
    + destruct (agent.run SYSTEM_PROMPT self p1) as [[text|e] s]; cbn.
      * split; [done | by intros Hno; destruct Hno].
      * split; [by intros _ [] | done].
    + intros s Hexit. unfold agent.run. by rewrite Hexit.
Qed.

End driver_growth.

(** ** More on the dispatcher and the tools *)

Ltac resolve_handler :=
  unfold tools.dispatch;
  erewrite handlers_lookup_item by (unfold tools.handler_items; in_list).

Section tool_effects.
Context {P : Platform}.
Variable SYSTEM_PROMPT : string.
Implicit Types (config : gmap string string) (p : process P).

(** Arguments that parse but are no mapping (a list, a text, a number,
    [null]) stop every registered tool at its first parameter: [dispatch]
    returns the error payload of a [TypeError] or an [AttributeError], and
    nothing is called. *)
Theorem dispatch_non_mapping tool_name (arguments : pyvalue) config p :
  registered tool_name →
  (∀ items, arguments ≠ PDict items) →
  ∃ e,
    ((∃ msg, e = TypeError msg) ∨ (∃ msg, e = AttributeError msg)) ∧
    tools.dispatch tool_name arguments config p =
      (Return (error_payload (failure_text tool_name e)), p).
Proof.
  intros Hreg Hno. apply registered_cases in Hreg.
  assert (∃ what, (∀ key, subscript arguments key = Raise (TypeError what))) as [what Hsub].
  { destruct arguments as [| | | | |items]; try (eexists; intros key; reflexivity).
    by destruct (Hno items). }
  assert (∃ what, (∀ key d, get arguments key d = Raise (AttributeError what)))
    as [what' Hget].
  { destruct arguments as [| | | | |items]; try (eexists; intros key d; reflexivity).
    by destruct (Hno items). }
  destruct Hreg as [->|[->|[->|[->|[->|[->| ->]]]]]];
    first [ exists (TypeError what); split; [left; by eexists|];
            resolve_handler; unfold try_except, bind, lift; by rewrite Hsub
          | exists (AttributeError what'); split; [right; by eexists|];
            resolve_handler; unfold try_except, bind, lift; by rewrite Hget ].
Qed.

Lemma reads_only_pure {A : Type} (m : M P A) :
  (∀ p r p', m p = (r, p') → api_calls p' = api_calls p) → reads_only m.
Proof.
  intros Hsame p r p' Hrun. exists []. rewrite app_nil_r.
  split; [by eapply Hsame | constructor].
Qed.

Lemma reads_only_ret {A : Type} (a : A) : reads_only (ret (P := P) a).
Proof. apply reads_only_pure. by intros p r p' [= _ <-]. Qed.

Lemma reads_only_raise {A : Type} (e : exn) : reads_only (raise (P := P) (A := A) e).
Proof. apply reads_only_pure. by intros p r p' [= _ <-]. Qed.

Lemma reads_only_lift {A : Type} (o : outcome A) : reads_only (lift (P := P) o).
Proof. apply reads_only_pure. by intros p r p' [= _ <-]. Qed.

Lemma reads_only_system {A : Type} (op : World P → outcome A * World P) :
  reads_only (system op).
Proof.
  apply reads_only_pure. intros p r p'. unfold system.
  destruct (op (world p)). by intros [= _ <-].
Qed.

Lemma reads_only_service {A : Type} (c : api_call) (op : World P → outcome A * World P) :
  is_write c = false → reads_only (service c op).
Proof.
  intros Hread p r p'. unfold service. destruct (op (world p)). intros [= _ <-].
  exists [c]. split; [done | by constructor].
Qed.

Lemma reads_only_bind {A B : Type} (m : M P A) (k : A → M P B) :
  reads_only m → (∀ a, reads_only (k a)) → reads_only (bind m k).
Proof.
  intros Hm Hk p r p'. unfold bind.
  destruct (m p) as [[a|e] p1] eqn:Hfirst.
  - intros Hrest. destruct (Hm p _ p1 Hfirst) as (new1 & Heq1 & Hall1).
    destruct (Hk a p1 r p' Hrest) as (new2 & Heq2 & Hall2).
    exists (new1 ++ new2). rewrite Heq2, Heq1, <- app_assoc.
    split; [done | by apply Forall_app].
  - intros [= <- <-]. by eapply Hm.
Qed.

Lemma reads_only_try {A : Type}
    (body : M P A) (catches : exn → bool) (handler : exn → M P A) :
  reads_only body → (∀ e, reads_only (handler e)) →
  reads_only (try_except body catches handler).
Proof.
  intros Hbody Hhandler p r p'. unfold try_except.
  destruct (body p) as [[a|e] p1] eqn:Hfirst.
  - intros [= <- <-]. by eapply Hbody.
  - destruct (catches e).
    + intros Hrest. destruct (Hbody p _ p1 Hfirst) as (new1 & Heq1 & Hall1).
      destruct (Hhandler e p1 r p' Hrest) as (new2 & Heq2 & Hall2).
      exists (new1 ++ new2). rewrite Heq2, Heq1, <- app_assoc.
      split; [done | by apply Forall_app].
    + intros [= <- <-]. by eapply Hbody.
Qed.

Lemma reads_only_ensure_credentials config :
  reads_only (P := P) (gcp_logging._ensure_credentials_file config).
Proof.
  apply reads_only_pure. intros p r p'. apply ensure_credentials_file_calls.
Qed.

Ltac reads :=
  repeat first
    [ apply reads_only_ret | apply reads_only_raise | apply reads_only_lift
    | apply reads_only_system | apply reads_only_ensure_credentials
    | apply reads_only_service; reflexivity
    | apply reads_only_bind; [|intros ?]
    | apply reads_only_try; [|intros ?]
    | progress unfold github.report_error
    | match goal with
      | |- reads_only (match ?found with _ => _ end) => destruct found
      end ].

Lemma reads_only_query_logs config (filter_str limit : pyvalue) :
  reads_only (P := P) (gcp_logging.query_logs config filter_str limit).
Proof. unfold gcp_logging.query_logs, gcp_logging._get_client. reads. Qed.

Lemma reads_only_list_log_entries config (function_name hours_ago limit : pyvalue) :
  reads_only (P := P) (gcp_logging.list_log_entries config function_name hours_ago limit).
Proof.
  unfold gcp_logging.list_log_entries. reads.
Qed.

Lemma reads_only_list_repo_files config (path : pyvalue) :
  reads_only (P := P) (github.list_repo_files config path).
Proof. unfold github.list_repo_files, github._get_repo. reads. Qed.

Lemma reads_only_get_file_content config (path ref : pyvalue) :
  reads_only (P := P) (github.get_file_content config path ref).
Proof.
  unfold github.get_file_content, github._get_repo. reads.
Qed.

Lemma reads_only_dispatch tool_name (arguments : pyvalue) config :
  tool_name ∈ read_tools → reads_only (P := P) (tools.dispatch tool_name arguments config).
Proof.
  intros Hin. unfold read_tools in Hin.
  repeat (apply elem_of_cons in Hin as [->|Hin]); [..|by apply elem_of_nil in Hin];
    resolve_handler; reads.
Qed.

(** A tool that is not one of the three that write makes no change to the
    repository: it is one of the four that read, or it is not registered and
    nothing is called. *)
Lemma dispatch_quiet tool_name (arguments : pyvalue) config :
  tool_name ∉ write_tools → reads_only (P := P) (tools.dispatch tool_name arguments config).
Proof.
  intros Hquiet. destruct (decide (registered tool_name)) as [Hreg|Hreg].
  - apply reads_only_dispatch. apply registered_cases in Hreg.
    destruct Hreg as [->|[->|[->|[->|[->|[->| ->]]]]]];
      first [ by unfold read_tools; in_list
            | exfalso; apply Hquiet; unfold write_tools; in_list ].
  - apply reads_only_pure. intros p r p'. unfold tools.dispatch.
    rewrite (handlers_unregistered _ _ Hreg). by intros [= _ <-].
Qed.

(** The four tools that read ([query_logs], [list_log_entries],
    [list_repo_files], [get_file_content]) never change the repository:
    whatever their arguments and whatever the services answer, the calls
    they make are none of [create_git_ref], [update_file], [create_file] and
    [create_pull]. *)
Theorem read_tools_never_write tool_name (arguments : pyvalue) config p r p' :
  tool_name ∈ read_tools →
  tools.dispatch tool_name arguments config p = (r, p') →
  ∃ new, api_calls p' = api_calls p ++ new ∧ Forall (λ c, is_write c = false) new.
Proof. intros Hin. by apply reads_only_dispatch. Qed.

(** The tool calls of one message change the repository only if one of them
    names a tool that writes. *)
Lemma run_tool_calls_quiet self calls (s : agent.state (P := P)) r s' :
  (∀ call, call ∈ calls → function_name call ∉ write_tools) →
  agent.run_tool_calls self calls s = (r, s') →
  agent.model_calls s' = agent.model_calls s ∧
  ∃ new, api_calls (agent.proc s') = api_calls (agent.proc s) ++ new ∧
         Forall (λ c, is_write c = false) new.
Proof.
  revert s. induction calls as [|call calls IH]; intros s Hquiet.
  { intros [= _ <-]. split; [done|]. exists []. by rewrite app_nil_r. }
  cbn [agent.run_tool_calls].
  destruct (argument_error (P := P) call) as [e|] eqn:Hargs.
  - rewrite (run_tool_call_stopped self call s e Hargs). intros [= _ <-].
    split; [done|]. exists []. by rewrite app_nil_r.
  - destruct (run_tool_call_spec self call s Hargs)
      as (arguments & result & p1 & _ & Hdispatch & Hone).
    rewrite Hone. intros Hrest. apply IH in Hrest as (Hcalls & new2 & Heq2 & Hall2).
    2:{ intros call' Hin. apply Hquiet. by right. }
    apply dispatch_quiet in Hdispatch as (new1 & Heq1 & Hall1).
    2:{ apply Hquiet. by left. }
    cbn in *. split; [done|]. exists (new1 ++ new2).
    rewrite Heq2, Heq1, <- app_assoc. split; [done | by apply Forall_app].
Qed.

Lemma create_calls self (s : agent.state (P := P)) r s1 :
  agent.create self s = (r, s1) →
  api_calls (agent.proc s1) = api_calls (agent.proc s).
Proof.
  unfold agent.create. destruct (chat_completions_create _ _ _ _ _).
  by intros [= _ <-].
Qed.

Lemma loop_quiet self iterations (s : agent.state (P := P)) r s' :
  agent.loop self iterations s = (r, s') →
  (∀ c m call,
     c ∈ agent.model_calls s' → first_message c = Some m → call ∈ requests m →
     function_name call ∉ write_tools) →
  ∃ new, api_calls (agent.proc s') = api_calls (agent.proc s) ++ new ∧
         Forall (λ c, is_write c = false) new.
Proof.
  revert s. induction iterations as [|iteration rest IH]; intros s Hloop Hquiet.
  { injection Hloop as _ <-. exists []. by rewrite app_nil_r. }
  cbn [agent.loop] in Hloop.
  destruct (agent.create self s) as [r0 s1] eqn:Hcreate.
  apply create_calls in Hcreate as Hsame.
  destruct (create_spec self s r0 s1 Hcreate) as [_ Hsent].
  destruct r0 as [completion|e].
  2:{ injection Hloop as _ <-. exists []. by rewrite app_nil_r. }
  destruct (choices completion) as [|m others] eqn:Hchoices.
  { injection Hloop as _ <-. exists []. by rewrite app_nil_r. }
  destruct (tool_calls m) as [[|call calls]|] eqn:Hrequests;
    try (injection Hloop as _ <-; exists []; by rewrite app_nil_r).
  set (s2 := agent.append (message_object m) s1) in Hloop.
  destruct (run_tool_calls_spec self (call :: calls) s2)
    as (results & o & s3 & Htools & _ & _ & Hkept & _).
  rewrite Htools in Hloop.
  set (c0 := {| agent.snapshot := agent.messages s;
                agent.response := Return completion |}) in *.
  assert (∀ call', call' ∈ call :: calls → c0 ∈ agent.model_calls s' →
                   function_name call' ∉ write_tools) as Hnames.
  { intros call' Hin Hc. apply (Hquiet c0 m); [done | |].
    - unfold first_message. cbn. by rewrite Hchoices.
    - unfold requests. by rewrite Hrequests. }
  destruct o as [[]|e].
  - apply loop_trace in Hloop as Htrace. destruct Htrace as (later & Hlater & _).
    apply run_tool_calls_quiet in Htools as (_ & new1 & Heq1 & Hall1).
    + destruct (IH s3 Hloop Hquiet) as (new2 & Heq2 & Hall2).
      exists (new1 ++ new2). rewrite Heq2, Heq1, <- app_assoc. cbn. rewrite Hsame.
      split; [done | by apply Forall_app].
    + intros call' Hin. apply Hnames; [done|].
      rewrite Hlater, Hkept. cbn. rewrite Hsent. set_solver.
  - injection Hloop as _ <-.
    apply run_tool_calls_quiet in Htools as (_ & new1 & Heq1 & Hall1).
    + exists new1. rewrite Heq1. cbn. by rewrite Hsame.
    + intros call' Hin. apply Hnames; [done|].
      rewrite Hkept. cbn. rewrite Hsent. set_solver.
Qed.

Lemma requested_names_spec (calls : list agent.model_call) c m call :
  c ∈ calls → first_message c = Some m → call ∈ requests m →
  function_name call ∈ requested_names calls.
Proof.
  intros Hc Hm Hcall. induction calls as [|c0 calls IH]; [by apply elem_of_nil in Hc|].
  unfold requested_names. cbn. apply elem_of_app.
  apply elem_of_cons in Hc as [<-|Hc].
  - left. rewrite Hm. by apply list_elem_of_fmap_2.
  - right. by apply IH.
Qed.

(** A run changes the repository only on request: if none of the tool calls
    the model asked for names [create_branch], [commit_file_change] or
    [create_pull_request], then, whatever the services answer and however
    the run ends, none of [create_git_ref], [update_file], [create_file] and
    [create_pull] was called. *)
Theorem run_writes_only_on_request self p r s' :
  agent.run SYSTEM_PROMPT self p = (r, s') →
  (∀ c m call,
     c ∈ agent.model_calls s' → first_message c = Some m → call ∈ requests m →
     function_name call ∉ write_tools) →
  ∃ new, api_calls (agent.proc s') = api_calls p ++ new ∧
         Forall (λ c, is_write c = false) new.
Proof.
  unfold agent.run.
  destruct (agent.run_exit SYSTEM_PROMPT self p) as [r0 s0] eqn:Hexit.
  intros Hrun Hquiet. assert (s0 = s') as -> by (by destruct r0; injection Hrun).
  clear Hrun. revert Hexit. unfold agent.run_exit.
  repeat (destruct (config_get _ _);
          [|intros [= _ <-]; exists []; by rewrite app_nil_r]).
  intros Hloop. by apply loop_quiet in Hloop.
Qed.

End tool_effects.

(** ** More on the repository tools *)

Section repository_errors.
Context {P : Platform}.
Implicit Types (config : gmap string string) (p : process P).

Lemma try_except_github {A : Type} (body : M P A) (handler : exn → M P A) p e p' :
  try_except body is_GithubException handler p = (Raise e, p') →
  is_GithubException e = true →
  ∃ e0 q, handler e0 q = (Raise e, p').
Proof.
  unfold try_except. destruct (body p) as [[a|e0] q]; [done|].
  destruct (is_GithubException e0) eqn:Hclass.
  - intros Hrun _. by exists e0, q.
  - intros [= <- <-]. congruence.
Qed.

Lemma opened_escape {A : Type} config (rest : Repository P → M P A) p e p' :
  bind (github._get_repo config) rest p = (Raise e, p') →
  (∀ repo q, rest repo q ≠ (Raise e, p')) →
  github._get_repo config p = (Raise e, p').
Proof.
  unfold bind. destruct (github._get_repo config p) as [[repo|e0] q].
  - intros Hrun Hno. by destruct (Hno repo q).
  - by intros [= <- <-] _.
Qed.

Ltac report_returns :=
  match goal with
  | H : github.report_error _ _ = (Raise _, _) |- _ => discriminate H
  end.

(** A GitHub error leaves a repository tool only when the repository could
    not be opened: once [_get_repo] has returned, every [GithubException] of
    a later call is turned into an error payload, in each of the five
    tools. *)
Theorem github_errors_escape_only_from_open config p e p' :
  is_GithubException e = true →
  (∀ path,
     github.list_repo_files config path p = (Raise e, p') →
     github._get_repo config p = (Raise e, p')) ∧
  (∀ path ref,
     github.get_file_content config path ref p = (Raise e, p') →
     github._get_repo config p = (Raise e, p')) ∧
  (∀ branch_name,
     github.create_branch config branch_name p = (Raise e, p') →
     github._get_repo config p = (Raise e, p')) ∧
  (∀ path content message branch,
     github.commit_file_change config path content message branch p = (Raise e, p') →
     github._get_repo config p = (Raise e, p')) ∧
  (∀ title body head_branch base_branch,
     github.create_pull_request config title body head_branch base_branch p
       = (Raise e, p') →
     github._get_repo config p = (Raise e, p')).
Proof.
  intros Hclass. split_and!; intros; (eapply opened_escape; [eassumption|]);
    intros repo q Hrun;
    apply try_except_github in Hrun as (e0 & q0 & Hrun); try done;
    try report_returns.
  apply try_except_github in Hrun as (e1 & q1 & Hrun); [report_returns | done].
Qed.

(** [create_branch] reads the head of [main] and creates
    [refs/heads/<name>] at the sha it has just read, and at no other; when
    the head of [main] cannot be read, nothing is created. *)
Theorem create_branch_from_main
    config (branch_name : pyvalue) p r p' token repo_name repo w1 main w2 :
  github.create_branch config branch_name p = (r, p') →
  config !! "GITHUB_TOKEN" = Some token →
  config !! "GITHUB_REPO" = Some repo_name →
  get_repo P token repo_name (world p) = (Return repo, w1) →
  get_git_ref P repo "heads/main" w1 = (main, w2) →
  let opened := [call_get_repo token repo_name; call_get_git_ref "heads/main"] in
  let ref := "refs/heads/" +:+ py_str P branch_name in
  (∀ e, main = Raise e →
        api_calls p' = api_calls p ++ opened ∧ world p' = w2 ∧
        r = if is_GithubException e then Return (error_payload (str_exn e))
            else Raise e) ∧
  (∀ sha made w3,
     main = Return sha →
     create_git_ref P repo ref sha w2 = (made, w3) →
     api_calls p' = api_calls p ++ opened ++ [call_create_git_ref ref sha] ∧
     world p' = w3 ∧
     r = match made with
         | Return _ =>
             Return (json.dumps (PDict [ ("success", PBool true);
                                         ("branch", branch_name);
                                         ("base_sha", PStr sha) ]))
         | Raise e =>
             if is_GithubException e then Return (error_payload (str_exn e))
             else Raise e
         end).
Proof.
  intros Hrun Htoken Hname Hrepo Hmain. revert Hrun.
  unfold github.create_branch, github._get_repo, github.report_error, config_get.
  rewrite Htoken, Hname.
  unfold bind, try_except, service, lift, ret.
  cbn. rewrite Hrepo. cbn. rewrite Hmain. cbn.
  destruct main as [sha|e]; cbn.
  - intros Hrun. split; [by intros e [=]|].
    intros sha' made w3 [= <-] Hmade. rewrite Hmade in Hrun. cbn in Hrun.
    destruct made as [[]|e]; cbn in Hrun.
    + injection Hrun as <- <-. cbn. by flat.
    + destruct (is_GithubException e); injection Hrun as <- <-; cbn; by flat.
  - intros Hrun. split; [|by intros sha made w3 [=]].
    intros e' [= <-].
    destruct (is_GithubException e); injection Hrun as <- <-; cbn; by flat.
Qed.

(** [get_file_content] returns the text of the file as it is, with no
    wrapping, and the error payload when the lookup raises a GitHub error:
    a file whose text is an error payload reads exactly as the failure of
    that message does. *)
Theorem get_file_content_verbatim
    config (path ref : pyvalue) p r p' token repo_name repo w1 found w2 :
  github.get_file_content config path ref p = (r, p') →
  config !! "GITHUB_TOKEN" = Some token →
  config !! "GITHUB_REPO" = Some repo_name →
  get_repo P token repo_name (world p) = (Return repo, w1) →
  get_contents P repo path (Some ref) w1 = (found, w2) →
  (∀ f text, found = Return (one_file f) → cf_text f = Return text → r = Return text) ∧
  (∀ msg, found = Raise (GithubException msg) → r = Return (error_payload msg)) ∧
  (∀ f msg,
     found = Return (one_file f) → cf_text f = Return (error_payload msg) →
     r = Return (error_payload msg)) ∧
  (∀ entries,
     found = Return (directory entries) →
     r = Raise (AttributeError "'list' object has no attribute 'decoded_content'")) ∧
  api_calls p' =
    api_calls p ++ [call_get_repo token repo_name; call_get_contents path (Some ref)].
Proof.
  intros Hrun Htoken Hname Hrepo Hfound. revert Hrun.
  unfold github.get_file_content, github._get_repo, github.report_error, config_get.
  rewrite Htoken, Hname.
  unfold bind, try_except, service, lift, ret, raise.
  cbn. rewrite Hrepo. cbn. rewrite Hfound. cbn.
  destruct found as [[f|entries]|e]; cbn.
  - destruct (cf_text f) as [text|e] eqn:Htext; cbn.
    + intros [= <- <-]. split_and!; try done; cbn; try by flat.
      * by intros f' text' [= <-]; rewrite Htext; intros [= <-].
      * by intros f' msg [= <-]; rewrite Htext; intros [= <-].
    + destruct (is_GithubException e); intros [= <- <-];
        (split_and!; try done; cbn; try by flat);
        intros f' text' [= <-]; by rewrite Htext.
  - intros [= <- <-]. split_and!; try done. cbn. by flat.
  - destruct e; cbn; intros [= <- <-]; (split_and!; try done; cbn; try by flat);
      by intros msg' [= <-].
Qed.

End repository_errors.

(** ** More on the log tools *)

Section log_tool_behaviour.
Context {P : Platform}.
Implicit Types (config : gmap string string) (p : process P).

Ltac run_process :=
  unfold bind, system, service, lift, ret, raise, try_except,
    read_temp_credentials_path, assign_temp_credentials_path in *;
  repeat (case_match; simplify_eq/=).

(** A successful [_ensure_credentials_file] leaves the path it returns in
    the global [_temp_credentials_path] and reaches no service; and as long
    as the file of a non-empty path exists, the next call returns the same
    path, writes no new file and does not even read the key from the
    configuration. *)
Theorem ensure_credentials_file_caches config p path p1 :
  gcp_logging._ensure_credentials_file config p = (Return path, p1) →
  temp_credentials_path p1 = Some path ∧
  api_calls p1 = api_calls p ∧
  (path ≠ "" →
   ∀ config' w,
     os_path_exists P path (world p1) = (true, w) →
     gcp_logging._ensure_credentials_file config' p1 =
       (Return path,
        {| temp_credentials_path := Some path;
           api_calls := api_calls p1;
           world := w |})).
Proof.
  intros Hrun.
  assert (temp_credentials_path p1 = Some path) as Hcached.
  { revert Hrun. unfold gcp_logging._ensure_credentials_file. intros Hrun.
    by run_process. }
  split_and!; [done | by eapply ensure_credentials_file_calls |].
  intros Hne config' w Hexists.
  unfold gcp_logging._ensure_credentials_file.
  unfold bind, read_temp_credentials_path, system, ret. rewrite Hcached.
  destruct (String.eqb_spec path "") as [|_]; [done|]. cbn.
  rewrite Hexists. cbn. by rewrite Hcached.
Qed.

(** When [_ensure_credentials_file] raises, the key is missing from the
    configuration, or it does not decode, or the file could not be written;
    the global is left as it was, so the next call tries again. *)
Theorem ensure_credentials_file_failure config p e p1 :
  gcp_logging._ensure_credentials_file config p = (Raise e, p1) →
  temp_credentials_path p1 = temp_credentials_path p ∧
  api_calls p1 = api_calls p ∧
  ((config !! "GCP_SA_KEY_BASE64" = None ∧ e = KeyError "GCP_SA_KEY_BASE64") ∨
   (∃ key, config !! "GCP_SA_KEY_BASE64" = Some key ∧ b64decode P key = Raise e) ∨
   (∃ key sa_json w w',
      config !! "GCP_SA_KEY_BASE64" = Some key ∧
      b64decode P key = Return sa_json ∧
      mkstemp_write P sa_json w = (Raise e, w'))).
Proof.
  intros Hrun. split_and!; [|by eapply ensure_credentials_file_calls|];
    revert Hrun; unfold gcp_logging._ensure_credentials_file, config_get;
    intros Hrun; run_process; eauto 10.
Qed.

(** The dict [query_logs] builds for an entry starts with the keys
    [timestamp], [severity] and [resource]; its severity is a non-empty
    text, [DEFAULT] when the entry has none; it never holds both a
    [text_payload] and a [payload], and a [text_payload] it holds is a true
    value; it holds an [http_request] exactly when the entry has a true
    one. *)
Theorem log_entry_shape (entry : LogEntry (datetime P)) :
  ∃ items,
    gcp_logging.log_entry entry = PDict items ∧
    take 3 (map fst items) = ["timestamp"; "severity"; "resource"] ∧
    NoDup (map fst items) ∧
    (∃ level, dict_find "severity" items = Some (PStr level) ∧ level ≠ "" ∧
              (severity entry = None ∨ severity entry = Some "" → level = "DEFAULT")) ∧
    ¬ ("text_payload" ∈ map fst items ∧ "payload" ∈ map fst items) ∧
    (∀ v, dict_find "text_payload" items = Some v → truthy v = true) ∧
    ("http_request" ∈ map fst items ↔
     ∃ request, http_request entry = Some request ∧ truthy request = true).
Proof.
  destruct entry as [time level place text load request].
  unfold gcp_logging.log_entry. cbn [timestamp severity resource text_payload
                                    payload http_request].
  assert (∃ level', (match level with
                     | Some s => if negb (String.eqb s "") then PStr s else PStr "DEFAULT"
                     | None => PStr "DEFAULT"
                     end) = PStr level' ∧ level' ≠ "" ∧
                    (level = None ∨ level = Some "" → level' = "DEFAULT"))
    as (level' & -> & Hlevel & Hdefault).
  { destruct level as [s|]; [|by exists "DEFAULT"; split_and!].
    destruct (String.eqb_spec s "") as [->|Hne]; cbn.
    - by exists "DEFAULT".
    - exists s. split_and!; try done. by intros [[=]|[= ->]]. }
  generalize (match time with Some t => PStr (isoformat P t) | None => PNone end).
  generalize (PDict [("type", match place with
                              | Some (type, _) => PStr type
                              | None => PNone
                              end);
                     ("labels", match place with
                                | Some (_, labels) => PDict labels
                                | None => PDict []
                                end)]).
  intros place' time'.
  set (base := [("timestamp", time'); ("severity", PStr level'); ("resource", place')]).
  set (of_payload := match load with
                     | PStr s =>
                         if truthy (PStr s) then base ++ [("text_payload", PStr s)]
                         else base
                     | PDict d => base ++ [("payload", PDict d)]
                     | _ => base
                     end).
  set (with_payload := match text with
                       | Some text' =>
                           if truthy text' then base ++ [("text_payload", text')]
                           else of_payload
                       | None => of_payload
                       end).
  assert (with_payload = base ∨
          (∃ v, truthy v = true ∧ with_payload = base ++ [("text_payload", v)]) ∨
          (∃ d, with_payload = base ++ [("payload", PDict d)])) as Hpayload.
  { assert (of_payload = base ∨
            (∃ v, truthy v = true ∧ of_payload = base ++ [("text_payload", v)]) ∨
            (∃ d, of_payload = base ++ [("payload", PDict d)])) as Hof.
    { subst of_payload. destruct load as [| | |s| |d]; eauto.
      destruct (truthy (PStr s)) eqn:Hs; eauto. }
    subst with_payload. destruct text as [text'|]; [|done].
    destruct (truthy text') eqn:Htext; eauto. }
  clearbody with_payload. clear of_payload. subst base.
  assert (∀ keys : list string,
            keys = ["timestamp"; "severity"; "resource"] ∨
            keys = ["timestamp"; "severity"; "resource"; "text_payload"] ∨
            keys = ["timestamp"; "severity"; "resource"; "payload"] ∨
            keys = ["timestamp"; "severity"; "resource"; "http_request"] ∨
            keys = ["timestamp"; "severity"; "resource"; "text_payload"; "http_request"] ∨
            keys = ["timestamp"; "severity"; "resource"; "payload"; "http_request"] →
            take 3 keys = ["timestamp"; "severity"; "resource"] ∧ NoDup keys ∧
            ¬ ("text_payload" ∈ keys ∧ "payload" ∈ keys)) as Hkeys.
  { intros keys Hcases.
    repeat (destruct Hcases as [->|Hcases]); try subst keys;
      (split_and!; [reflexivity | by apply (bool_decide_unpack _); vm_compute |]);
      intros [Ha Hb];
      first [ by apply (bool_decide_pack _) in Ha; vm_compute in Ha
            | by apply (bool_decide_pack _) in Hb; vm_compute in Hb ]. }
  assert (∀ request', (∃ request, Some request' = Some request ∧ truthy request = true)
                      ↔ truthy request' = true) as Hsome.
  { intros request'. split; [by intros (? & [= <-] & ?) | by eexists]. }
  assert (∀ keys : list string, "http_request" ∈ keys ↔ bool_decide ("http_request" ∈ keys))
    as Hin.
  { intros keys. split; [apply bool_decide_pack | apply bool_decide_unpack]. }
  destruct request as [request'|]; [destruct (truthy request') eqn:Hrequest|];
    destruct Hpayload as [->|[(v & Hv & ->)|(d & ->)]];
    (eexists; split; [reflexivity|]);
    (split_and!;
     [ apply Hkeys; cbn; tauto
     | apply Hkeys; cbn; tauto
     | by exists level'
     | apply Hkeys; cbn; tauto
     | cbn; intros v' Hv'; by simplify_eq
     | rewrite ?Hsome, Hin; cbn; first
         [ by rewrite Hrequest
         | split; [done | by intros (? & [=] & _)] ] ]).
Qed.

Lemma dumps_list_opens (n : nat) (items : list pyvalue) :
  ∃ rest, json.dumps_indent n (PList items) = String "[" rest.
Proof. destruct items; eexists; reflexivity. Qed.

Lemma error_payload_opens (text : string) :
  ∃ rest, error_payload text = String "{" rest.
Proof. eexists. rewrite error_payload_unfold. reflexivity. Qed.

(** The log tools report a failure only by raising: a text [query_logs] or
    [list_log_entries] returns is a JSON array, never an error payload; and
    it is returned only after a client was made for the project of the
    configuration and asked once for entries, up to the limit. *)
Theorem log_tools_return_arrays config (limit : pyvalue) p text p' :
  (∃ filter_str,
     gcp_logging.query_logs config filter_str limit p = (Return text, p')) ∨
  (∃ function_name hours_ago,
     gcp_logging.list_log_entries config function_name hours_ago limit p
       = (Return text, p')) →
  (∃ rest, text = String "[" rest) ∧
  (∀ msg, text ≠ error_payload msg) ∧
  (∃ project filter_str,
     config !! "GCP_PROJECT_ID" = Some project ∧
     api_calls p' =
       api_calls p ++ [call_logging_client project; call_list_entries filter_str limit]).
Proof.
  assert (∀ f q,
            gcp_logging.query_logs config f limit q = (Return text, p') →
            (∃ rest, text = String "[" rest) ∧
            (∀ msg, text ≠ error_payload msg) ∧
            ∃ project filter_str,
              config !! "GCP_PROJECT_ID" = Some project ∧
              api_calls p' =
                api_calls q ++ [call_logging_client project;
                                call_list_entries filter_str limit])
    as Hquery.
  { intros f q. unfold gcp_logging.query_logs, gcp_logging._get_client.
    unfold bind at 1 2 3.
    destruct (gcp_logging._ensure_credentials_file config q) as [[path|e] q1] eqn:Hcred;
      [|done].
    apply ensure_credentials_file_calls in Hcred as Hcalls.
    unfold config_get. intros Hrun. run_process.
    match goal with
    | |- context [json.dumps_indent 2 (PList ?results)] =>
        destruct (dumps_list_opens 2 results) as [rest Hrest]
    end.
    split_and!; [by eexists | |].
    - intros msg. rewrite Hrest.
      by destruct (error_payload_opens msg) as [rest' ->].
    - eexists _, _. split; [done|]. cbn. rewrite Hcalls. by flat. }
  intros [[f Hrun]|(function_name & hours_ago & Hrun)]; [by eapply Hquery|].
  revert Hrun. unfold gcp_logging.list_log_entries. unfold bind at 1 2 3 4.
  unfold system, lift. destruct (datetime_now_utc P (world p)) as [now w].
  destruct (timedelta_hours P hours_ago) as [delta|e]; [|done].
  destruct (datetime_sub P now delta) as [past|e]; [|done].
  destruct (config_get config "GCP_PROJECT_ID") as [project|e]; [|done].
  intros Hrun. by apply Hquery in Hrun.
Qed.

End log_tool_behaviour.

(** ** The further properties on scripted runs *)

(** An environment with one variable more than the six: the variable does
    not get into the configuration. *)
Lemma load_config_exact_witness :
  let environ := <["HOME" := "/root"]> scripted.environ in
  let config := default ∅ (agent_config.load_config environ) in
  environ !! "HOME" = Some "/root" ∧
  agent_config.load_config environ = Some config ∧
  config !! "HOME" = None ∧
  config !! "GITHUB_REPO" = Some "acme/shop".
Proof.
  intros environ config.
  assert (agent_config.load_config environ = Some config) as Hload
    by (vm_compute; reflexivity).
  split_and!; [vm_compute; reflexivity | exact Hload | |].
  - rewrite (load_config_exact environ config Hload "HOME"). vm_compute. reflexivity.
  - rewrite (load_config_exact environ config Hload "GITHUB_REPO").
    vm_compute. reflexivity.
Defined.

(** A run of two model calls: a tool call, then the final answer. *)
Lemma transcripts_answered_witness :
  let p := scripted.start (scripted.healthy
             [ scripted.asks [scripted.call "call_1" "list_repo_files" "{}"];
               scripted.says (Some "Done.") ]) in
  let outcome := agent.run_exit scripted.prompt (scripted.debug_agent 5) p in
  fst outcome = Return (agent.completed 2 "Done.") ∧
  length (agent.model_calls (snd outcome)) = 2%nat ∧
  answered (agent.messages (snd outcome)) ∧
  ∀ c, c ∈ agent.model_calls (snd outcome) → answered (agent.snapshot c).
Proof.
  intros p outcome.
  destruct (transcripts_answered scripted.prompt (scripted.debug_agent 5) p
              (fst outcome) (snd outcome) (surjective_pairing outcome))
    as (Hsent & Hfinal & _).
  assert (fst outcome = Return (agent.completed 2 "Done.")) as Hreturned
    by (vm_compute; reflexivity).
  split_and!; [exact Hreturned | vm_compute; reflexivity | | exact Hsent].
  apply Hfinal. rewrite Hreturned. exact I.
Defined.

(** The model cannot be reached: the run raises what the call raised. *)
Lemma run_raises_only_witness :
  let p := scripted.start (scripted.healthy []) in
  let outcome := agent.run scripted.prompt (scripted.debug_agent 3) p in
  fst outcome = Raise (OtherException "Connection error.") ∧
  ∃ c, last (agent.model_calls (snd outcome)) = Some c ∧
       agent.snapshot c = agent.messages (snd outcome) ∧
       agent.response c = Raise (OtherException "Connection error.").
Proof.
  intros p outcome.
  assert (agent.run scripted.prompt (scripted.debug_agent 3) p =
            (Raise (OtherException "Connection error."), snd outcome)) as Hrun
    by (vm_compute; reflexivity).
  split; [vm_compute; reflexivity|].
  assert (first_message <$> last (agent.model_calls (snd outcome)) = Some None)
    as Hnone by (vm_compute; reflexivity).
  destruct (run_raises_only scripted.prompt (scripted.debug_agent 3) p _ _ Hrun)
    as [(key & Hkey & _)
       |[(c & Hlast & Hsent & [Hraised|(completion & _ & _ & Hindex)])
        |(c & m & results & call & Hlast & Hm & _)]].
  - discriminate Hkey.
  - exists c. split_and!; [exact Hlast | exact Hsent | exact Hraised].
  - discriminate Hindex.
  - rewrite Hlast in Hnone. cbn in Hnone. rewrite Hm in Hnone. discriminate Hnone.
Defined.

(** A bound below zero. *)
Lemma nonpositive_bound_witness :
  let p := scripted.start (scripted.healthy [scripted.says (Some "Done.")]) in
  agent.max_iterations (scripted.debug_agent (-2)) ≤ 0 ∧
  agent.run scripted.prompt (scripted.debug_agent (-2)) p =
    (Return "Agent reached maximum iterations without completing the task.",
     @agent.Build_state _
       [ role_content "system" scripted.prompt;
         role_content "user" (agent.get_user_prompt "checkout" "acme-prod") ]
       [] p).
Proof.
  intros p. split; [cbn; lia|].
  apply (nonpositive_bound scripted.prompt (scripted.debug_agent (-2)) p
           "checkout" "acme-prod").
  - cbn. lia.
  - vm_compute. reflexivity.
  - vm_compute. reflexivity.
  - exists "acme/shop". vm_compute. reflexivity.
Defined.

(** The two transcripts submitted in a run of two model calls. *)
Lemma snapshots_grow_witness :
  let p := scripted.start (scripted.healthy
             [ scripted.asks [scripted.call "call_1" "list_repo_files" "{}"];
               scripted.says (Some "Done.") ]) in
  let outcome := agent.run_exit scripted.prompt (scripted.debug_agent 5) p in
  ∃ first second,
    agent.model_calls (snd outcome) = [first; second] ∧
    length (agent.snapshot first) = 2%nat ∧
    length (agent.snapshot second) = 4%nat ∧
    agent.snapshot first `prefix_of` agent.snapshot second ∧
    agent.snapshot second `prefix_of` agent.messages (snd outcome).
Proof.
  intros p outcome.
  destruct (snapshots_grow scripted.prompt (scripted.debug_agent 5) p
              (fst outcome) (snd outcome) (surjective_pairing outcome))
    as [Hall Hordered].
  destruct (agent.model_calls (snd outcome)) as [|first [|second [|third rest]]] eqn:Hcalls;
    try (vm_compute in Hcalls; discriminate Hcalls).
  exists first, second.
  split_and!.
  - reflexivity.
  - vm_compute in Hcalls. by injection Hcalls as <- <-.
  - vm_compute in Hcalls. by injection Hcalls as <- <-.
  - apply (Hordered 0%nat 1%nat first second); [lia | reflexivity | reflexivity].
  - apply (Hall second). by right; left.
Defined.

(** A list where the arguments of [get_file_content] should be. *)
Lemma dispatch_non_mapping_witness :
  let p := scripted.start (scripted.healthy []) in
  registered "get_file_content" ∧
  (∀ items, PList [PStr "src/main.py"] ≠ PDict items) ∧
  ∃ e,
    ((∃ msg, e = TypeError msg) ∨ (∃ msg, e = AttributeError msg)) ∧
    tools.dispatch "get_file_content" (PList [PStr "src/main.py"]) scripted.config p =
      (Return (error_payload (failure_text "get_file_content" e)), p).
Proof.
  intros p.
  assert (registered "get_file_content") as Hreg by (unfold registered; cbn; in_list).
  assert (∀ items, PList [PStr "src/main.py"] ≠ PDict items) as Hlist
    by (intros items; discriminate).
  split_and!; [exact Hreg | exact Hlist |].
  exact (dispatch_non_mapping "get_file_content" (PList [PStr "src/main.py"])
           scripted.config p Hreg Hlist).
Defined.

(** [list_repo_files] at the root of the repository. *)
Lemma read_tools_never_write_witness :
  let p := scripted.start (scripted.healthy []) in
  let outcome := tools.dispatch "list_repo_files" (PDict []) scripted.config p in
  "list_repo_files" ∈ read_tools ∧
  api_calls (snd outcome) =
    [call_get_repo "ghp_test" "acme/shop"; call_get_contents (PStr "") None] ∧
  ∃ new, api_calls (snd outcome) = api_calls p ++ new ∧
         Forall (λ c, is_write c = false) new.
Proof.
  intros p outcome.
  assert ("list_repo_files" ∈ read_tools) as Hin by (unfold read_tools; in_list).
  split_and!; [exact Hin | vm_compute; reflexivity |].
  exact (read_tools_never_write "list_repo_files" (PDict []) scripted.config p
           (fst outcome) (snd outcome) Hin (surjective_pairing outcome)).
Defined.

(** A run in which the model asks for a listing and for a tool that is not
    registered, then answers. *)
Lemma run_writes_only_on_request_witness :
  let p := scripted.start (scripted.healthy
             [ scripted.asks [ scripted.call "call_1" "list_repo_files" "{}";
                               scripted.call "call_2" "delete_repo" "{}" ];
               scripted.says (Some "Done.") ]) in
  let outcome := agent.run scripted.prompt (scripted.debug_agent 5) p in
  fst outcome = Return "Done." ∧
  ∃ new, api_calls (agent.proc (snd outcome)) = api_calls p ++ new ∧
         Forall (λ c, is_write c = false) new.
Proof.
  intros p outcome. split; [vm_compute; reflexivity|].
  apply (run_writes_only_on_request scripted.prompt (scripted.debug_agent 5) p
           (fst outcome) (snd outcome) (surjective_pairing outcome)).
  assert (requested_names (agent.model_calls (snd outcome)) =
            ["list_repo_files"; "delete_repo"]) as Hnames
    by (vm_compute; reflexivity).
  intros c m call Hc Hm Hcall Hwrite.
  pose proof (requested_names_spec _ c m call Hc Hm Hcall) as Hname.
  rewrite Hnames in Hname.
  repeat (apply elem_of_cons in Hname as [Hname|Hname]);
    [rewrite Hname in Hwrite; not_in_list Hwrite.. | by apply elem_of_nil in Hname].
Defined.

(** The token is rejected: the error of [_get_repo] leaves
    [list_repo_files]. *)
Lemma github_errors_escape_only_from_open_witness :
  let p := scripted.start scripted.bad_credentials in
  let e := GithubException "401 Bad credentials" in
  let p' := snd (github.list_repo_files scripted.config (PStr "") p) in
  is_GithubException e = true ∧
  github.list_repo_files scripted.config (PStr "") p = (Raise e, p') ∧
  github._get_repo scripted.config p = (Raise e, p').
Proof.
  intros p e p'.
  assert (github.list_repo_files scripted.config (PStr "") p = (Raise e, p')) as Hrun
    by (vm_compute; reflexivity).
  split_and!; [reflexivity | exact Hrun |].
  exact (proj1 (github_errors_escape_only_from_open scripted.config p e p' eq_refl)
           (PStr "") Hrun).
Defined.

(** A branch for a fix. *)
Lemma create_branch_from_main_witness :
  let p := scripted.start (scripted.healthy []) in
  let outcome := github.create_branch scripted.config (PStr "fix/total") p in
  fst outcome =
    Return (json.dumps (PDict [ ("success", PBool true);
                                ("branch", PStr "fix/total");
                                ("base_sha", PStr "0a1b2c") ])) ∧
  api_calls (snd outcome) =
    [ call_get_repo "ghp_test" "acme/shop";
      call_get_git_ref "heads/main";
      call_create_git_ref "refs/heads/fix/total" "0a1b2c" ].
Proof.
  intros p outcome.
  destruct (proj2 (create_branch_from_main
                     scripted.config (PStr "fix/total") p (fst outcome) (snd outcome)
                     "ghp_test" "acme/shop" () [] (Return "0a1b2c") []
                     (surjective_pairing outcome) eq_refl eq_refl eq_refl eq_refl)
              "0a1b2c" (Return ()) [] eq_refl eq_refl)
    as (Hcalls & _ & Hreturn).
  split; [exact Hreturn | exact Hcalls].
Defined.

(** The file of the scripted repository, read from [main]. *)
Lemma get_file_content_verbatim_witness :
  let p := scripted.start (scripted.healthy []) in
  let outcome :=
    github.get_file_content scripted.config (PStr "src/main.py") (PStr "main") p in
  fst outcome = Return "print(1)" ∧
  api_calls (snd outcome) =
    [ call_get_repo "ghp_test" "acme/shop";
      call_get_contents (PStr "src/main.py") (Some (PStr "main")) ].
Proof.
  intros p outcome.
  destruct (get_file_content_verbatim
              scripted.config (PStr "src/main.py") (PStr "main") p
              (fst outcome) (snd outcome)
              "ghp_test" "acme/shop" () [] (Return (one_file scripted.file)) []
              (surjective_pairing outcome) eq_refl eq_refl eq_refl eq_refl)
    as (Htext & _ & _ & _ & Hcalls).
  split; [exact (Htext scripted.file "print(1)" eq_refl eq_refl) | exact Hcalls].
Defined.

(** The first call writes the file; the second, with no key at all in the
    configuration, returns the same path. *)
Lemma ensure_credentials_file_caches_witness :
  let p := scripted.start (scripted.healthy []) in
  let path := "/tmp/gcp_sa_0.json" in
  let first := gcp_logging._ensure_credentials_file scripted.config p in
  first = (Return path, snd first) ∧
  temp_credentials_path p = None ∧
  temp_credentials_path (snd first) = Some path ∧
  gcp_logging._ensure_credentials_file ∅ (snd first) =
    (Return path,
     {| temp_credentials_path := Some path;
        api_calls := api_calls (snd first);
        world := world (snd first) |}).
Proof.
  intros p path first.
  assert (gcp_logging._ensure_credentials_file scripted.config p = (Return path, snd first))
    as Hrun by (vm_compute; reflexivity).
  destruct (ensure_credentials_file_caches scripted.config p path (snd first) Hrun)
    as (Hcached & _ & Hagain).
  split_and!; [exact Hrun | reflexivity | exact Hcached |].
  apply Hagain; [discriminate | reflexivity].
Defined.

(** No key in the configuration. *)
Lemma ensure_credentials_file_failure_witness :
  let p := scripted.start (scripted.healthy []) in
  let outcome := gcp_logging._ensure_credentials_file ∅ p in
  fst outcome = Raise (KeyError "GCP_SA_KEY_BASE64") ∧
  temp_credentials_path (snd outcome) = temp_credentials_path p ∧
  api_calls (snd outcome) = api_calls p.
Proof.
  intros p outcome.
  assert (gcp_logging._ensure_credentials_file ∅ p =
            (Raise (KeyError "GCP_SA_KEY_BASE64"), snd outcome)) as Hrun
    by (vm_compute; reflexivity).
  destruct (ensure_credentials_file_failure ∅ p _ (snd outcome) Hrun)
    as (Hglobal & Hcalls & _).
  split_and!; [vm_compute; reflexivity | exact Hglobal | exact Hcalls].
Defined.

(** A query that finds no entry. *)
Lemma log_tools_return_arrays_witness :
  let p := scripted.start (scripted.healthy []) in
  let filter_str := PStr "severity>=ERROR" in
  let outcome := gcp_logging.query_logs scripted.config filter_str (PInt 50) p in
  outcome = (Return "[]", snd outcome) ∧
  (∀ msg, "[]" ≠ error_payload msg) ∧
  ∃ project filter_str',
    scripted.config !! "GCP_PROJECT_ID" = Some project ∧
    api_calls (snd outcome) =
      api_calls p ++ [call_logging_client project; call_list_entries filter_str' (PInt 50)].
Proof.
  intros p filter_str outcome.
  assert (gcp_logging.query_logs scripted.config filter_str (PInt 50) p =
            (Return "[]", snd outcome)) as Hrun
    by (vm_compute; reflexivity).
  destruct (log_tools_return_arrays scripted.config (PInt 50) p "[]" (snd outcome)
              (or_introl (ex_intro _ filter_str Hrun)))
    as (_ & Hnot & Hcalls).
  split_and!; [exact Hrun | exact Hnot | exact Hcalls].
Defined.
